(** * Legislation explorer: query composition, hydration and pagination

    A shallow embedding of [lcc/views/country.py] (the country metadata
    filter) and [lcc/views/legislation.py] (the search view and the
    highlighting wrapper around the search results), together with the part
    of the Python, Django and elasticsearch-dsl behaviour these two files
    rely on. *)

From Stdlib Require Import String Ascii Bool Arith ZArith NArith QArith Lia List.
From Stdlib Require Import Permutation Sorted.
Import ListNotations.

Close Scope Q_scope.
Open Scope Z_scope.
Open Scope list_scope.

(* ------------------------------------------------------------------ *)
(** ** Python values *)
(* ------------------------------------------------------------------ *)

Module Py.

(** A Python [str] is a sequence of Unicode code points. *)
Definition pystr := list N.

(** ASCII literals of the source. *)
Definition u (s : string) : pystr :=
  List.map N_of_ascii (list_ascii_of_string s).

Fixpoint str_eqb (a b : pystr) : bool :=
  match a, b with
  | [], [] => true
  | x :: a', y :: b' => N.eqb x y && str_eqb a' b'
  | _, _ => false
  end.

(** [name in names] on a list of strings. *)
Definition str_in (x : pystr) (l : list pystr) : bool := existsb (str_eqb x) l.

Fixpoint starts_with (p s : pystr) : bool :=
  match p, s with
  | [], _ => true
  | x :: p', y :: s' => N.eqb x y && starts_with p' s'
  | _ :: _, [] => false
  end.

(** [sub in s] on strings. *)
Fixpoint contains (sub s : pystr) : bool :=
  starts_with sub s ||
  match s with
  | [] => false
  | _ :: s' => contains sub s'
  end.

(** [sep.join(parts)]. *)
Fixpoint join (sep : pystr) (parts : list pystr) : pystr :=
  match parts with
  | [] => []
  | [p] => p
  | p :: rest => p ++ sep ++ join sep rest
  end.

(** Left-to-right scan shared by [split] and [replace]: [skip] counts the
    characters of an occurrence of [sep] that are still to be passed over,
    [cur] is the current piece, reversed. *)
Fixpoint split_go (sep : pystr) (skip : nat) (cur : pystr) (s : pystr)
  : list pystr :=
  match s with
  | [] => [rev cur]
  | c :: s' =>
      match skip with
      | S k => split_go sep k cur s'
      | O =>
          if starts_with sep s
          then rev cur :: split_go sep (length sep - 1) [] s'
          else split_go sep 0 (c :: cur) s'
      end
  end.

(** [s.split(sep)] for a separator [c :: sep'] (an empty separator is a
    [ValueError] in Python, and never occurs here). *)
Definition split (c : N) (sep' : pystr) (s : pystr) : list pystr :=
  split_go (c :: sep') 0 [] s.

(** [s.replace(old, new)] for a non-empty [old]. *)
Definition replace (c : N) (old' : pystr) (new s : pystr) : pystr :=
  join new (split c old' s).

(** [s[a:-b]] for non-negative literals [a] and [b]. *)
Definition slice_from_to_end (a b : nat) (s : pystr) : pystr :=
  firstn (length s - b - a) (skipn a s).

(** Truthiness of a string: non-empty. *)
Definition truthy (s : pystr) : bool :=
  match s with [] => false | _ => true end.

(** *** Exceptions *)

Inductive exn : Type :=
| TypeError
| ValueError
| IndexError
| KeyError
| PageNotAnInteger
| EmptyPage.

Inductive result (A : Type) : Type :=
| Ok (a : A)
| Raise (e : exn).
Arguments Ok {A} a.
Arguments Raise {A} e.

Definition bind {A B} (r : result A) (k : A -> result B) : result B :=
  match r with
  | Ok a => k a
  | Raise e => Raise e
  end.

Definition raises {A} (r : result A) : Prop := exists e, r = Raise e.

(** *** [int(s)] on a string *)

(** Characters that [str.strip()] removes. *)
Definition is_space (c : N) : bool :=
  ((9 <=? c) && (c <=? 13))%N || ((28 <=? c) && (c <=? 32))%N ||
  (c =? 133)%N || (c =? 160)%N || (c =? 5760)%N ||
  ((8192 <=? c) && (c <=? 8202))%N || (c =? 8232)%N || (c =? 8233)%N ||
  (c =? 8239)%N || (c =? 8287)%N || (c =? 12288)%N.

Fixpoint lstrip (s : pystr) : pystr :=
  match s with
  | c :: s' => if is_space c then lstrip s' else s
  | [] => []
  end.

Definition strip (s : pystr) : pystr := rev (lstrip (rev (lstrip s))).

(** Value of a decimal digit. Only the ASCII digits are covered; the other
    Unicode decimal digits that [int] also accepts are read as malformed. *)
Definition digit (c : N) : option Z :=
  if ((48 <=? c) && (c <=? 57))%N then Some (Z.of_N c - 48) else None.

(** Digits with single underscores between them: [digit (["_"] digit)*].
    [acc] is the value read so far, [after_digit] says that the previous
    character was a digit. *)
Fixpoint digits (acc : Z) (after_digit : bool) (s : pystr) : option Z :=
  match s with
  | [] => if after_digit then Some acc else None
  | c :: s' =>
      match digit c with
      | Some d => digits (acc * 10 + d) true s'
      | None =>
          if (c =? 95)%N && after_digit
          then match s' with
               | [] => None
               | _ => digits acc false s'
               end
          else None
      end
  end.

Definition int_opt (s : pystr) : option Z :=
  match strip s with
  | 45%N :: s' => option_map Z.opp (digits 0 false s')
  | 43%N :: s' => digits 0 false s'
  | s' => digits 0 false s'
  end.

(** [int(s)]: [ValueError] on a malformed literal. *)
Definition int (s : pystr) : result Z :=
  match int_opt s with
  | Some z => Ok z
  | None => Raise ValueError
  end.

(** [[int(x) for x in l]]. *)
Fixpoint ints (l : list pystr) : result (list Z) :=
  match l with
  | [] => Ok []
  | x :: l' => bind (int x) (fun z => bind (ints l') (fun zs => Ok (z :: zs)))
  end.

(** [seq[i]] for an integer [i]: negative indices count from the end. *)
Definition index {A} (l : list A) (i : Z) : result A :=
  let n := Z.of_nat (length l) in
  let j := if i <? 0 then i + n else i in
  if (0 <=? j) && (j <? n)
  then match nth_error l (Z.to_nat j) with
       | Some x => Ok x
       | None => Raise IndexError
       end
  else Raise IndexError.

(** [functools.reduce(f, l)] without an initial value. *)
Definition reduce {A} (f : A -> A -> A) (l : list A) : result A :=
  match l with
  | [] => Raise TypeError
  | x :: l' => Ok (fold_left f l' x)
  end.

(** *** Calls with keyword arguments *)

(** A parameter of a [def]: its name and whether it has a default. *)
Record param := { p_name : string; p_default : bool }.

Definition has_param (sig : list param) (k : string) : bool :=
  existsb (fun p => String.eqb (p_name p) k) sig.

(** Binding of [npos] positional and the keyword arguments [kw] to a
    signature without [*args] and [**kwargs]: too many positionals, an
    unknown or doubly given keyword, or a missing parameter without default
    is a [TypeError]. Returns the names that received an argument. *)
Definition bind_arguments (sig : list param) (npos : nat) (kw : list string)
  : result (list string) :=
  if (length sig <? npos)%nat then Raise TypeError
  else
    let positional := List.map p_name (firstn npos sig) in
    if negb (forallb (has_param sig) kw) then Raise TypeError
    else if existsb (fun k => existsb (String.eqb k) positional) kw
    then Raise TypeError
    else
      let given := positional ++ kw in
      if forallb (fun p => p_default p ||
                           existsb (String.eqb (p_name p)) given) sig
      then Ok given
      else Raise TypeError.

End Py.

Notation "x <- c ;; k" := (Py.bind c (fun x => k))
  (at level 61, c at next level, right associativity).

(* ------------------------------------------------------------------ *)
(** ** Request parameters *)
(* ------------------------------------------------------------------ *)

Module Http.
Import Py.

(** [request.GET]: every key holds the list of the values given for it. *)
Definition QueryDict := list (string * list pystr).

(** [GET.getlist(key)]. *)
Fixpoint getlist (d : QueryDict) (key : string) : list pystr :=
  match d with
  | [] => []
  | (k, vs) :: d' => if String.eqb k key then vs else getlist d' key
  end.

(** [GET.get(key)]: the last value given for the key, [None] without one. *)
Definition get (d : QueryDict) (key : string) : option pystr :=
  match rev (getlist d key) with
  | [] => None
  | v :: _ => Some v
  end.

(** Truthiness of the result of [GET.get]. *)
Definition get_truthy (d : QueryDict) (key : string) : option pystr :=
  match get d key with
  | Some v => if truthy v then Some v else None
  | None => None
  end.

End Http.

(* ------------------------------------------------------------------ *)
(** ** [lcc/views/country.py]: [CountryMetadataFiltering] *)
(* ------------------------------------------------------------------ *)

Module Country.
Import Py Http.

(** Modelled from the spec: the [Country] model of [lcc.models], a static
    reference entity keyed by ISO code that carries the metadata
    attributes. Columns are read by name, as the filter does: boolean
    columns, the name behind a related row (region, sub-region, legal
    system; [None] without one) and numeric columns ([None] for NULL). *)
Record Country := {
  iso : pystr;
  name : pystr;
  flag : string -> bool;
  related_name : string -> option pystr;
  number : string -> option Q
}.

(** A range bucket: the code reads element [0] as the lower and element [1]
    as the upper bound. *)
Definition bucket := (Q * Q)%type.

(** Modelled from the spec: the range bucket tables of [lcc.models], each
    an ordered sequence of buckets, which the class attribute
    [RANGE_FIELDS] refers to. *)
Record Ranges := {
  POP_RANGES : list bucket;
  HDI_RANGES : list bucket;
  GDP_RANGES : list bucket;
  GHG_NO_LUCF : list bucket;
  GHG_LUCF : list bucket
}.

(** [ast.literal_eval] on a parameter value, and the conversion of the
    literal it returns into the value a boolean column is compared with. *)
Record Literals := {
  literal : Type;
  literal_eval : pystr -> result literal;
  prep_boolean : literal -> result bool
}.

Definition BOOLEAN_FIELDS : list string :=
  ["cw"; "small_cw"; "un"; "ldc"; "lldc"; "sid"]%string.

Definition LIST_FIELDS : list string :=
  ["region"; "sub_region"; "legal_system"]%string.

Definition RANGE_FIELDS (m : Ranges) : list (string * list bucket) :=
  [("population", POP_RANGES m);
   ("hdi2015", HDI_RANGES m);
   ("gdp_capita", GDP_RANGES m);
   ("ghg_no_lucf", GHG_NO_LUCF m);
   ("ghg_lucf", GHG_LUCF m)]%string.

Section Filtering.

Variable L : Literals.
Variable m : Ranges.

(** An entry of [self.data]: the keyword of the filter call, which is the
    field name followed by the lookup ([field], [field__name__in],
    [field__gte], [field__lte]), and its value. *)
Inductive clause : Type :=
| exact (field : string) (v : literal L)
| name__in (field : string) (names : list pystr)
| gte (field : string) (v : Q)
| lte (field : string) (v : Q).

Definition same_key (a b : clause) : bool :=
  match a, b with
  | exact f _, exact g _ => String.eqb f g
  | name__in f _, name__in g _ => String.eqb f g
  | gte f _, gte g _ => String.eqb f g
  | lte f _, lte g _ => String.eqb f g
  | _, _ => false
  end.

(** [d[key] = value] on a dict kept in insertion order. *)
Fixpoint dict_set (d : list clause) (c : clause) : list clause :=
  match d with
  | [] => [c]
  | x :: d' => if same_key x c then c :: d' else x :: dict_set d' c
  end.

(** The view instance: [self.data] and [self.countries]. *)
Record View := { data : list clause; countries : list Country }.

Definition set_data (self : View) (c : clause) : View :=
  {| data := dict_set (data self) c; countries := countries self |}.

(** [__init__]. *)
Definition init (all_countries : list Country) : View :=
  {| data := []; countries := all_countries |}.

Definition filter_boolean_fields (self : View) (request : QueryDict)
  (field : string) : result View :=
  match get_truthy request field with
  | Some v => lit <- literal_eval L v ;; Ok (set_data self (exact field lit))
  | None => Ok self
  end.

Definition filter_list_fields (self : View) (request : QueryDict)
  (field : string) : View :=
  match getlist request field with
  | [] => self
  | names => set_data self (name__in field names)
  end.

(** [self.RANGE_FIELDS[field]]. *)
Fixpoint range_table (t : list (string * list bucket)) (field : string)
  : result (list bucket) :=
  match t with
  | [] => Raise KeyError
  | (k, b) :: t' => if String.eqb k field then Ok b else range_table t' field
  end.

(** [int(request.GET.get(field))]. *)
Definition int_param (request : QueryDict) (field : string) : result Z :=
  match get request field with
  | Some v => int v
  | None => Raise TypeError
  end.

Definition filter_range_fields (self : View) (request : QueryDict)
  (field : string) : result View :=
  match getlist request field with
  | [] => Ok self
  | _ =>
      t <- range_table (RANGE_FIELDS m) field ;;
      i <- int_param request field ;;
      b <- index t i ;;
      let min_value := fst b in
      t' <- range_table (RANGE_FIELDS m) field ;;
      i' <- int_param request field ;;
      b' <- index t' i' ;;
      let max_value := snd b' in
      Ok (set_data (set_data self (gte field min_value)) (lte field max_value))
  end.

(** A [for] loop whose body may raise. *)
Fixpoint for_each {A S} (body : S -> A -> result S) (s : S) (l : list A)
  : result S :=
  match l with
  | [] => Ok s
  | x :: l' => s' <- body s x ;; for_each body s' l'
  end.

(** One keyword of the call [countries.filter] as a test on a row. *)
Definition clause_test (c : clause) : result (Country -> bool) :=
  match c with
  | exact f lit =>
      b <- prep_boolean L lit ;; Ok (fun r => Bool.eqb (flag r f) b)
  | name__in f names =>
      Ok (fun r => match related_name r f with
                   | Some n => str_in n names
                   | None => false
                   end)
  | gte f v =>
      Ok (fun r => match number r f with
                   | Some x => Qle_bool v x
                   | None => false
                   end)
  | lte f v =>
      Ok (fun r => match number r f with
                   | Some x => Qle_bool x v
                   | None => false
                   end)
  end.

(** [queryset.filter] with the dict unpacked into keywords: the rows that
    pass every keyword. *)
Fixpoint orm_filter (d : list clause) (rows : list Country)
  : result (list Country) :=
  match d with
  | [] => Ok rows
  | c :: d' =>
      t <- clause_test c ;;
      orm_filter d' (List.filter t rows)
  end.

(** [filter_countries(self, request, filteres=None)]: the body. *)
Definition filter_countries (self : View) (request : QueryDict)
  : result (View * list Country) :=
  s1 <- for_each (fun s f => filter_boolean_fields s request f)
          self BOOLEAN_FIELDS ;;
  s2 <- for_each (fun s f => Ok (filter_list_fields s request f))
          s1 LIST_FIELDS ;;
  s3 <- for_each (fun s f => filter_range_fields s request f)
          s2 (List.map fst (RANGE_FIELDS m)) ;;
  rows <- orm_filter (data s3) (countries s3) ;;
  Ok (s3, rows).

(** The signature of [filter_countries], [self] already bound. *)
Definition filter_countries_sig : list param :=
  [ {| p_name := "request"; p_default := false |};
    {| p_name := "filteres"; p_default := true |} ]%string.

(** A call [self.filter_countries(request, k1=.., k2=..)] with one
    positional argument and the keywords [kw]. *)
Definition call_filter_countries (self : View) (request : QueryDict)
  (kw : list string) : result (View * list Country) :=
  _ <- bind_arguments filter_countries_sig 1 kw ;;
  filter_countries self request.

End Filtering.

End Country.

(* ------------------------------------------------------------------ *)
(** ** The search index: query DSL, documents, matching *)
(* ------------------------------------------------------------------ *)

Module ES.
Import Py.

(** Queries as the view writes them with [Q(...)], [|] and [&]. A nested
    query carries the highlight fields of its [inner_hits], each with its
    [number_of_fragments] option; its score mode is always ['max']. *)
#[warnings="-register-all"]
Inductive query : Type :=
| match_phrase (field : string) (phrase : pystr)
| multi_match (q : pystr) (fields : list string)
| constant_score (boost : Z) (filter : query)
| nested (path : string) (q : query)
    (inner_hits : list (string * option nat))
| bool_ (must should : list query) (minimum_should_match : option nat)
| terms (field : string) (values : list pystr)
| range (field : string) (gte lte : Z)
| or_ (a b : query)
| and_ (a b : query).

(** Modelled from the spec: an article as [lcc.documents] indexes it inside
    its law, with its own text, classification and tag names and the
    parent lists copied from the law. The fields are the ones the view
    queries and reads. *)
Record ArticleDoc := {
  a_pk : Z;
  a_code : pystr;
  a_text : pystr;
  a_classifications_text : pystr;
  a_parent_classifications : pystr;
  a_tags_text : pystr;
  a_parent_tags : pystr
}.

(** Modelled from the spec: [LegislationDocument] of [lcc.documents], the
    index projection of a law. The taxonomy fields hold the names joined
    by the connector, at the level of the law and aggregated from its
    articles; the amendment and mention years may hold any number of
    values. The fields are the ones the view queries and sorts by. *)
Record LawDoc := {
  id : Z;
  title : pystr;
  abstract : pystr;
  pdf_text : pystr;
  classifications : pystr;
  article_classifications : pystr;
  tags : pystr;
  article_tags : pystr;
  country : pystr;
  country_name : pystr;
  law_type : pystr;
  year : Z;
  year_amendment : list Z;
  year_mentions : list Z;
  articles : list ArticleDoc
}.

(** The fields of a document by name, as a query refers to them. *)
Record fields := {
  text_field : string -> option pystr;
  keyword_field : string -> list pystr;
  int_field : string -> list Z
}.

Definition law_fields (d : LawDoc) : fields :=
  {| text_field := fun f =>
       if String.eqb f "title" then Some (title d)
       else if String.eqb f "abstract" then Some (abstract d)
       else if String.eqb f "pdf_text" then Some (pdf_text d)
       else if String.eqb f "classifications" then Some (classifications d)
       else if String.eqb f "article_classifications"
            then Some (article_classifications d)
       else if String.eqb f "tags" then Some (tags d)
       else if String.eqb f "article_tags" then Some (article_tags d)
       else None;
     keyword_field := fun f =>
       if String.eqb f "country" then [country d]
       else if String.eqb f "country_name" then [country_name d]
       else if String.eqb f "law_type" then [law_type d]
       else [];
     int_field := fun f =>
       if String.eqb f "id" then [id d]
       else if String.eqb f "year" then [year d]
       else if String.eqb f "year_amendment" then year_amendment d
       else if String.eqb f "year_mentions" then year_mentions d
       else [] |}.

Definition article_fields (a : ArticleDoc) : fields :=
  {| text_field := fun f =>
       if String.eqb f "articles.text" then Some (a_text a)
       else if String.eqb f "articles.classifications_text"
            then Some (a_classifications_text a)
       else if String.eqb f "articles.parent_classifications"
            then Some (a_parent_classifications a)
       else if String.eqb f "articles.tags_text" then Some (a_tags_text a)
       else if String.eqb f "articles.parent_tags"
            then Some (a_parent_tags a)
       else None;
     keyword_field := fun f =>
       if String.eqb f "articles.code" then [a_code a] else [];
     int_field := fun f =>
       if String.eqb f "articles.pk" then [a_pk a] else [] |}.

(** Text analysis of the index: whether an analysed text contains a phrase,
    and whether it matches a free-text query. *)
Record Analyzer := {
  phrase_in : pystr -> pystr -> bool;
  text_match : pystr -> pystr -> bool
}.

Section Matching.

Variable an : Analyzer.

Definition phrase_on (fs : fields) (f : string) (p : pystr) : bool :=
  match text_field fs f with
  | Some t => phrase_in an t p
  | None => false
  end.

Definition text_on (fs : fields) (q : pystr) (f : string) : bool :=
  match text_field fs f with
  | Some t => text_match an t q
  | None => false
  end.

(** Whether the document with fields [fs] and nested documents [children]
    matches a query. A [bool] query needs all of [must] and, of [should],
    at least [minimum_should_match] clauses, which defaults to one when
    there is no [must] clause and to none otherwise. *)
Fixpoint matches (children : list fields) (fs : fields) (q : query) : bool :=
  match q with
  | match_phrase f p => phrase_on fs f p
  | multi_match s fl => existsb (text_on fs s) fl
  | constant_score _ flt => matches children fs flt
  | nested _ q' _ => existsb (fun a => matches [] a q') children
  | bool_ must should msm =>
      forallb (matches children fs) must &&
      match should with
      | [] => true
      | _ =>
          let need := match msm with
                      | Some k => k
                      | None => match must with [] => 1%nat | _ => 0%nat end
                      end in
          (need <=? List.length (List.filter (matches children fs) should))%nat
      end
  | terms f vs => existsb (fun v => str_in v vs) (keyword_field fs f)
  | range f lo hi => existsb (fun y => (lo <=? y) && (y <=? hi)) (int_field fs f)
  | or_ a b => matches children fs a || matches children fs b
  | and_ a b => matches children fs a && matches children fs b
  end.

Definition law_matches (q : query) (d : LawDoc) : bool :=
  matches (List.map article_fields (articles d)) (law_fields d) q.

Definition article_matches (q : query) (a : ArticleDoc) : bool :=
  matches [] (article_fields a) q.

End Matching.

(** *** The [Search] object *)

Record Search := {
  s_query : option query;
  s_highlight : list (string * option nat);
  s_sort : list pystr;
  s_slice : option (Z * Z)
}.

(** [Document.search()]. *)
Definition new_search : Search :=
  {| s_query := None; s_highlight := []; s_sort := []; s_slice := None |}.

(** [search.query(q)]: the query is added to the ones already there. *)
Definition add_query (s : Search) (q : query) : Search :=
  {| s_query := match s_query s with
                | None => Some q
                | Some q0 => Some (and_ q0 q)
                end;
     s_highlight := s_highlight s;
     s_sort := s_sort s;
     s_slice := s_slice s |}.

(** [search.highlight(f1, f2, ..)] with the same options for each field. *)
Definition add_highlight (s : Search) (fl : list string) (frag : option nat)
  : Search :=
  {| s_query := s_query s;
     s_highlight := s_highlight s ++ List.map (fun f => (f, frag)) fl;
     s_sort := s_sort s;
     s_slice := s_slice s |}.

(** [search.sort(key)]. *)
Definition set_sort (s : Search) (key : pystr) : Search :=
  {| s_query := s_query s;
     s_highlight := s_highlight s;
     s_sort := [key];
     s_slice := s_slice s |}.

(** [search[bottom:top]]. *)
Definition set_slice (s : Search) (bottom top : Z) : Search :=
  {| s_query := s_query s;
     s_highlight := s_highlight s;
     s_sort := s_sort s;
     s_slice := Some (bottom, top) |}.

Definition search_matches (an : Analyzer) (s : Search) (d : LawDoc) : bool :=
  match s_query s with
  | None => true
  | Some q => law_matches an q d
  end.

(** *** Hits *)

(** The fragments returned for a highlighted field: at least one. *)
Record fragments := { first : pystr; more : list pystr }.

Definition all_fragments (f : fragments) : list pystr := first f :: more f.

(** [dict[key]] lookups on the highlight payloads. *)
Fixpoint lookup {A} (d : list (string * A)) (key : string) : option A :=
  match d with
  | [] => None
  | (k, v) :: d' => if String.eqb k key then Some v else lookup d' key
  end.

(** A nested article hit: [meta.highlight] is absent when nothing was
    highlighted in the article. *)
Record ArticleHit := {
  ah_pk : Z;
  ah_code : pystr;
  ah_highlight : option (list (string * list pystr))
}.

(** A hit: [meta.id], [meta.highlight] and [meta.inner_hits.articles], the
    last two present only when the response carries them. *)
Record Hit := {
  hit_id : Z;
  hit_highlight : option (list (string * fragments));
  hit_inner_hits : option (list ArticleHit)
}.

(** *** Ordering of the hits *)

(** Lexicographic order of strings by code point. *)
Fixpoint str_leb (a b : pystr) : bool :=
  match a, b with
  | [], _ => true
  | _ :: _, [] => false
  | x :: a', y :: b' =>
      if (x <? y)%N then true
      else if (y <? x)%N then false
      else str_leb a' b'
  end.

Section Sorting.

Variable A : Type.
Variable leb : A -> A -> bool.

Fixpoint insert (x : A) (l : list A) : list A :=
  match l with
  | [] => [x]
  | y :: l' => if leb x y then x :: l else y :: insert x l'
  end.

(** A stable sort: equal elements keep their order. *)
Definition sort (l : list A) : list A := fold_right insert [] l.

End Sorting.

(** The order a sort key asks for; a leading [-] reverses it. Keys other
    than the ones the view uses leave the documents as they are. *)
Definition key_leb (key : pystr) : option (LawDoc -> LawDoc -> bool) :=
  if str_eqb key (u "year") then Some (fun a b => year a <=? year b)
  else if str_eqb key (u "-year") then Some (fun a b => year b <=? year a)
  else if str_eqb key (u "country_name")
       then Some (fun a b => str_leb (country_name a) (country_name b))
  else if str_eqb key (u "-country_name")
       then Some (fun a b => str_leb (country_name b) (country_name a))
  else if str_eqb key (u "id") then Some (fun a b => id a <=? id b)
  else None.

(** [l[bottom:top]] for non-negative bounds. *)
Definition slice {A} (l : list A) (bottom top : Z) : list A :=
  firstn (Z.to_nat (top - bottom)) (skipn (Z.to_nat bottom) l).

(** The index: its documents, its text analysis, the relevance order it
    gives to the documents matching a query, and the highlight payload it
    attaches to a hit. *)
Record Index := {
  docs : list LawDoc;
  analyzer : Analyzer;
  by_relevance : option query -> list LawDoc -> list LawDoc;
  payload : Search -> LawDoc ->
            option (list (string * fragments)) * option (list ArticleHit)
}.

(** The documents a search returns, in order, before slicing. *)
Definition ordered (ix : Index) (s : Search) : list LawDoc :=
  let found := List.filter (search_matches (analyzer ix) s) (docs ix) in
  match s_sort s with
  | [] => by_relevance ix (s_query s) found
  | key :: _ =>
      match key_leb key with
      | Some leb => sort LawDoc leb found
      | None => found
      end
  end.

Definition page_docs (ix : Index) (s : Search) : list LawDoc :=
  match s_slice s with
  | Some (bottom, top) => slice (ordered ix s) bottom top
  | None => firstn 10 (ordered ix s)
  end.

(** [search.execute()]. *)
Definition execute (ix : Index) (s : Search) : list Hit :=
  List.map (fun d => {| hit_id := id d;
                        hit_highlight := fst (payload ix s d);
                        hit_inner_hits := snd (payload ix s d) |})
           (page_docs ix s).

(** [search.count()]. *)
Definition count (ix : Index) (s : Search) : Z :=
  Z.of_nat (List.length (List.filter (search_matches (analyzer ix) s) (docs ix))).

End ES.

(* ------------------------------------------------------------------ *)
(** ** The relational store and the settings *)
(* ------------------------------------------------------------------ *)

Module Store.
Import Py.

(** Modelled from the spec: the [Article] model of [lcc.models], a row
    with the names of its tags and classifications. *)
Record ArticleRecord := {
  art_pk : Z;
  art_code : pystr;
  art_tags : list pystr;
  art_classifications : list pystr
}.

(** Modelled from the spec: the [Legislation] model of [lcc.models], a row
    with its articles. *)
Record LawRecord := {
  pk : Z;
  law_articles : list ArticleRecord
}.

(** Modelled from the spec: the tables of the relational store the view
    reads, the taxonomy tables as pairs of key and name. *)
Record Store := {
  laws : list LawRecord;
  classification_table : list (Z * pystr);
  tag_table : list (Z * pystr);
  country_table : list Country.Country
}.

(** [objects.filter(pk__in=ids).values_list('name', flat=True)]. *)
Definition names_of (table : list (Z * pystr)) (ids : list Z) : list pystr :=
  List.map snd (List.filter (fun r => existsb (Z.eqb (fst r)) ids) table).

(** First occurrences of the elements of a list of keys. *)
Fixpoint first_occurrences (seen pks : list Z) : list Z :=
  match pks with
  | [] => []
  | k :: pks' =>
      if existsb (Z.eqb k) seen then first_occurrences seen pks'
      else k :: first_occurrences (k :: seen) pks'
  end.

(** [hits.to_queryset()]: the rows whose key is the identifier of a hit, in
    the order of the hits. A hit without a row contributes nothing. *)
Definition to_queryset (st : Store) (hits : list ES.Hit) : list LawRecord :=
  flat_map (fun k => List.filter (fun r => pk r =? k) (laws st))
           (first_occurrences [] (List.map ES.hit_id hits)).

(** Modelled from the spec: the constants of the base settings that the
    view reads. The taxonomy connector is a non-empty string, the page
    size a fixed positive number. *)
Record Settings := {
  CONN_first : N;
  CONN_rest : pystr;
  LAWS_PER_PAGE : positive
}.

Definition TAXONOMY_CONNECTOR (cfg : Settings) : pystr :=
  CONN_first cfg :: CONN_rest cfg.

End Store.

(* ------------------------------------------------------------------ *)
(** ** [lcc/views/legislation.py]: [HighlightedLaws] *)
(* ------------------------------------------------------------------ *)

Module Highlighted.
Import Py ES Store.

(** A string handed to the template, marked safe or not. *)
Inductive markup : Type :=
| mark_safe (s : pystr)
| unmarked (s : pystr).

(** An entry of [law._highlighted_articles]; a key that is not set is
    [None]. *)
Record article_dict := {
  d_pk : Z;
  d_code : pystr;
  d_text : option markup;
  d_classifications : option (list markup);
  d_tags : option (list markup)
}.

(** A row with the attributes the wrapper sets on it; an attribute that was
    not set is [None]. *)
Record Law := {
  record : LawRecord;
  _highlighted_abstract : option markup;
  _highlighted_pdf_text : option markup;
  _highlighted_title : option markup;
  _highlighted_classifications : option (list markup);
  _highlighted_tags : option (list markup);
  _highlighted_articles : option (list article_dict)
}.

(** A row as the store returns it. *)
Definition bare (r : LawRecord) : Law :=
  {| record := r;
     _highlighted_abstract := None;
     _highlighted_pdf_text := None;
     _highlighted_title := None;
     _highlighted_classifications := None;
     _highlighted_tags := None;
     _highlighted_articles := None |}.


(** The separator [' […] '] between fragments. *)
Definition ELLIPSIS : pystr := [32; 91; 8230; 93; 32]%N.

Definition EM : pystr := u "<em>".

Section Hydration.

Variable cfg : Settings.

Definition split_conn (s : pystr) : list pystr :=
  split (CONN_first cfg) (CONN_rest cfg) s.

(** [[tag[4:-5] for tag in frag.split(CONN) if '<em>' in tag]]. *)
Definition emphasised (frag : pystr) : list pystr :=
  List.map (slice_from_to_end 4 5) (List.filter (contains EM) (split_conn frag)).

(** The two accumulators of one call of [__getitem__]. *)
Record matched := {
  matched_article_tags : list pystr;
  matched_article_classifications : list pystr
}.

Definition no_match : matched :=
  {| matched_article_tags := []; matched_article_classifications := [] |}.

(** The [if hasattr(hit.meta, 'highlight')] block: the attributes it sets
    and the names it appends to the accumulators. *)
Definition read_highlight (hl : option (list (string * fragments)))
  (acc : matched) (law : Law) : matched * Law :=
  match hl with
  | None => (acc, law)
  | Some highlights =>
      let abstract' :=
        match lookup highlights "abstract" with
        | Some f => Some (mark_safe (join ELLIPSIS (all_fragments f)))
        | None => _highlighted_abstract law
        end in
      let pdf_text' :=
        match lookup highlights "pdf_text" with
        | Some f =>
            Some (mark_safe
                    (replace 60%N (u "/pre>") []
                       (replace 60%N (u "pre>") []
                          (join ELLIPSIS (all_fragments f)))))
        | None => _highlighted_pdf_text law
        end in
      let title' :=
        match lookup highlights "title" with
        | Some f => Some (mark_safe (first f))
        | None => _highlighted_title law
        end in
      let classifications' :=
        match lookup highlights "classifications" with
        | Some f => Some (List.map mark_safe (split_conn (first f)))
        | None => _highlighted_classifications law
        end in
      let acc_classifications :=
        match lookup highlights "article_classifications" with
        | Some f => matched_article_classifications acc ++ emphasised (first f)
        | None => matched_article_classifications acc
        end in
      let tags' :=
        match lookup highlights "tags" with
        | Some f => Some (List.map mark_safe (split_conn (first f)))
        | None => _highlighted_tags law
        end in
      let acc_tags :=
        match lookup highlights "article_tags" with
        | Some f => matched_article_tags acc ++ emphasised (first f)
        | None => matched_article_tags acc
        end in
      ({| matched_article_tags := acc_tags;
          matched_article_classifications := acc_classifications |},
       {| record := record law;
          _highlighted_abstract := abstract';
          _highlighted_pdf_text := pdf_text';
          _highlighted_title := title';
          _highlighted_classifications := classifications';
          _highlighted_tags := tags';
          _highlighted_articles := _highlighted_articles law |})
  end.

(** The dict built for one nested hit; [None] when the loop skips the hit
    because it has no highlight. *)
Definition article_of_hit (article : ArticleHit) : option article_dict :=
  match ah_highlight article with
  | None => None
  | Some highlights =>
      Some {| d_pk := ah_pk article;
              d_code := ah_code article;
              d_text :=
                match lookup highlights "articles.text" with
                | Some (x :: l) => Some (mark_safe (join ELLIPSIS (x :: l)))
                | _ => None
                end;
              d_classifications :=
                match lookup highlights "articles.classifications_text" with
                | Some (x :: _) => Some (List.map mark_safe (split_conn x))
                | _ => None
                end;
              d_tags :=
                match lookup highlights "articles.tags_text" with
                | Some (x :: _) => Some (List.map mark_safe (split_conn x))
                | _ => None
                end |}
  end.

Fixpoint articles_of_hits (l : list ArticleHit) : list article_dict :=
  match l with
  | [] => []
  | a :: l' =>
      match article_of_hit a with
      | Some d => d :: articles_of_hits l'
      | None => articles_of_hits l'
      end
  end.

(** The rows of an article joined with its tags and with its
    classifications: one row for every pair, with [None] on a side that has
    none. *)
Definition side (names : list pystr) : list (option pystr) :=
  match names with
  | [] => [None]
  | _ => List.map Some names
  end.

Definition joined (a : ArticleRecord) : list (option pystr * option pystr) :=
  list_prod (side (art_tags a)) (side (art_classifications a)).

Definition name_in (x : option pystr) (names : list pystr) : bool :=
  match x with
  | Some n => str_in n names
  | None => false
  end.

(** [law.articles.filter(Q(tags__name__in=tags) |
    Q(classifications__name__in=classifications))]: an article is returned
    once for every joined row that passes the test. *)
Definition articles_filter (law : LawRecord) (tags classifications : list pystr)
  : list ArticleRecord :=
  flat_map
    (fun a =>
       List.map (fun _ => a)
         (List.filter (fun row => name_in (fst row) tags ||
                                  name_in (snd row) classifications)
                      (joined a)))
    (law_articles law).

(** ['<em>{}</em>'.format(name)] when the name was matched. *)
Definition emphasise (names : list pystr) (name : pystr) : markup :=
  if str_in name names
  then mark_safe (u "<em>" ++ name ++ u "</em>")
  else unmarked name.

(** The dict the workaround builds for an article of the store. *)
Definition article_of_record (acc : matched) (article : ArticleRecord)
  : article_dict :=
  {| d_pk := art_pk article;
     d_code := art_code article;
     d_text := None;
     d_classifications :=
       Some (List.map (emphasise (matched_article_classifications acc))
                      (art_classifications article));
     d_tags :=
       Some (List.map (emphasise (matched_article_tags acc))
                      (art_tags article)) |}.

(** The list the workaround attaches to a law. *)
Definition fallback_articles (acc : matched) (law : LawRecord)
  : list article_dict :=
  List.map (article_of_record acc)
    (articles_filter law (matched_article_tags acc)
                         (matched_article_classifications acc)).

Definition any_matched (acc : matched) : bool :=
  match matched_article_classifications acc, matched_article_tags acc with
  | [], [] => false
  | _, _ => true
  end.

Definition set_articles (law : Law) (l : list article_dict) : Law :=
  {| record := record law;
     _highlighted_abstract := _highlighted_abstract law;
     _highlighted_pdf_text := _highlighted_pdf_text law;
     _highlighted_title := _highlighted_title law;
     _highlighted_classifications := _highlighted_classifications law;
     _highlighted_tags := _highlighted_tags law;
     _highlighted_articles := Some l |}.

(** The [if hasattr(hit.meta, 'inner_hits')] block. *)
Definition read_inner_hits (inner : option (list ArticleHit)) (acc : matched)
  (law : Law) : Law :=
  match inner with
  | None => law
  | Some [] =>
      if any_matched acc
      then set_articles law (fallback_articles acc (record law))
      else set_articles law []
  | Some articles => set_articles law (articles_of_hits articles)
  end.

(** The body of the loop for one pair of [zip]. *)
Definition hydrate_one (acc : matched) (hit : Hit) (law : Law)
  : matched * Law :=
  let (acc', law') := read_highlight (hit_highlight hit) acc law in
  (acc', read_inner_hits (hit_inner_hits hit) acc' law').

(** The loop over [zip(hits, hits.to_queryset())], from given values of
    the accumulators. *)
Fixpoint hydrate_from (acc : matched) (pairs : list (Hit * Law)) : list Law :=
  match pairs with
  | [] => []
  | (hit, law) :: rest =>
      let (acc', law') := hydrate_one acc hit law in
      law' :: hydrate_from acc' rest
  end.

Definition hydrate (hits : list Hit) (rows : list LawRecord) : list Law :=
  hydrate_from no_match (combine hits (List.map bare rows)).

(** The wrapper: [self.search] and [self.sort]. *)
Record HighlightedLaws := {
  search : Search;
  sort : option pystr
}.

(** [__getitem__] for the slice [bottom:top]. *)
Definition getitem (ix : Index) (st : Store) (self : HighlightedLaws)
  (bottom top : Z) : list Law :=
  let hits := set_slice (search self) bottom top in
  match sort self with
  | Some key =>
      List.map bare (to_queryset st (execute ix (set_sort hits key)))
  | None =>
      hydrate (execute ix hits) (to_queryset st (execute ix hits))
  end.

(** [count]. *)
Definition count (ix : Index) (self : HighlightedLaws) : Z :=
  ES.count ix (search self).

End Hydration.

End Highlighted.

(* ------------------------------------------------------------------ *)
(** ** [django.core.paginator.Paginator] *)
(* ------------------------------------------------------------------ *)

Module Paginator.
Import Py.

(** The page number handed to [page]: a string of the query string, or the
    integer default. *)
Inductive page_param : Type :=
| page_str (s : pystr)
| page_int (n : Z).

Section Pages.

Variable A : Type.

(** A paginator over an object list that answers [count()] and slices,
    with no orphans and an empty first page allowed. *)
Record Paginator := {
  object_count : Z;
  object_slice : Z -> Z -> list A;
  per_page : Z
}.

Record Page := {
  object_list : list A;
  number : Z
}.

Definition num_pages (p : Paginator) : Z :=
  let hits := Z.max 1 (object_count p) in
  (hits + per_page p - 1) / per_page p.

Definition validate_number (p : Paginator) (n : page_param) : result Z :=
  match match n with
        | page_int z => Some z
        | page_str s => int_opt s
        end with
  | None => Raise PageNotAnInteger
  | Some z =>
      if z <? 1 then Raise EmptyPage
      else if num_pages p <? z
           then if z =? 1 then Ok z else Raise EmptyPage
           else Ok z
  end.

Definition page (p : Paginator) (n : page_param) : result Page :=
  z <- validate_number p n ;;
  let bottom := (z - 1) * per_page p in
  let top := bottom + per_page p in
  let top := if object_count p <=? top then object_count p else top in
  Ok {| object_list := object_slice p bottom top; number := z |}.

End Pages.

Arguments object_count {A} _.
Arguments object_slice {A} _ _ _.
Arguments per_page {A} _.
Arguments object_list {A} _.
Arguments number {A} _.
Arguments num_pages {A} _.
Arguments validate_number {A} _ _.
Arguments page {A} _ _.

End Paginator.

(* ------------------------------------------------------------------ *)
(** ** [lcc/views/legislation.py]: [LegislationExplorer] *)
(* ------------------------------------------------------------------ *)

Module Explorer.
Import Py Http ES Store Highlighted.

Definition get_sort (request : QueryDict) : option pystr :=
  match get_truthy request "promulgation_sort" with
  | Some promulgation_sort =>
      if str_eqb promulgation_sort (u "1")
      then Some (u "year") else Some (u "-year")
  | None =>
      match get_truthy request "country_sort" with
      | Some country_sort =>
          if str_eqb country_sort (u "1")
          then Some (u "country_name") else Some (u "-country_name")
      | None => None
      end
  end.

(** Everything outside the two views that a request is served from. *)
Record Env := {
  settings : Settings;
  ranges : Country.Ranges;
  literals : Country.Literals;
  store : Store;
  index : Index
}.

(** The three collections the facet blocks fill. *)
Record facets := {
  law_queries : list query;
  article_queries : list query;
  article_highlights : list (string * option nat)
}.

Definition no_facets : facets :=
  {| law_queries := []; article_queries := []; article_highlights := [] |}.

(** [reduce(operator.or_, [Q('match_phrase', field=name) for name in names])]. *)
Definition any_name (field : string) (names : list pystr) : result query :=
  reduce or_ (List.map (match_phrase field) names).

(** [reduce(..field..) | reduce(..field'..)]. *)
Definition either_field (field field' : string) (names : list pystr)
  : result query :=
  a <- any_name field names ;;
  b <- any_name field' names ;;
  Ok (or_ a b).

(** The block of one facet: the query on the root document, the query
    inside the articles and the highlight of the article field. *)
Definition add_facet (names : list pystr)
  (law_field law_field' article_field article_field' : string)
  (f : facets) : result facets :=
  lq <- either_field law_field law_field' names ;;
  aq <- either_field article_field article_field' names ;;
  Ok {| law_queries := law_queries f ++ [lq];
        article_queries := article_queries f ++ [aq];
        article_highlights :=
          article_highlights f ++ [(article_field, Some 0%nat)] |}.

(** The [classifications[]] block and the [tags[]] block, in this order;
    the second component says whether any identifier was given. *)
Definition facet_queries (st : Store) (request : QueryDict)
  : result (facets * bool) :=
  classification_ids <- ints (getlist request "classifications[]") ;;
  f1 <- match classification_ids with
        | [] => Ok no_facets
        | _ =>
            add_facet (names_of (classification_table st) classification_ids)
              "classifications" "article_classifications"
              "articles.classifications_text"
              "articles.parent_classifications" no_facets
        end ;;
  tag_ids <- ints (getlist request "tags[]") ;;
  f2 <- match tag_ids with
        | [] => Ok f1
        | _ =>
            add_facet (names_of (tag_table st) tag_ids)
              "tags" "article_tags"
              "articles.tags_text" "articles.parent_tags" f1
        end ;;
  Ok (f2, match classification_ids, tag_ids with
          | [], [] => false
          | _, _ => true
          end).

Definition law_q_query (q : pystr) : list query :=
  [multi_match q ["title"; "abstract"; "pdf_text"; "classifications";
                  "tags"]%string].

Definition article_q_query (q : pystr) : list query :=
  [or_ (multi_match q ["articles.text"%string])
       (constant_score 50 (match_phrase "articles.text" q))].

Definition article_q_highlights : list (string * option nat) :=
  [("articles.text"%string, None)].

(** [[Q('nested', path='articles', query=Q(reduce(operator.and_, qs)),
    inner_hits=..)] if cond else []]. *)
Definition nested_if (cond : bool) (qs : list query)
  (hl : list (string * option nat)) : result (list query) :=
  if cond
  then r <- reduce and_ qs ;; Ok [nested "articles" r hl]
  else Ok [].

Definition nonempty {A} (l : list A) : bool :=
  match l with [] => false | _ => true end.

(** The branch [if q:] of the composition. The two highlight dicts merged
    for the second nested query have no key in common. *)
Definition text_query (f : facets) (q : pystr) : result query :=
  n1 <- nested_if (nonempty (article_queries f)) (article_queries f)
          (article_highlights f) ;;
  let q_in_law := bool_ (law_queries f ++ law_q_query q ++ n1) [] None in
  n2 <- nested_if (nonempty (article_queries f) ||
                   nonempty (article_q_query q))
          (article_queries f ++ article_q_query q)
          (article_highlights f ++ article_q_highlights) ;;
  let q_in_article := bool_ (law_queries f ++ n2) [] None in
  Ok (or_ q_in_law q_in_article).

(** The branch [else:] of the composition: the list [final_query]. *)
Definition facet_only_query (f : facets) : result (list query) :=
  root_query <- match law_queries f with
                | [] => Ok []
                | qs => r <- reduce and_ qs ;; Ok [r]
                end ;;
  nested_query <- nested_if (nonempty (article_queries f))
                    (article_queries f) (article_highlights f) ;;
  Ok (match root_query with
      | [] => []
      | _ => root_query ++ match nested_query with
                           | [] => []
                           | _ => nested_query
                           end
      end).

(** The search after the [if q: .. else: ..] statement. *)
Definition compose (f : facets) (q : option pystr) (s : Search)
  : result Search :=
  match q with
  | Some q =>
      t <- text_query f q ;;
      Ok (add_highlight (add_query s t) ["abstract"; "pdf_text"]%string None)
  | None =>
      final_query <- facet_only_query f ;;
      Ok (match final_query with
          | [] => s
          | _ => add_query s (bool_ [] final_query (Some 1%nat))
          end)
  end.

(** The country block, given the rows [filter_countries] returned. *)
Definition country_filter (request : QueryDict) (st : Store)
  (filtering_countries : list Country.Country) (s : Search) : Search :=
  let countries := getlist request "countries[]" in
  if nonempty countries ||
     negb (Nat.eqb (List.length filtering_countries)
                   (List.length (country_table st)))
  then add_query s (terms "country"
                      (countries ++ List.map Country.iso filtering_countries))
  else s.

Definition law_type_filter (request : QueryDict) (s : Search) : Search :=
  match getlist request "law_types[]" with
  | [] => s
  | law_types => add_query s (terms "law_type" law_types)
  end.

(** The year block. *)
Definition year_filter (request : QueryDict) (s : Search) : result Search :=
  match get_truthy request "from_year", get_truthy request "to_year" with
  | Some from_year, Some to_year =>
      lo <- int from_year ;;
      hi <- int to_year ;;
      lo2 <- int from_year ;;
      hi2 <- int to_year ;;
      lo3 <- int from_year ;;
      hi3 <- int to_year ;;
      Ok (add_query s (or_ (or_ (range "year" lo hi)
                                (range "year_amendment" lo2 hi2))
                           (range "year_mentions" lo3 hi3)))
  | _, _ => Ok s
  end.

(** The block [if not sort:]. *)
Definition unsorted_search (env : Env) (request : QueryDict) (f : facets)
  (any_ids : bool) (q : option pystr) (s : Search) : result Search :=
  s1 <- compose f q s ;;
  let selected_countries := nonempty (getlist request "countries[]") in
  r <- Country.call_filter_countries (literals env) (ranges env)
         (Country.init (literals env) (country_table (store env)))
         request ["selected_countries"%string] ;;
  let s2 := country_filter request (store env) (snd r) s1 in
  let s3 := law_type_filter request s2 in
  s4 <- year_filter request s3 ;;
  let s5 := add_highlight s4
              ["title"; "classifications"; "article_classifications";
               "tags"; "article_tags"]%string (Some 0%nat) in
  Ok (if any_ids || match q with Some _ => true | None => false end
      then s5
      else set_sort s5 (u "id")).

(** [Paginator(all_laws, settings.LAWS_PER_PAGE)]. *)
Definition paginator (env : Env) (all_laws : HighlightedLaws)
  : Paginator.Paginator Law :=
  {| Paginator.object_count := Highlighted.count (index env) all_laws;
     Paginator.object_slice :=
       getitem (settings env) (index env) (store env) all_laws;
     Paginator.per_page := Z.pos (LAWS_PER_PAGE (settings env)) |}.

(** The [try: .. except PageNotAnInteger: .. except EmptyPage: ..]
    statement. *)
Definition deliver {A} (p : Paginator.Paginator A)
  (page : Paginator.page_param) : result (Paginator.Page A) :=
  match Paginator.page p page with
  | Raise PageNotAnInteger => Paginator.page p (Paginator.page_int 1)
  | Raise EmptyPage =>
      Paginator.page p (Paginator.page_int (Paginator.num_pages p))
  | r => r
  end.

(** [request.GET.get('page', 1)]. *)
Definition page_of (request : QueryDict) : Paginator.page_param :=
  match get request "page" with
  | Some s => Paginator.page_str s
  | None => Paginator.page_int 1
  end.

Definition get_queryset (env : Env) (request : QueryDict)
  : result (Paginator.Page Law) :=
  fi <- facet_queries (store env) request ;;
  let q := get_truthy request "q" in
  let search := new_search in
  let sort := get_sort request in
  search' <- match sort with
             | None => unsorted_search env request (fst fi) (snd fi) q search
             | Some _ => Ok search
             end ;;
  let all_laws := {| Highlighted.search := search'; Highlighted.sort := sort |} in
  deliver (paginator env all_laws) (page_of request).

End Explorer.

(* ------------------------------------------------------------------ *)
(** ** A small installation, for concrete runs *)
(* ------------------------------------------------------------------ *)

Module Sample.
Import Py Http ES Store Highlighted Explorer.

(** The connector [';']. *)
Definition cfg : Settings :=
  {| CONN_first := 59%N; CONN_rest := []; LAWS_PER_PAGE := 2%positive |}.

(** Literals restricted to [True] and [False]. *)
Definition lits : Country.Literals :=
  {| Country.literal := bool;
     Country.literal_eval := fun s =>
       if str_eqb s (u "True") then Ok true
       else if str_eqb s (u "False") then Ok false
       else Raise ValueError;
     Country.prep_boolean := fun b => Ok b |}.

Definition tables : Country.Ranges :=
  {| Country.POP_RANGES :=
       [(0 # 1, 1000000 # 1); (1000000 # 1, 10000000 # 1);
        (10000000 # 1, 1000000000 # 1)]%Q;
     Country.HDI_RANGES := [(0 # 1, 55 # 100); (55 # 100, 1 # 1)]%Q;
     Country.GDP_RANGES := [(0 # 1, 1000 # 1)]%Q;
     Country.GHG_NO_LUCF := [(0 # 1, 10 # 1)]%Q;
     Country.GHG_LUCF := [(0 # 1, 10 # 1)]%Q |}.

Definition land (code : string) (population : Q) : Country.Country :=
  {| Country.iso := u code;
     Country.name := u code;
     Country.flag := fun _ => false;
     Country.related_name := fun _ => None;
     Country.number := fun f =>
       if String.eqb f "population" then Some population else None |}.

Definition lands : list Country.Country :=
  [land "AA" (500 # 1)%Q; land "BB" (5000000 # 1)%Q;
   land "CC" (50000000 # 1)%Q].

(** Phrases and free text are looked up as substrings. *)
Definition substrings : Analyzer :=
  {| phrase_in := fun text phrase => contains phrase text;
     text_match := fun text q => contains q text |}.

Definition article (n : Z) (tags_text parent_tags : string) : ArticleDoc :=
  {| a_pk := n; a_code := u "art"; a_text := u "text of the article";
     a_classifications_text := []; a_parent_classifications := [];
     a_tags_text := u tags_text; a_parent_tags := u parent_tags |}.

Definition law (n y : Z) (title_ tags_ article_tags_ : string)
  (arts : list ArticleDoc) : LawDoc :=
  {| id := n; title := u title_; abstract := []; pdf_text := [];
     classifications := []; article_classifications := [];
     tags := u tags_; article_tags := u article_tags_;
     country := u "AA"; country_name := u "Aland"; law_type := u "Law";
     year := y; year_amendment := []; year_mentions := [];
     articles := arts |}.

Definition five_laws : list LawDoc :=
  [law 1 2005 "one" "" "" []; law 2 1999 "two" "" "" [];
   law 3 2012 "three" "" "" []; law 4 2001 "four" "" "" [];
   law 5 2010 "five" "" "" []].

(** An index that returns the matching documents in index order and
    attaches no highlight. *)
Definition idx : Index :=
  {| docs := five_laws;
     analyzer := substrings;
     by_relevance := fun _ l => l;
     payload := fun _ _ => (None, None) |}.

(** A law whose own tag fields are empty while one of its articles is
    indexed with the tag name. *)
Definition climate_act : LawDoc :=
  law 6 2015 "climate act" "" "" [article 61 "Adaptation" ""].

(** A law that has the tag itself, with an article that holds the text. *)
Definition adaptation_act : LawDoc :=
  law 7 2016 "adaptation act" "Adaptation" ""
      [{| a_pk := 71; a_code := u "art"; a_text := u "climate risks";
          a_classifications_text := []; a_parent_classifications := [];
          a_tags_text := []; a_parent_tags := u "Adaptation" |}].

(** The facet record of a request for the tag 7, "Adaptation". *)
Definition adaptation_facets : facets :=
  {| law_queries :=
       [or_ (match_phrase "tags" (u "Adaptation"))
            (match_phrase "article_tags" (u "Adaptation"))];
     article_queries :=
       [or_ (match_phrase "articles.tags_text" (u "Adaptation"))
            (match_phrase "articles.parent_tags" (u "Adaptation"))];
     article_highlights := [("articles.tags_text"%string, Some 0%nat)] |}.

Definition row (n : Z) : LawRecord := {| pk := n; law_articles := [] |}.

Definition db : Store :=
  {| laws := [row 1; row 2; row 3; row 4; row 5];
     classification_table := [(1, u "Energy")];
     tag_table := [(7, u "Adaptation"); (8, u "Mitigation")];
     country_table := lands |}.

Definition env : Env :=
  {| settings := cfg; ranges := tables; literals := lits;
     store := db; index := idx |}.

(** A hit whose highlight shows the article tag and whose nested hits
    carry the article. *)
Definition hit_with_tag : Hit :=
  {| hit_id := 1;
     hit_highlight :=
       Some [("article_tags"%string,
              {| first := u "<em>Adaptation</em>;Finance"; more := [] |})];
     hit_inner_hits :=
       Some [{| ah_pk := 11; ah_code := u "a1";
                ah_highlight :=
                  Some [("articles.tags_text"%string,
                         [u "<em>Adaptation</em>;Finance"])] |}] |}.

(** A hit without highlight and with an empty list of nested hits. *)
Definition hit_plain : Hit :=
  {| hit_id := 2; hit_highlight := None; hit_inner_hits := Some [] |}.

(** A hit whose highlight shows the article tag while its list of nested
    hits is empty. *)
Definition hit_gap : Hit :=
  {| hit_id := 3;
     hit_highlight :=
       Some [("article_tags"%string,
              {| first := u "<em>Adaptation</em>"; more := [] |})];
     hit_inner_hits := Some [] |}.

(** A row with one article that has the given tags. *)
Definition row_with_article (n : Z) (article_tags_ : list pystr)
  : LawRecord :=
  {| pk := n;
     law_articles :=
       [{| art_pk := 10 * n + 1; art_code := u "a1";
           art_tags := article_tags_; art_classifications := [] |}] |}.

(** An index that highlights the title of every hit, and a store in which
    the row of law 2 is gone. *)
Definition idx_titles : Index :=
  {| docs := five_laws;
     analyzer := substrings;
     by_relevance := fun _ l => l;
     payload := fun _ d =>
       (Some [("title"%string,
               {| first := u "<em>" ++ title d ++ u "</em>"; more := [] |})],
        None) |}.

Definition db_without_2 : Store :=
  {| laws := [row 1; row 3; row 4; row 5];
     classification_table := [(1, u "Energy")];
     tag_table := [(7, u "Adaptation"); (8, u "Mitigation")];
     country_table := lands |}.

End Sample.

(* ------------------------------------------------------------------ *)
(** ** Vocabulary of the properties *)
(* ------------------------------------------------------------------ *)

Module Props.
Import Py Http ES Store Highlighted Explorer.

(** A row whose numeric column [field] lies in the closed interval. *)
Definition in_bucket (field : string) (mn mx : Q) (r : Country.Country)
  : bool :=
  match Country.number r field with
  | Some x => Qle_bool mn x && Qle_bool x mx
  | None => false
  end.

(** The integer a page parameter stands for, if any. *)
Definition requested (n : Paginator.page_param) : option Z :=
  match n with
  | Paginator.page_int z => Some z
  | Paginator.page_str s => int_opt s
  end.

(** The page with number [z]: the slice of the object list it shows. *)
Definition page_at {A} (p : Paginator.Paginator A) (z : Z)
  : Paginator.Page A :=
  let bottom := (z - 1) * Paginator.per_page p in
  let top := bottom + Paginator.per_page p in
  {| Paginator.object_list :=
       Paginator.object_slice p bottom
         (if Paginator.object_count p <=? top
          then Paginator.object_count p else top);
     Paginator.number := z |}.

(** A law with a year field inside the closed range. *)
Definition year_in_range (lo hi : Z) (d : LawDoc) : Prop :=
  lo <= year d <= hi \/
  (exists y, In y (year_amendment d) /\ lo <= y <= hi) \/
  (exists y, In y (year_mentions d) /\ lo <= y <= hi).

(** A requested tag name found at the level of the law: in its own tag
    field or in the tag field aggregated from its articles. *)
Definition tag_at_law_level (an : Analyzer) (names : list pystr) (d : LawDoc)
  : Prop :=
  exists n, In n names /\
    (phrase_in an (tags d) n = true \/ phrase_in an (article_tags d) n = true).

(** A requested tag name found inside one article: in the tag field of the
    article or in the tag field it copies from its law. *)
Definition tag_in_an_article (an : Analyzer) (names : list pystr) (d : LawDoc)
  : Prop :=
  exists n a, In n names /\ In a (articles d) /\
    (phrase_in an (a_tags_text a) n = true \/
     phrase_in an (a_parent_tags a) n = true).

(** The tag names of the law itself, wherever the index keeps them. *)
Definition own_tags_match (an : Analyzer) (names : list pystr) (d : LawDoc)
  : Prop :=
  exists n, In n names /\
    (phrase_in an (tags d) n = true \/
     exists a, In a (articles d) /\ phrase_in an (a_parent_tags a) n = true).

(** The tag names of the articles of the law, wherever the index keeps
    them. *)
Definition article_tags_match (an : Analyzer) (names : list pystr)
  (d : LawDoc) : Prop :=
  exists n, In n names /\
    (phrase_in an (article_tags d) n = true \/
     exists a, In a (articles d) /\ phrase_in an (a_tags_text a) n = true).

(** The parts of the two alternatives of a text search. *)
Definition facets_in_law (an : Analyzer) (f : facets) (d : LawDoc) : bool :=
  forallb (fun lq => law_matches an lq d) (law_queries f).

Definition text_in_law (an : Analyzer) (q : pystr) (d : LawDoc) : bool :=
  text_match an (title d) q || text_match an (abstract d) q ||
  text_match an (pdf_text d) q || text_match an (classifications d) q ||
  text_match an (tags d) q.

Definition facets_in_article (an : Analyzer) (f : facets) (a : ArticleDoc)
  : bool :=
  forallb (fun aq => article_matches an aq a) (article_queries f).

Definition text_in_article (an : Analyzer) (q : pystr) (a : ArticleDoc)
  : bool :=
  text_match an (a_text a) q || phrase_in an (a_text a) q.

(** Some article satisfies the facet predicates; nothing is asked of the
    articles when there is no facet predicate. *)
Definition nested_facets (an : Analyzer) (f : facets) (d : LawDoc) : bool :=
  match article_queries f with
  | [] => true
  | _ => existsb (facets_in_article an f) (articles d)
  end.

(** Some article satisfies the facet predicates and holds the text. *)
Definition nested_facets_and_text (an : Analyzer) (f : facets) (q : pystr)
  (d : LawDoc) : bool :=
  existsb (fun a => facets_in_article an f a && text_in_article an q a)
          (articles d).

(** The two alternatives in the words of the specification: text in the
    law with the facets asked of the articles only, or facets in the law
    with facets and text asked of one article. *)
Definition spec_text_match (an : Analyzer) (f : facets) (q : pystr)
  (d : LawDoc) : bool :=
  (text_in_law an q d && nested_facets an f d) ||
  (facets_in_law an f d && nested_facets_and_text an f q d).

(** The two alternatives as the view builds them: the first one asks for
    the facets in the law as well. *)
Definition built_text_match (an : Analyzer) (f : facets) (q : pystr)
  (d : LawDoc) : bool :=
  (facets_in_law an f d && text_in_law an q d && nested_facets an f d) ||
  (facets_in_law an f d && nested_facets_and_text an f q d).

(** The article-level names one hit contributes to the accumulators. *)
Definition hit_article_tags (cfg : Settings) (hit : Hit) : list pystr :=
  match hit_highlight hit with
  | Some h =>
      match lookup h "article_tags" with
      | Some f => emphasised cfg (first f)
      | None => []
      end
  | None => []
  end.

Definition hit_article_classifications (cfg : Settings) (hit : Hit)
  : list pystr :=
  match hit_highlight hit with
  | Some h =>
      match lookup h "article_classifications" with
      | Some f => emphasised cfg (first f)
      | None => []
      end
  | None => []
  end.

(** The accumulators [acc] after the hits [hits] have been read. *)
Definition extend (cfg : Settings) (acc : matched) (hits : list Hit)
  : matched :=
  {| matched_article_tags :=
       matched_article_tags acc ++ flat_map (hit_article_tags cfg) hits;
     matched_article_classifications :=
       matched_article_classifications acc ++
       flat_map (hit_article_classifications cfg) hits |}.

(** The names matched by a sequence of hits of one page, from the first. *)
Definition page_matches (cfg : Settings) (hits : list Hit) : matched :=
  extend cfg no_match hits.

(** An article of the store with a matched tag or classification name. *)
Definition intersects (acc : matched) (a : ArticleRecord) : Prop :=
  (exists t, In t (art_tags a) /\
             str_in t (matched_article_tags acc) = true) \/
  (exists c, In c (art_classifications a) /\
             str_in c (matched_article_classifications acc) = true).



(** Whether the store has a row with the given key. *)
Definition has_row (st : Store) (k : Z) : bool :=
  existsb (fun r => pk r =? k) (laws st).

End Props.

(* ------------------------------------------------------------------ *)
(** ** [lcc/views/legislation.py]: the other views *)
(* ------------------------------------------------------------------ *)

Module Views.
Import Py Http.

(** A year handed to the template: a value of the query string, or one of
    the integer bounds of the settings. *)
Inductive year_value : Type :=
| year_str (s : pystr)
| year_int (z : Z).

(** [key in d] and [d[key]] on [dict(request.GET)], whose values are the
    lists of the query string. *)
Fixpoint find_key (d : QueryDict) (key : string) : option (list pystr) :=
  match d with
  | [] => None
  | (k, vs) :: d' => if String.eqb k key then Some vs else find_key d' key
  end.

(** The dict without the key. *)
Fixpoint remove_key (d : QueryDict) (key : string) : QueryDict :=
  match d with
  | [] => []
  | (k, vs) :: d' =>
      if String.eqb k key then remove_key d' key
      else (k, vs) :: remove_key d' key
  end.

(** [d.pop(key, [default])[0]]: the first value of the key, which is
    removed, or the default; the dict that is left. *)
Definition pop_first (d : QueryDict) (key : string) (default : Z)
  : result (year_value * QueryDict) :=
  match find_key d key with
  | Some [] => Raise IndexError
  | Some (v :: _) => Ok (year_str v, remove_key d key)
  | None => Ok (year_int default, d)
  end.

(** The entries ['from_year'], ['to_year'] and ['filters'] of the context
    that [LegislationExplorer.get_context_data] builds from
    [filters_dict = dict(self.request.GET)]; [filters] is the dict handed
    to [json.dumps]. The bounds are [settings.MIN_YEAR] and
    [settings.MAX_YEAR]. *)
Definition year_context (MIN_YEAR MAX_YEAR : Z) (GET : QueryDict)
  : result (year_value * year_value * QueryDict) :=
  r1 <- pop_first GET "from_year" MIN_YEAR ;;
  r2 <- pop_first (snd r1) "to_year" MAX_YEAR ;;
  Ok (fst r1, fst r2, snd r2).

(** Modelled from the spec: a row of [LegislationPage] of [lcc.models], one
    page of the extracted text of a law. *)
Record PageRow := {
  page_number : Z;
  page_text : pystr
}.

(** [content[key] = value] on a dict with integer keys, kept in insertion
    order. *)
Fixpoint content_set (d : list (Z * pystr)) (key : Z) (value : pystr)
  : list (Z * pystr) :=
  match d with
  | [] => [(key, value)]
  | (k, v) :: d' =>
      if k =? key then (k, value) :: d' else (k, v) :: content_set d' key value
  end.

Fixpoint content_get (d : list (Z * pystr)) (key : Z) : option pystr :=
  match d with
  | [] => None
  | (k, v) :: d' => if k =? key then Some v else content_get d' key
  end.

(** The loop of [LegislationPagesView.get] over [law.pages.all()]. *)
Definition pages_content (pages : list PageRow) : list (Z * pystr) :=
  fold_left (fun content page =>
               content_set content (page_number page) (page_text page))
            pages [].

(** [LegislationPagesView.get]: [None] stands for the 404 of
    [get_object_or_404], [law_pages] for the lookup of the law and of its
    pages. *)
Definition pages_view (law_pages : Z -> option (list PageRow))
  (legislation_pk : Z) : option (list (Z * pystr)) :=
  match law_pages legislation_pk with
  | None => None
  | Some pages => Some (pages_content pages)
  end.

End Views.

(* ------------------------------------------------------------------ *)
(** ** Further vocabulary and sample data *)
(* ------------------------------------------------------------------ *)

Module More.
Import Py Http ES Store Highlighted Explorer.

(** A request without any of the metadata parameters. *)
Definition no_metadata (m : Country.Ranges) (request : QueryDict) : Prop :=
  (forall f, In f Country.BOOLEAN_FIELDS -> get_truthy request f = None) /\
  (forall f, In f Country.LIST_FIELDS -> getlist request f = []) /\
  (forall f, In f (List.map fst (Country.RANGE_FIELDS m)) ->
             getlist request f = []).

(** A row whose related name for [field] is one of [names]. *)
Definition related_in (field : string) (names : list pystr)
  (r : Country.Country) : bool :=
  match Country.related_name r field with
  | Some n => str_in n names
  | None => false
  end.

(** One of the names is found as a phrase in one of two texts. *)
Definition names_in (an : Analyzer) (names : list pystr) (t1 t2 : pystr)
  : bool :=
  existsb (fun n => phrase_in an t1 n || phrase_in an t2 n) names.

(** Two lists of names with a name in common. *)
Definition names_intersect (a b : list pystr) : bool :=
  existsb (fun n => str_in n b) a.

(** One of the requested names is in a list of tag names of the law: the
    names of its own tag fields or of the tag fields of one of its
    articles, each field holding the names joined by the connector. *)
Definition tag_lists_intersect (cfg : Settings) (names : list pystr)
  (d : LawDoc) : bool :=
  names_intersect names (split_conn cfg (tags d)) ||
  names_intersect names (split_conn cfg (article_tags d)) ||
  existsb (fun a =>
             names_intersect names (split_conn cfg (a_tags_text a)) ||
             names_intersect names (split_conn cfg (a_parent_tags a)))
          (articles d).

(** A nested hit that carries a highlight. *)
Definition has_highlight (a : ArticleHit) : bool :=
  match ah_highlight a with
  | Some _ => true
  | None => false
  end.

(** A name of a taxonomy field as the index returns it in a highlight:
    wrapped in the emphasis marker when it was matched. *)
Definition rendered (item : pystr * bool) : pystr :=
  if snd item then u "<em>" ++ fst item ++ u "</em>" else fst item.

(** The last page of a law with the given number. *)
Definition last_page (pages : list Views.PageRow) (n : Z)
  : option Views.PageRow :=
  List.find (fun p => Views.page_number p =? n) (rev pages).

(** Sample data. *)
Definition region_of (code region : string) : Country.Country :=
  {| Country.iso := u code;
     Country.name := u code;
     Country.flag := fun _ => false;
     Country.related_name := fun f =>
       if String.eqb f "region" then Some (u region) else None;
     Country.number := fun f =>
       if String.eqb f "population" then Some (5000000 # 1)%Q else None |}.

Definition regions : list Country.Country :=
  [region_of "AA" "Europe"; region_of "BB" "Asia"; region_of "CC" "Europe"].

Definition energy_article : ArticleDoc :=
  {| a_pk := 81; a_code := u "art"; a_text := u "text";
     a_classifications_text := u "Energy";
     a_parent_classifications := [];
     a_tags_text := u "Adaptation"; a_parent_tags := [] |}.

(** A law with an article that has both the classification and the tag. *)
Definition energy_act : LawDoc :=
  {| id := 8; title := u "energy act"; abstract := []; pdf_text := [];
     classifications := []; article_classifications := u "Energy";
     tags := []; article_tags := u "Adaptation";
     country := u "BB"; country_name := u "Bland"; law_type := u "Law";
     year := 2011; year_amendment := [2014]; year_mentions := [];
     articles := [energy_article] |}.

(** A law without articles, tagged "Adaptation Planning" and "Finance". *)
Definition planning_act : LawDoc :=
  {| id := 9; title := u "planning act"; abstract := []; pdf_text := [];
     classifications := []; article_classifications := [];
     tags := u "Adaptation Planning;Finance"; article_tags := [];
     country := u "AA"; country_name := u "Aland"; law_type := u "Law";
     year := 2018; year_amendment := []; year_mentions := [];
     articles := [] |}.

(** A hit whose highlight shows the article tag and whose only nested hit
    carries no highlight. *)
Definition hit_with_bare_article : Hit :=
  {| hit_id := 4;
     hit_highlight :=
       Some [("article_tags"%string,
              {| first := u "<em>Adaptation</em>"; more := [] |})];
     hit_inner_hits :=
       Some [{| ah_pk := 41; ah_code := u "a1"; ah_highlight := None |}] |}.

(** The names of a tag field, the first and the last matched. *)
Definition three_names : list (pystr * bool) :=
  [(u "Adaptation", true); (u "Finance", false); (u "Water", true)].

Definition two_pages : list Views.PageRow :=
  [{| Views.page_number := 1; Views.page_text := u "first" |};
   {| Views.page_number := 2; Views.page_text := u "second" |};
   {| Views.page_number := 1; Views.page_text := u "first again" |}].

End More.

(* ------------------------------------------------------------------ *)
(** ** Properties of the Python primitives *)
(* ------------------------------------------------------------------ *)

Section Primitives.
Import Py.

Lemma bind_ok {A B} (r : result A) (k : A -> result B) (a : A) :
  r = Ok a -> Py.bind r k = k a.
Proof. intros ->. reflexivity. Qed.

Lemma bind_raise {A B} (r : result A) (k : A -> result B) (e : exn) :
  r = Raise e -> Py.bind r k = Raise e.
Proof. intros ->. reflexivity. Qed.

Lemma index_in_range {A} (l : list A) (i : Z) (x : A) :
  0 <= i < Z.of_nat (List.length l) ->
  nth_error l (Z.to_nat i) = Some x ->
  index l i = Ok x.
Proof.
  intros Hi Hx. unfold index.
  destruct (i <? 0) eqn:Hneg; [apply Z.ltb_lt in Hneg; lia|].
  replace (0 <=? i) with true by (symmetry; apply Z.leb_le; lia).
  replace (i <? Z.of_nat (List.length l)) with true
    by (symmetry; apply Z.ltb_lt; lia).
  simpl. now rewrite Hx.
Qed.

Lemma index_out_of_range {A} (l : list A) (i : Z) :
  Z.of_nat (List.length l) <= i \/ i < - Z.of_nat (List.length l) ->
  index l i = Raise IndexError.
Proof.
  intros Hi. unfold index.
  destruct (i <? 0) eqn:Hneg.
  - apply Z.ltb_lt in Hneg.
    replace (0 <=? i + Z.of_nat (List.length l)) with false
      by (symmetry; apply Z.leb_gt; lia).
    reflexivity.
  - apply Z.ltb_ge in Hneg.
    replace (i <? Z.of_nat (List.length l)) with false
      by (symmetry; apply Z.ltb_ge; lia).
    now rewrite andb_false_r.
Qed.

Lemma filter_filter {A} (f g : A -> bool) (l : list A) :
  List.filter f (List.filter g l) = List.filter (fun x => g x && f x) l.
Proof.
  induction l as [|x l IH]; simpl; [reflexivity|].
  destruct (g x); simpl; [destruct (f x)|]; now rewrite IH.
Qed.

Lemma get_some_getlist (d : Http.QueryDict) (key : string) (v : pystr) :
  Http.get d key = Some v -> Http.getlist d key <> [].
Proof.
  unfold Http.get. intros H E. rewrite E in H. discriminate.
Qed.

End Primitives.

(* ------------------------------------------------------------------ *)
(** ** Range buckets of the country filter *)
(* ------------------------------------------------------------------ *)

Section RangeBuckets.
Import Py Http Country Props.

Variable L : Literals.
Variable m : Ranges.

Lemma in_bucket_spec (field : string) (mn mx : Q) (rows : list Country)
  (r : Country) :
  In r (List.filter (in_bucket field mn mx) rows) <->
  In r rows /\
  exists x, number r field = Some x /\ (mn <= x)%Q /\ (x <= mx)%Q.
Proof.
  rewrite filter_In. unfold in_bucket. split.
  - intros [Hin H]. split; [exact Hin|].
    destruct (number r field) as [x|]; [|discriminate].
    apply andb_true_iff in H. destruct H as [H1 H2].
    exists x. repeat split; now apply Qle_bool_iff.
  - intros [Hin [x [Hx [H1 H2]]]]. split; [exact Hin|].
    rewrite Hx. apply andb_true_iff. split; now apply Qle_bool_iff.
Qed.

Lemma orm_filter_bucket (field : string) (mn mx : Q) (rows : list Country) :
  orm_filter L [gte L field mn; lte L field mx] rows =
  Ok (List.filter (in_bucket field mn mx) rows).
Proof.
  simpl. rewrite filter_filter. f_equal.
  apply filter_ext. intros r. unfold in_bucket.
  destruct (number r field); reflexivity.
Qed.

(** C4, as the code has it. For a range field with bucket table [t] and
    the request value [v]: an index [0 <= i < len t] stores exactly the
    two keywords [field__gte = min] and [field__lte = max] of bucket [i],
    and the filter built from them keeps the rows whose value lies in the
    closed interval; a value that is not an integer literal raises
    [ValueError]; an index [i >= len t] or [i < - len t] raises
    [IndexError]. *)
Theorem range_bucket_predicate
  (self : View L) (request : QueryDict) (field : string) (v : pystr)
  (t : list bucket) :
  range_table (RANGE_FIELDS m) field = Ok t ->
  get request field = Some v ->
  (forall i mn mx,
      int_opt v = Some i ->
      0 <= i < Z.of_nat (List.length t) ->
      nth_error t (Z.to_nat i) = Some (mn, mx) ->
      filter_range_fields L m self request field =
        Ok (set_data L (set_data L self (gte L field mn)) (lte L field mx)) /\
      forall rows,
        orm_filter L [gte L field mn; lte L field mx] rows =
          Ok (List.filter (in_bucket field mn mx) rows) /\
        forall r,
          In r (List.filter (in_bucket field mn mx) rows) <->
          In r rows /\
          exists x, number r field = Some x /\ (mn <= x)%Q /\ (x <= mx)%Q) /\
  (int_opt v = None ->
   filter_range_fields L m self request field = Raise ValueError) /\
  (forall i,
      int_opt v = Some i ->
      Z.of_nat (List.length t) <= i \/ i < - Z.of_nat (List.length t) ->
      filter_range_fields L m self request field = Raise IndexError).
Proof.
  intros Ht Hv.
  assert (Hstep : filter_range_fields L m self request field =
           (i <- int v ;; b <- index t i ;;
            i' <- int v ;; b' <- index t i' ;;
            Ok (set_data L (set_data L self (gte L field (fst b)))
                  (lte L field (snd b'))))).
  { unfold filter_range_fields.
    pose proof (get_some_getlist _ _ _ Hv) as Hne.
    destruct (getlist request field) as [|x xs]; [congruence|].
    rewrite Ht. unfold int_param. rewrite Hv. simpl.
    destruct (int v); simpl; [|reflexivity].
    destruct (index t a); reflexivity. }
  split; [|split].
  - intros i mn mx Hi Hrange Hnth. split.
    + rewrite Hstep. unfold int. rewrite Hi. simpl.
      rewrite (index_in_range t i (mn, mx)) by assumption. reflexivity.
    + intros rows. split; [apply orm_filter_bucket|].
      intros r. apply in_bucket_spec.
  - intros Hnone. rewrite Hstep. unfold int. now rewrite Hnone.
  - intros i Hi Hout. rewrite Hstep. unfold int. rewrite Hi. simpl.
    now rewrite index_out_of_range.
Qed.

End RangeBuckets.

(** A run of [range_bucket_predicate]: bucket 2 of the population table. *)
Lemma range_bucket_predicate_witness :
  let request := [("population"%string, [Py.u "2"])] in
  Country.range_table (Country.RANGE_FIELDS Sample.tables) "population" =
    Py.Ok (Country.POP_RANGES Sample.tables) /\
  Http.get request "population" = Some (Py.u "2") /\
  Country.filter_range_fields Sample.lits Sample.tables
    (Country.init Sample.lits Sample.lands) request "population" =
  Py.Ok {| Country.data :=
             [Country.gte Sample.lits "population" (10000000 # 1)%Q;
              Country.lte Sample.lits "population" (1000000000 # 1)%Q];
           Country.countries := Sample.lands |}.
Proof.
  intros request. split; [reflexivity|]. split; [reflexivity|].
  destruct (range_bucket_predicate Sample.lits Sample.tables
              (Country.init Sample.lits Sample.lands) request "population"
              (Py.u "2") (Country.POP_RANGES Sample.tables)
              eq_refl eq_refl) as [H _].
  apply (H 2 (10000000 # 1)%Q (1000000000 # 1)%Q);
    [reflexivity | simpl; lia | reflexivity].
Defined.

(** The index [-1] is not an index of the three population buckets, yet it
    is accepted: the filter is built from the last bucket and nothing is
    raised. *)
Lemma negative_bucket_index_is_accepted :
  let request := [("population"%string, [Py.u "-1"])] in
  Py.int_opt (Py.u "-1") = Some (-1) /\
  ~ (0 <= -1 < Z.of_nat (List.length (Country.POP_RANGES Sample.tables))) /\
  Country.filter_range_fields Sample.lits Sample.tables
    (Country.init Sample.lits Sample.lands) request "population" =
  Py.Ok {| Country.data :=
             [Country.gte Sample.lits "population" (10000000 # 1)%Q;
              Country.lte Sample.lits "population" (1000000000 # 1)%Q];
           Country.countries := Sample.lands |} /\
  ~ Py.raises (Country.filter_range_fields Sample.lits Sample.tables
                 (Country.init Sample.lits Sample.lands) request "population").
Proof.
  intros request. split; [reflexivity|]. split; [simpl; lia|].
  split; [reflexivity|]. intros [e He]. discriminate He.
Qed.

(* ------------------------------------------------------------------ *)
(** ** Pagination *)
(* ------------------------------------------------------------------ *)

Section Pagination.
Import Py Paginator Props Explorer.

Variable A : Type.
Variable p : Paginator A.
Hypothesis per_page_positive : 0 < per_page p.

Lemma num_pages_at_least_one : 1 <= num_pages p.
Proof.
  unfold num_pages. apply Z.div_le_lower_bound; lia.
Qed.

Lemma page_in_range (z : Z) :
  1 <= z <= num_pages p -> page p (page_int z) = Ok (page_at p z).
Proof.
  intros Hz. unfold page, validate_number.
  replace (z <? 1) with false by (symmetry; apply Z.ltb_ge; lia).
  replace (num_pages p <? z) with false by (symmetry; apply Z.ltb_ge; lia).
  reflexivity.
Qed.

Lemma page_str_in_range (s : pystr) (z : Z) :
  int_opt s = Some z -> 1 <= z <= num_pages p ->
  page p (page_str s) = Ok (page_at p z).
Proof.
  intros Hs Hz. unfold page, validate_number. rewrite Hs.
  replace (z <? 1) with false by (symmetry; apply Z.ltb_ge; lia).
  replace (num_pages p <? z) with false by (symmetry; apply Z.ltb_ge; lia).
  reflexivity.
Qed.

Lemma page_out_of_range (n : page_param) (z : Z) :
  requested n = Some z -> z < 1 \/ num_pages p < z ->
  page p n = Raise EmptyPage.
Proof.
  intros Hn Hz. pose proof num_pages_at_least_one as Hnp.
  unfold page, validate_number.
  replace (match n with page_str s => int_opt s | page_int z0 => Some z0 end)
    with (Some z) by (destruct n; simpl in Hn; congruence).
  destruct (z <? 1) eqn:H1; [reflexivity|]. apply Z.ltb_ge in H1.
  replace (num_pages p <? z) with true by (symmetry; apply Z.ltb_lt; lia).
  replace (z =? 1) with false by (symmetry; apply Z.eqb_neq; lia).
  reflexivity.
Qed.

Lemma page_not_an_integer (n : page_param) :
  requested n = None -> page p n = Raise PageNotAnInteger.
Proof.
  intros Hn. unfold page, validate_number.
  destruct n as [s|z]; simpl in Hn; [now rewrite Hn | discriminate].
Qed.

(** What the [try] statement delivers, case by case. *)
Lemma deliver_cases (n : page_param) :
  deliver p n =
  Ok (page_at p
        match requested n with
        | None => 1
        | Some z => if (1 <=? z) && (z <=? num_pages p)
                    then z else num_pages p
        end).
Proof.
  pose proof num_pages_at_least_one as Hnp. unfold deliver.
  destruct (requested n) as [z|] eqn:Hn.
  - destruct ((1 <=? z) && (z <=? num_pages p)) eqn:Hz.
    + apply andb_true_iff in Hz. destruct Hz as [H1 H2].
      apply Z.leb_le in H1. apply Z.leb_le in H2.
      destruct n as [s|z']; simpl in Hn.
      * now rewrite (page_str_in_range s z) by (auto; lia).
      * injection Hn as ->. now rewrite page_in_range by lia.
    + rewrite (page_out_of_range n z Hn).
      * apply page_in_range. lia.
      * apply andb_false_iff in Hz.
        destruct Hz as [Hz|Hz]; apply Z.leb_gt in Hz; lia.
  - rewrite (page_not_an_integer n Hn). apply page_in_range. lia.
Qed.

End Pagination.

(** C5, as the code has it. Whatever the result set and the page
    parameter, the view delivers a page and raises nothing: the first page
    for a parameter that is not an integer, the requested page for an
    integer between one and the number of pages, and the last page for
    every other integer, page 0 and the negative ones included. *)
Theorem every_page_request_is_served
  (env : Explorer.Env) (all_laws : Highlighted.HighlightedLaws)
  (n : Paginator.page_param) :
  let p := Explorer.paginator env all_laws in
  exists pg,
    Explorer.deliver p n = Py.Ok pg /\
    pg = Props.page_at p (Paginator.number pg) /\
    1 <= Paginator.number pg <= Paginator.num_pages p /\
    (Props.requested n = None -> Paginator.number pg = 1) /\
    (forall z, Props.requested n = Some z ->
               1 <= z <= Paginator.num_pages p -> Paginator.number pg = z) /\
    (forall z, Props.requested n = Some z ->
               Paginator.num_pages p < z ->
               Paginator.number pg = Paginator.num_pages p) /\
    (forall z, Props.requested n = Some z ->
               z < 1 -> Paginator.number pg = Paginator.num_pages p).
Proof.
  intros p.
  assert (Hpp : 0 < Paginator.per_page p) by (simpl; lia).
  pose proof (num_pages_at_least_one _ p Hpp) as Hnp.
  eexists. split; [apply (deliver_cases _ p Hpp)|].
  simpl Paginator.number. split; [reflexivity|].
  destruct (Props.requested n) as [z|] eqn:Hn.
  - destruct ((1 <=? z) && (z <=? Paginator.num_pages p)) eqn:Hz.
    + apply andb_true_iff in Hz. destruct Hz as [H1 H2].
      apply Z.leb_le in H1. apply Z.leb_le in H2.
      repeat split; try lia; try discriminate;
        intros z' Hz'; injection Hz' as <-; lia.
    + apply andb_false_iff in Hz.
      repeat split; try lia; try discriminate;
        intros z' Hz'; injection Hz' as <-; intros;
        destruct Hz as [Hz|Hz]; apply Z.leb_gt in Hz; lia.
  - repeat split; try lia; discriminate.
Qed.

(** Page 0 of five laws, two to a page and sorted by year: the view answers
    with page 3, the last one, not with page 1. *)
Lemma page_zero_is_the_last_page :
  let request := [("promulgation_sort"%string, [Py.u "1"]);
                  ("page"%string, [Py.u "0"])] in
  Props.requested (Explorer.page_of request) = Some 0 /\
  Explorer.get_queryset Sample.env request =
    Py.Ok {| Paginator.object_list := [Highlighted.bare (Sample.row 3)];
             Paginator.number := 3 |} /\
  Explorer.get_queryset Sample.env
    [("promulgation_sort"%string, [Py.u "1"]); ("page"%string, [Py.u "1"])] =
    Py.Ok {| Paginator.object_list :=
               [Highlighted.bare (Sample.row 2);
                Highlighted.bare (Sample.row 4)];
             Paginator.number := 1 |}.
Proof.
  intros request. repeat split; vm_compute; reflexivity.
Qed.

(** A run of [every_page_request_is_served]: page 0 of the five laws. *)
Lemma every_page_request_is_served_witness :
  let all_laws := {| Highlighted.search := ES.new_search;
                     Highlighted.sort := Some (Py.u "year") |} in
  exists pg,
    Explorer.deliver (Explorer.paginator Sample.env all_laws)
      (Paginator.page_str (Py.u "0")) = Py.Ok pg /\
    Paginator.number pg = 3.
Proof.
  intros all_laws.
  destruct (every_page_request_is_served Sample.env all_laws
              (Paginator.page_str (Py.u "0")))
    as [pg [Hd [_ [_ [_ [_ [_ Hlow]]]]]]].
  exists pg. split; [exact Hd|].
  rewrite (Hlow 0 eq_refl); [reflexivity | lia].
Defined.

(* ------------------------------------------------------------------ *)
(** ** The unsorted path *)
(* ------------------------------------------------------------------ *)

Section UnsortedPath.
Import Py Http ES Store Highlighted Explorer.

Lemma ints_cases (l : list pystr) :
  (exists zs, ints l = Ok zs) \/ ints l = Raise ValueError.
Proof.
  induction l as [|x l IH]; simpl; [left; now eexists|].
  unfold int. destruct (int_opt x) as [z|]; simpl; [|now right].
  destruct IH as [[zs ->]| ->]; simpl; [left; now eexists | now right].
Qed.

Lemma reduce_cases {A} (f : A -> A -> A) (l : list A) :
  (exists r, reduce f l = Ok r) \/ reduce f l = Raise TypeError.
Proof. destruct l; simpl; [now right | left; now eexists]. Qed.

Lemma either_field_cases (f g : string) (names : list pystr) :
  (exists r, either_field f g names = Ok r) \/
  either_field f g names = Raise TypeError.
Proof.
  unfold either_field, any_name.
  destruct (reduce_cases or_ (List.map (match_phrase f) names))
    as [[a ->]| ->]; simpl; [|now right].
  destruct (reduce_cases or_ (List.map (match_phrase g) names))
    as [[b ->]| ->]; simpl; [left; now eexists | now right].
Qed.

Lemma add_facet_cases (names : list pystr) (a b c d : string) (f : facets) :
  (exists f', add_facet names a b c d f = Ok f') \/
  add_facet names a b c d f = Raise TypeError.
Proof.
  unfold add_facet.
  destruct (either_field_cases a b names) as [[x ->]| ->]; simpl;
    [|now right].
  destruct (either_field_cases c d names) as [[y ->]| ->]; simpl;
    [left; now eexists | now right].
Qed.

(** The facet blocks either complete or raise one of two exceptions, and
    only [TypeError] once every identifier is an integer literal. *)
Lemma facet_queries_cases (st : Store) (request : QueryDict) :
  (exists r, facet_queries st request = Ok r) \/
  facet_queries st request = Raise TypeError \/
  (facet_queries st request = Raise ValueError /\
   ~ ((exists cs, ints (getlist request "classifications[]") = Ok cs) /\
      (exists ts, ints (getlist request "tags[]") = Ok ts))).
Proof.
  unfold facet_queries.
  destruct (ints_cases (getlist request "classifications[]"))
    as [[cs Hcs]|Hcs]; rewrite Hcs; simpl.
  2:{ right; right. split; [reflexivity|]. intros [[cs H] _]. congruence. }
  assert (H1 : (exists f1, match cs with
                 | [] => Ok no_facets
                 | _ :: _ =>
                     add_facet (names_of (classification_table st) cs)
                       "classifications" "article_classifications"
                       "articles.classifications_text"
                       "articles.parent_classifications" no_facets
                 end = Ok f1) \/
               match cs with
               | [] => Ok no_facets
               | _ :: _ =>
                   add_facet (names_of (classification_table st) cs)
                     "classifications" "article_classifications"
                     "articles.classifications_text"
                     "articles.parent_classifications" no_facets
               end = Raise TypeError).
  { destruct cs; [left; now eexists | apply add_facet_cases]. }
  destruct H1 as [[f1 ->]| ->]; simpl; [|now (right; left)].
  destruct (ints_cases (getlist request "tags[]")) as [[ts Hts]|Hts];
    rewrite Hts; simpl.
  2:{ right; right. split; [reflexivity|]. intros [_ [ts H]]. congruence. }
  destruct ts as [|t ts]; simpl; [left; now eexists|].
  destruct (add_facet_cases (names_of (tag_table st) (t :: ts))
              "tags" "article_tags" "articles.tags_text"
              "articles.parent_tags" f1) as [[f2 ->]| ->]; simpl;
    [left; now eexists | now (right; left)].
Qed.

Lemma nested_if_ok (qs : list query) (hl : list (string * option nat)) :
  exists l, nested_if (nonempty qs) qs hl = Ok l.
Proof. destruct qs; simpl; now eexists. Qed.

(** The composition itself never raises. *)
Lemma compose_total (f : facets) (q : option pystr) (s : Search) :
  exists s', compose f q s = Ok s'.
Proof.
  unfold compose. destruct q as [q|].
  - unfold text_query.
    destruct (nested_if_ok (article_queries f) (article_highlights f))
      as [n1 ->]. simpl.
    rewrite orb_true_r. unfold nested_if.
    destruct (article_queries f); simpl; now eexists.
  - unfold facet_only_query.
    destruct (nested_if_ok (article_queries f) (article_highlights f))
      as [n1 Hn1].
    destruct (law_queries f); simpl; rewrite Hn1; simpl; now eexists.
Qed.

(** The keyword [selected_countries] is not a parameter of
    [filter_countries]. *)
Lemma selected_countries_rejected (L : Country.Literals) (m : Country.Ranges)
  (self : Country.View L) (request : QueryDict) :
  Country.call_filter_countries L m self request
    ["selected_countries"%string] = Raise TypeError.
Proof. reflexivity. Qed.

Lemma unsorted_search_raises (env : Env) (request : QueryDict) (f : facets)
  (any_ids : bool) (q : option pystr) (s : Search) :
  unsorted_search env request f any_ids q s = Raise TypeError.
Proof.
  unfold unsorted_search.
  destruct (compose_total f q s) as [s1 ->]. cbn [Py.bind].
  now rewrite selected_countries_rejected.
Qed.

(** C1, as the code has it. A request without a sort never completes: the
    block for unsorted searches always raises [TypeError] at the call of
    [filter_countries], so the request raises [TypeError] whenever all
    the [classifications[]] and [tags[]] values are integer literals, and
    [TypeError] or [ValueError] otherwise. *)
Theorem unsorted_request_never_completes (env : Env) (request : QueryDict) :
  get_sort request = None ->
  (forall f any_ids q s,
      unsorted_search env request f any_ids q s = Raise TypeError) /\
  (get_queryset env request = Raise TypeError \/
   get_queryset env request = Raise ValueError) /\
  ((exists cs, ints (getlist request "classifications[]") = Ok cs) ->
   (exists ts, ints (getlist request "tags[]") = Ok ts) ->
   get_queryset env request = Raise TypeError).
Proof.
  intros Hsort.
  split; [intros; apply unsorted_search_raises|].
  unfold get_queryset. rewrite Hsort.
  destruct (facet_queries_cases (store env) request)
    as [[r ->]|[->|[-> Hbad]]]; simpl.
  - rewrite unsorted_search_raises. simpl. split; [now left | reflexivity].
  - split; [now left | reflexivity].
  - split; [now right|]. intros Hc Ht. exfalso. apply Hbad. now split.
Qed.

(** A run of [unsorted_request_never_completes]: the empty request. *)
Lemma unsorted_request_never_completes_witness :
  get_sort [] = None /\
  get_queryset Sample.env [] = Raise TypeError.
Proof.
  split; [reflexivity|].
  apply (unsorted_request_never_completes Sample.env [] eq_refl);
    now eexists.
Defined.

(** A request without a sort whose classification value is not an integer
    literal raises [ValueError], not [TypeError]. *)
Lemma malformed_identifier_raises_value_error :
  let request := [("classifications[]"%string, [u "abc"])] in
  get_sort request = None /\
  get_queryset Sample.env request = Raise ValueError /\
  get_queryset Sample.env request <> Raise TypeError.
Proof.
  intros request. split; [reflexivity|]. split; [reflexivity|].
  vm_compute. discriminate.
Qed.

End UnsortedPath.

(* ------------------------------------------------------------------ *)
(** ** Matching of composed queries *)
(* ------------------------------------------------------------------ *)

Section ComposedQueries.
Import Py Http ES Store Highlighted Explorer Props.

Variable an : Analyzer.

Lemma matches_fold_and (ch : list fields) (fs : fields) (l : list query) :
  forall x,
    matches an ch fs (fold_left and_ l x) =
    matches an ch fs x && forallb (matches an ch fs) l.
Proof.
  induction l as [|y l IH]; intros x; simpl.
  - now rewrite andb_true_r.
  - rewrite IH. simpl. now rewrite andb_assoc.
Qed.

Lemma matches_fold_or (ch : list fields) (fs : fields) (l : list query) :
  forall x,
    matches an ch fs (fold_left or_ l x) =
    matches an ch fs x || existsb (matches an ch fs) l.
Proof.
  induction l as [|y l IH]; intros x; simpl.
  - now rewrite orb_false_r.
  - rewrite IH. simpl. now rewrite orb_assoc.
Qed.

Lemma reduce_and_matches (ch : list fields) (fs : fields) (l : list query)
  (r : query) :
  reduce and_ l = Ok r ->
  matches an ch fs r = forallb (matches an ch fs) l.
Proof.
  destruct l as [|x l]; simpl; [discriminate|].
  intros H. injection H as <-. apply matches_fold_and.
Qed.

Lemma any_name_matches (field : string) (names : list pystr) :
  names <> [] ->
  exists r, any_name field names = Ok r /\
            forall ch fs,
              matches an ch fs r =
              existsb (fun n => phrase_on an fs field n) names.
Proof.
  intros Hne. unfold any_name.
  destruct names as [|n names]; [congruence|]. simpl.
  eexists. split; [reflexivity|]. intros ch fs.
  rewrite matches_fold_or. simpl. f_equal.
  clear Hne. induction names as [|k names IH]; simpl; [reflexivity|].
  now rewrite IH.
Qed.

Lemma either_field_matches (field field' : string) (names : list pystr) :
  names <> [] ->
  exists r, either_field field field' names = Ok r /\
            forall ch fs,
              matches an ch fs r =
              existsb (fun n => phrase_on an fs field n ||
                                phrase_on an fs field' n) names.
Proof.
  intros Hne. unfold either_field.
  destruct (any_name_matches field names Hne) as [a [-> Ha]].
  destruct (any_name_matches field' names Hne) as [b [-> Hb]].
  simpl. eexists. split; [reflexivity|]. intros ch fs. simpl.
  rewrite Ha, Hb. clear.
  induction names as [|n names IH]; simpl; [reflexivity|].
  rewrite <- IH.
  destruct (phrase_on an fs field n), (phrase_on an fs field' n),
    (existsb (fun n0 => phrase_on an fs field n0) names),
    (existsb (fun n0 => phrase_on an fs field' n0) names); reflexivity.
Qed.

Lemma search_matches_add_query (s : Search) (q : query) (d : LawDoc) :
  search_matches an (add_query s q) d =
  search_matches an s d && law_matches an q d.
Proof.
  unfold search_matches, add_query. simpl.
  destruct (s_query s); reflexivity.
Qed.

Lemma search_matches_add_highlight (s : Search) (fl : list string)
  (frag : option nat) (d : LawDoc) :
  search_matches an (add_highlight s fl frag) d = search_matches an s d.
Proof. reflexivity. Qed.

Lemma in_range_exists (lo hi : Z) (l : list Z) :
  existsb (fun y => (lo <=? y) && (y <=? hi)) l = true <->
  exists y, In y l /\ lo <= y <= hi.
Proof.
  rewrite existsb_exists. split; intros [y [Hy H]]; exists y; split; auto.
  - apply andb_true_iff in H. destruct H as [H1 H2].
    apply Z.leb_le in H1. apply Z.leb_le in H2. lia.
  - apply andb_true_iff. split; apply Z.leb_le; lia.
Qed.

(** The year block taken alone, on the search it would be handed. With
    both bounds supplied as the integers [lo] and [hi], it adds a query
    that a law passes exactly when one of its three year fields holds a
    value in the closed range; with one of the bounds missing or empty,
    it leaves the search as it is and raises nothing. *)
Theorem year_filter_semantics (request : QueryDict) (s : Search) :
  (forall from_year to_year lo hi,
      get_truthy request "from_year" = Some from_year ->
      get_truthy request "to_year" = Some to_year ->
      int_opt from_year = Some lo ->
      int_opt to_year = Some hi ->
      exists s',
        year_filter request s = Ok s' /\
        forall d,
          search_matches an s' d = true <->
          search_matches an s d = true /\ year_in_range lo hi d) /\
  (get_truthy request "from_year" = None \/
   get_truthy request "to_year" = None ->
   year_filter request s = Ok s).
Proof.
  split.
  - intros from_year to_year lo hi Hf Ht Hlo Hhi.
    unfold year_filter. rewrite Hf, Ht. unfold int. rewrite Hlo, Hhi. simpl.
    eexists. split; [reflexivity|]. intros d.
    rewrite search_matches_add_query, andb_true_iff.
    unfold law_matches, year_in_range. simpl.
    rewrite !orb_true_iff, !in_range_exists.
    assert (Hy : (lo <=? year d) && (year d <=? hi) = true \/ false = true
                 <-> lo <= year d <= hi).
    { rewrite andb_true_iff, !Z.leb_le. intuition discriminate. }
    tauto.
  - intros H. unfold year_filter.
    destruct H as [-> | H]; [reflexivity|].
    rewrite H. now destruct (get_truthy request "from_year").
Qed.

End ComposedQueries.

(** A bound that is not an integer literal: the year block raises. *)
Example malformed_year_raises :
  Explorer.year_filter
    [("from_year"%string, [Py.u "abc"]); ("to_year"%string, [Py.u "2010"])]
    ES.new_search = Py.Raise Py.ValueError.
Proof. reflexivity. Qed.

(** A run of [year_filter_semantics]: the years 2000 to 2010 keep the law
    of 2005 and drop the law of 1999; with the upper bound alone the
    search is left as it is. *)
Lemma year_filter_semantics_witness :
  let request := [("from_year"%string, [Py.u "2000"]);
                  ("to_year"%string, [Py.u "2010"])] in
  (exists s,
      Explorer.year_filter request ES.new_search = Py.Ok s /\
      ES.search_matches Sample.substrings s
        (Sample.law 1 2005 "one" "" "" []) = true /\
      ES.search_matches Sample.substrings s
        (Sample.law 2 1999 "two" "" "" []) = false) /\
  Explorer.year_filter [("to_year"%string, [Py.u "2010"])] ES.new_search =
    Py.Ok ES.new_search.
Proof.
  intros request. split.
  - destruct (proj1 (year_filter_semantics Sample.substrings request
                       ES.new_search)
                (Py.u "2000") (Py.u "2010") 2000 2010
                eq_refl eq_refl eq_refl eq_refl) as [s [Hs Hm]].
    exists s. split; [exact Hs|]. split.
    + apply Hm. split; [reflexivity|]. left. simpl. lia.
    + destruct (ES.search_matches Sample.substrings s
                  (Sample.law 2 1999 "two" "" "" [])) eqn:E;
        [|reflexivity].
      apply Hm in E. destruct E as [_ [H|[[y [[] _]]|[y [[] _]]]]].
      simpl in H. lia.
  - apply (year_filter_semantics Sample.substrings). now left.
Defined.

(** C6. No request reaches the year block. It stands in the branch for
    requests without a sort, after the call of [filter_countries] that
    raises [TypeError]: the request with both bounds raises instead of
    returning the laws of the range, and the request with one bound
    raises instead of returning the laws unfiltered. This holds in every
    installation. *)
Theorem year_bounds_never_reach_the_year_block (env : Explorer.Env) :
  Explorer.get_queryset env
    [("from_year"%string, [Py.u "2000"]); ("to_year"%string, [Py.u "2010"])] =
    Py.Raise Py.TypeError /\
  Explorer.get_queryset env [("to_year"%string, [Py.u "2010"])] =
    Py.Raise Py.TypeError.
Proof.
  split; unfold Explorer.get_queryset;
    change (Explorer.facet_queries (Explorer.store env) _)
      with (Py.Ok (Explorer.no_facets, false));
    cbn [Py.bind fst snd];
    change (Explorer.get_sort _) with (@None Py.pystr);
    cbv beta iota zeta; rewrite unsorted_search_raises; reflexivity.
Qed.

(* ------------------------------------------------------------------ *)
(** ** Searches by tags only *)
(* ------------------------------------------------------------------ *)

Section TagsOnly.
Import Py Http ES Store Highlighted Explorer Props.

Variable an : Analyzer.

Lemma names_of_nil (table : list (Z * pystr)) : names_of table [] = [].
Proof.
  unfold names_of. induction table as [|r table IH]; simpl; auto.
Qed.

Lemma one_of_two {A} (p : A -> bool) (x y : A) :
  (1 <=? List.length (List.filter p [x; y]))%nat = p x || p y.
Proof. simpl. destruct (p x), (p y); reflexivity. Qed.

(** The facet record of a request with tags only. *)
Lemma tags_only_facets (st : Store) (request : QueryDict) (ids : list Z) :
  getlist request "classifications[]" = [] ->
  ints (getlist request "tags[]") = Ok ids ->
  names_of (tag_table st) ids <> [] ->
  exists lq aq,
    facet_queries st request =
      Ok ({| law_queries := [lq];
             article_queries := [aq];
             article_highlights :=
               [("articles.tags_text"%string, Some 0%nat)] |}, true) /\
    (forall ch fs,
        matches an ch fs lq =
        existsb (fun n => phrase_on an fs "tags" n ||
                          phrase_on an fs "article_tags" n)
                (names_of (tag_table st) ids)) /\
    (forall ch fs,
        matches an ch fs aq =
        existsb (fun n => phrase_on an fs "articles.tags_text" n ||
                          phrase_on an fs "articles.parent_tags" n)
                (names_of (tag_table st) ids)).
Proof.
  intros Hc Ht Hn. unfold facet_queries. rewrite Hc, Ht. simpl.
  destruct ids as [|i ids]; [now rewrite names_of_nil in Hn|].
  unfold add_facet.
  destruct (either_field_matches an "tags" "article_tags" _ Hn)
    as [lq [-> Hlq]].
  destruct (either_field_matches an "articles.tags_text"
              "articles.parent_tags" _ Hn) as [aq [-> Haq]].
  simpl. exists lq, aq. repeat split; assumption.
Qed.

(** C7, as the code has it. For a request with tags only, whose
    identifiers resolve to at least one name, the composition succeeds and
    the composed query matches a law exactly when the index finds a
    requested name as a phrase in the tag text of the law or in the tag
    text of one of its articles; a match at the level of the law needs no
    matching article, and a match inside an article needs no match at the
    level of the law. A name is looked up with [match_phrase] in the text
    of the joined names, not compared with the names of the list. *)
Theorem tags_only_search (st : Store) (request : QueryDict) (ids : list Z) :
  get_truthy request "q" = None ->
  getlist request "classifications[]" = [] ->
  ints (getlist request "tags[]") = Ok ids ->
  names_of (tag_table st) ids <> [] ->
  exists f s,
    facet_queries st request = Ok (f, true) /\
    compose f (get_truthy request "q") new_search = Ok s /\
    forall d,
      let names := names_of (tag_table st) ids in
      (search_matches an s d = true <->
       own_tags_match an names d \/ article_tags_match an names d) /\
      (tag_at_law_level an names d -> search_matches an s d = true) /\
      (tag_in_an_article an names d -> search_matches an s d = true).
Proof.
  intros Hq Hc Ht Hn.
  destruct (tags_only_facets st request ids Hc Ht Hn)
    as [lq [aq [Hf [Hlq Haq]]]].
  eexists. eexists. split; [exact Hf|]. rewrite Hq.
  split; [reflexivity|]. intros d names.
  assert (Hm : search_matches an
                 (add_query new_search
                    (bool_ [] [lq; nested "articles" aq
                                 [("articles.tags_text"%string, Some 0%nat)]]
                       (Some 1%nat))) d = true <->
               tag_at_law_level an names d \/ tag_in_an_article an names d).
  { unfold search_matches, law_matches. simpl s_query.
    cbn [matches forallb andb]. rewrite one_of_two, orb_true_iff.
    cbn [matches]. rewrite Hlq, !existsb_exists.
    unfold tag_at_law_level, tag_in_an_article. fold names. split.
    - intros [[n [Hin H]]|[fs [Hfs H]]].
      + left. exists n. split; [exact Hin|].
        apply orb_true_iff in H. exact H.
      + right. apply in_map_iff in Hfs. destruct Hfs as [a [<- Ha]].
        rewrite Haq in H. apply existsb_exists in H.
        destruct H as [n [Hin H]]. exists n, a.
        repeat split; try assumption. apply orb_true_iff in H. exact H.
    - intros [[n [Hin H]]|[n [a [Hin [Ha H]]]]].
      + left. exists n. split; [exact Hin|]. apply orb_true_iff. exact H.
      + right. exists (article_fields a). split; [now apply in_map|].
        rewrite Haq. apply existsb_exists. exists n.
        split; [exact Hin|]. apply orb_true_iff. exact H. }
  simpl compose in *. split; [|split].
  - rewrite Hm. unfold tag_at_law_level, tag_in_an_article,
      own_tags_match, article_tags_match. split.
    + intros [[n [Hin [H|H]]]|[n [a [Hin [Ha [H|H]]]]]].
      * left. exists n. auto.
      * right. exists n. auto.
      * right. exists n. split; [exact Hin|]. right. now exists a.
      * left. exists n. split; [exact Hin|]. right. now exists a.
    + intros [[n [Hin [H|[a [Ha H]]]]]|[n [Hin [H|[a [Ha H]]]]]].
      * left. exists n. auto.
      * right. exists n, a. auto.
      * left. exists n. auto.
      * right. exists n, a. auto.
  - intros H. apply Hm. now left.
  - intros H. apply Hm. now right.
Qed.

End TagsOnly.

(** Tag identifiers that resolve to no name: [reduce] is applied to an
    empty list and the facet block raises. *)
Example unknown_tag_raises :
  Explorer.facet_queries Sample.db [("tags[]"%string, [Py.u "99"])] =
  Py.Raise Py.TypeError.
Proof. reflexivity. Qed.

(** C7, as the claim states it, fails: the tag 7, "Adaptation", is
    requested, and the law tagged "Adaptation Planning" and "Finance"
    matches the composed query although none of its tag names is a
    requested name. *)
Lemma phrase_match_without_a_common_name :
  let request := [("tags[]"%string, [Py.u "7"])] in
  Http.get_truthy request "q" = None /\
  Http.getlist request "classifications[]" = [] /\
  Store.names_of (Store.tag_table Sample.db) [7] = [Py.u "Adaptation"] /\
  Highlighted.split_conn Sample.cfg (ES.tags More.planning_act) =
    [Py.u "Adaptation Planning"; Py.u "Finance"] /\
  More.tag_lists_intersect Sample.cfg [Py.u "Adaptation"]
    More.planning_act = false /\
  exists f s,
    Explorer.facet_queries Sample.db request = Py.Ok (f, true) /\
    Explorer.compose f None ES.new_search = Py.Ok s /\
    ES.search_matches Sample.substrings s More.planning_act = true.
Proof.
  intros request. repeat (split; [reflexivity|]).
  eexists. eexists. split; [reflexivity|]. split; [reflexivity|].
  vm_compute. reflexivity.
Qed.

(** A run of [tags_only_search]: the tag 7 and a law that has the tag on
    one article only. *)
Lemma tags_only_search_witness :
  let request := [("tags[]"%string, [Py.u "7"])] in
  Http.get_truthy request "q" = None /\
  Http.getlist request "classifications[]" = [] /\
  Py.ints (Http.getlist request "tags[]") = Py.Ok [7] /\
  Store.names_of (Store.tag_table Sample.db) [7] <> [] /\
  exists f s,
    Explorer.facet_queries Sample.db request = Py.Ok (f, true) /\
    Explorer.compose f None ES.new_search = Py.Ok s /\
    ES.search_matches Sample.substrings s Sample.climate_act = true.
Proof.
  intros request.
  assert (Hn : Store.names_of (Store.tag_table Sample.db) [7] <> [])
    by (vm_compute; discriminate).
  repeat (split; [first [reflexivity | exact Hn]|]).
  destruct (tags_only_search Sample.substrings Sample.db request [7]
              eq_refl eq_refl eq_refl Hn) as [f [s [Hf [Hs H]]]].
  exists f, s. split; [exact Hf|]. split; [exact Hs|].
  apply (H Sample.climate_act).
  exists (Py.u "Adaptation"), (Sample.article 61 "Adaptation" "").
  split; [now left|]. split; [now left|]. left. reflexivity.
Defined.

(* ------------------------------------------------------------------ *)
(** ** Searches with free text *)
(* ------------------------------------------------------------------ *)

Section TextSearch.
Import Py Http ES Store Highlighted Explorer Props.

Variable an : Analyzer.

Lemma existsb_map_fields {A B} (f : B -> bool) (g : A -> B) (l : list A) :
  existsb f (List.map g l) = existsb (fun x => f (g x)) l.
Proof. induction l as [|x l IH]; simpl; [reflexivity | now rewrite IH]. Qed.

Lemma existsb_pointwise {A} (f g : A -> bool) (l : list A) :
  (forall x, f x = g x) -> existsb f l = existsb g l.
Proof.
  intros H. induction l as [|x l IH]; simpl; [reflexivity|].
  now rewrite H, IH.
Qed.

Lemma text_in_law_matches (q : pystr) (d : LawDoc) :
  forallb (matches an (List.map article_fields (articles d)) (law_fields d))
          (law_q_query q) = text_in_law an q d.
Proof.
  unfold law_q_query, text_in_law. simpl. unfold text_on. simpl.
  now rewrite orb_false_r, andb_true_r, !orb_assoc.
Qed.

Lemma text_in_article_matches (q : pystr) (a : ArticleDoc) :
  forallb (matches an [] (article_fields a)) (article_q_query q) =
  text_in_article an q a.
Proof.
  unfold article_q_query, text_in_article. simpl.
  unfold text_on, phrase_on. simpl.
  now rewrite orb_false_r, andb_true_r.
Qed.

(** The nested clause as a test on the articles of a law. *)
Lemma nested_matches (qs : list query) (hl : list (string * option nat))
  (r : query) (d : LawDoc) :
  reduce and_ qs = Ok r ->
  law_matches an (nested "articles" r hl) d =
  existsb (fun a => forallb (fun aq => article_matches an aq a) qs)
          (articles d).
Proof.
  intros Hr. unfold law_matches. cbn [matches].
  rewrite existsb_map_fields. apply existsb_pointwise. intros a.
  now rewrite (reduce_and_matches an [] (article_fields a) qs r Hr).
Qed.

Lemma bool_must_matches (must : list query) (d : LawDoc) :
  law_matches an (bool_ must [] None) d =
  forallb (fun x => law_matches an x d) must.
Proof. unfold law_matches. cbn [matches]. now rewrite andb_true_r. Qed.

Lemma text_in_law_forallb (q : pystr) (d : LawDoc) :
  forallb (fun x => law_matches an x d) (law_q_query q) = text_in_law an q d.
Proof. apply text_in_law_matches. Qed.

Lemma forallb_snoc_text (qs : list query) (q : pystr) (a : ArticleDoc) :
  forallb (fun aq => article_matches an aq a) (qs ++ article_q_query q) =
  forallb (fun aq => article_matches an aq a) qs && text_in_article an q a.
Proof.
  rewrite forallb_app. f_equal. apply text_in_article_matches.
Qed.

(** C2, as the code has it. With free text, the composed query is the
    disjunction of two alternatives. The first asks for the facet
    predicates and the text in the law and, of some article, the facet
    predicates only; the second asks for the facet predicates in the law
    and, of some article, the facet predicates and the text. A law matches
    exactly when one of the two does. *)
Theorem text_search_alternatives (f : facets) (q : pystr) :
  exists q_in_law q_in_article s,
    text_query f q = Ok (or_ q_in_law q_in_article) /\
    compose f (Some q) new_search = Ok s /\
    s_query s = Some (or_ q_in_law q_in_article) /\
    forall d,
      law_matches an q_in_law d =
        facets_in_law an f d && text_in_law an q d && nested_facets an f d /\
      law_matches an q_in_article d =
        facets_in_law an f d && nested_facets_and_text an f q d /\
      search_matches an s d = built_text_match an f q d.
Proof.
  assert (Hgoal : exists q_in_law q_in_article,
             text_query f q = Ok (or_ q_in_law q_in_article) /\
             forall d,
               law_matches an q_in_law d =
                 facets_in_law an f d && text_in_law an q d &&
                 nested_facets an f d /\
               law_matches an q_in_article d =
                 facets_in_law an f d && nested_facets_and_text an f q d).
  { unfold text_query, nested_facets, nested_facets_and_text,
      facets_in_article.
    destruct (article_queries f) as [|aq aqs] eqn:Haq.
    - simpl. eexists. eexists. split; [reflexivity|]. intros d. split.
      + rewrite bool_must_matches, forallb_app.
        change [multi_match q ["title"; "abstract"; "pdf_text";
                               "classifications"; "tags"]%string]
          with (law_q_query q).
        rewrite text_in_law_forallb.
        unfold facets_in_law. now rewrite andb_true_r.
      + rewrite bool_must_matches, forallb_app. unfold facets_in_law.
        f_equal. cbn [forallb]. rewrite andb_true_r.
        rewrite (nested_matches (article_q_query q) _ _ d eq_refl).
        apply existsb_pointwise. intros a.
        exact (text_in_article_matches q a).
    - cbn [nonempty nested_if orb].
      assert (H1 : reduce and_ (aq :: aqs) = Ok (fold_left and_ aqs aq))
        by reflexivity.
      assert (H2 : reduce and_ ((aq :: aqs) ++ article_q_query q) =
                   Ok (fold_left and_ (aqs ++ article_q_query q) aq))
        by reflexivity.
      rewrite H1, H2. cbn [Py.bind].
      eexists. eexists. split; [reflexivity|]. intros d. split.
      + rewrite bool_must_matches, !forallb_app, text_in_law_forallb.
        unfold facets_in_law. rewrite <- andb_assoc. do 2 f_equal.
        cbn [forallb]. rewrite andb_true_r.
        apply (nested_matches (aq :: aqs) _ _ d H1).
      + rewrite bool_must_matches, forallb_app. unfold facets_in_law.
        f_equal. cbn [forallb]. rewrite andb_true_r.
        rewrite (nested_matches _ _ _ d H2).
        apply existsb_pointwise. intros a. apply forallb_snoc_text. }
  destruct Hgoal as [a [b [Ht Hm]]].
  exists a, b. eexists. split; [exact Ht|].
  unfold compose. rewrite Ht. cbn [Py.bind].
  split; [reflexivity|]. split; [reflexivity|].
  intros d. destruct (Hm d) as [Ha Hb]. split; [exact Ha|].
  split; [exact Hb|].
  rewrite search_matches_add_highlight, search_matches_add_query.
  unfold built_text_match. rewrite <- Ha, <- Hb. reflexivity.
Qed.

(** On a law for which facet predicates met by an article are met by the
    law as well, the alternatives of the specification and the ones the
    view builds agree. *)
Lemma text_alternatives_agree_on_consistent_law (f : facets) (q : pystr)
  (d : LawDoc) :
  (nested_facets an f d = true -> facets_in_law an f d = true) ->
  spec_text_match an f q d = built_text_match an f q d.
Proof.
  unfold spec_text_match, built_text_match. intros H.
  destruct (nested_facets an f d), (facets_in_law an f d);
    try reflexivity.
  - now specialize (H eq_refl).
  - now rewrite !andb_false_r.
Qed.

End TextSearch.

(** A text search for "climate" with the tag 7: the law holds the text,
    one of its articles holds the tag name, its own tag fields do not.
    The alternatives of the specification accept it, the query the view
    builds does not. *)
Lemma text_in_law_needs_facets_in_law :
  let request := [("tags[]"%string, [Py.u "7"]); ("q"%string, [Py.u "climate"])] in
  exists f t,
    Explorer.facet_queries Sample.db request = Py.Ok (f, true) /\
    Explorer.text_query f (Py.u "climate") = Py.Ok t /\
    Props.spec_text_match Sample.substrings f (Py.u "climate")
      Sample.climate_act = true /\
    ES.law_matches Sample.substrings t Sample.climate_act = false.
Proof.
  intros request. eexists. eexists.
  split; [vm_compute; reflexivity|].
  split; [vm_compute; reflexivity|].
  split; vm_compute; reflexivity.
Qed.

(** A run of [text_search_alternatives]: the tag 7 and the text
    "climate", on a law that has the tag while one of its articles holds
    the text. The second alternative accepts it. *)
Lemma text_search_alternatives_witness :
  Explorer.facet_queries Sample.db [("tags[]"%string, [Py.u "7"])] =
    Py.Ok (Sample.adaptation_facets, true) /\
  exists q_in_law q_in_article s,
    Explorer.compose Sample.adaptation_facets (Some (Py.u "climate"))
      ES.new_search = Py.Ok s /\
    ES.s_query s = Some (ES.or_ q_in_law q_in_article) /\
    ES.law_matches Sample.substrings q_in_law Sample.adaptation_act = false /\
    ES.law_matches Sample.substrings q_in_article Sample.adaptation_act
      = true /\
    ES.search_matches Sample.substrings s Sample.adaptation_act = true.
Proof.
  split; [reflexivity|].
  destruct (text_search_alternatives Sample.substrings
              Sample.adaptation_facets (Py.u "climate"))
    as [a [b [s [_ [Hs [Hq Hm]]]]]].
  exists a, b, s. split; [exact Hs|]. split; [exact Hq|].
  destruct (Hm Sample.adaptation_act) as [Ha [Hb Hsm]].
  rewrite Ha, Hb, Hsm. repeat split; reflexivity.
Defined.

(* ------------------------------------------------------------------ *)
(** ** Hydration of a page of hits *)
(* ------------------------------------------------------------------ *)

Section HydrationProperties.
Import Py ES Store Highlighted Props.

Variable cfg : Settings.

Lemma read_highlight_acc (hit : Hit) (acc : matched) (law : Law) :
  fst (read_highlight cfg (hit_highlight hit) acc law) = extend cfg acc [hit].
Proof.
  unfold extend, hit_article_tags, hit_article_classifications. simpl.
  destruct (hit_highlight hit) as [h|]; simpl.
  - destruct (lookup h "article_tags"), (lookup h "article_classifications");
      simpl; now rewrite ?app_nil_r.
  - rewrite !app_nil_r. now destruct acc.
Qed.

Lemma read_highlight_record (hl : option (list (string * fragments)))
  (acc : matched) (law : Law) :
  record (snd (read_highlight cfg hl acc law)) = record law.
Proof. unfold read_highlight. now destruct hl. Qed.

Lemma extend_app (acc : matched) (l1 l2 : list Hit) :
  extend cfg (extend cfg acc l1) l2 = extend cfg acc (l1 ++ l2).
Proof.
  unfold extend. simpl. now rewrite !flat_map_app, !app_assoc.
Qed.

Lemma hydrate_one_acc (acc : matched) (hit : Hit) (law : Law) :
  fst (hydrate_one cfg acc hit law) = extend cfg acc [hit].
Proof.
  unfold hydrate_one. rewrite <- read_highlight_acc with (law := law).
  now destruct (read_highlight cfg (hit_highlight hit) acc law).
Qed.

(** The workaround, for a hit with an empty list of nested hits. *)
Lemma hydrate_one_fallback (acc : matched) (hit : Hit) (law : Law) :
  hit_inner_hits hit = Some [] ->
  any_matched (extend cfg acc [hit]) = true ->
  _highlighted_articles (snd (hydrate_one cfg acc hit law)) =
  Some (fallback_articles (extend cfg acc [hit]) (record law)).
Proof.
  intros Hin Hany. unfold hydrate_one.
  pose proof (read_highlight_acc hit acc law) as Hacc.
  pose proof (read_highlight_record (hit_highlight hit) acc law) as Hrec.
  destruct (read_highlight cfg (hit_highlight hit) acc law) as [acc' law'].
  simpl in Hacc, Hrec. subst acc'. rewrite Hin. simpl.
  rewrite Hany. simpl. now rewrite Hrec.
Qed.

(** The loop over a page, cut at any point: the second part starts from
    the accumulators the first part leaves. *)
Lemma hydrate_from_app (pre rest : list (Hit * Law)) :
  forall acc,
    hydrate_from cfg acc (pre ++ rest) =
    hydrate_from cfg acc pre ++
    hydrate_from cfg (extend cfg acc (List.map fst pre)) rest.
Proof.
  induction pre as [|[hit law] pre IH]; intros acc; simpl.
  - unfold extend. simpl. rewrite !app_nil_r. now destruct acc.
  - pose proof (hydrate_one_acc acc hit law) as Hacc.
    destruct (hydrate_one cfg acc hit law) as [acc' law']. simpl in Hacc.
    subst acc'. rewrite IH. simpl. f_equal. f_equal.
    now rewrite (extend_app acc [hit] (List.map fst pre)).
Qed.

Lemma hydrate_from_length (pairs : list (Hit * Law)) :
  forall acc, List.length (hydrate_from cfg acc pairs) = List.length pairs.
Proof.
  induction pairs as [|[hit law] pairs IH]; intros acc; simpl; auto.
  destruct (hydrate_one cfg acc hit law). simpl. now rewrite IH.
Qed.

(** C10. The accumulators start empty for a page and are only extended,
    hit after hit. When a hit of the page has an empty list of nested
    hits, the article list attached to its law is the workaround computed
    from the names matched by all the hits of the page up to and including
    this one. *)
Theorem fallback_uses_names_of_preceding_hits
  (pre : list (Hit * Law)) (hit : Hit) (law : Law)
  (post : list (Hit * Law)) :
  hit_inner_hits hit = Some [] ->
  any_matched (page_matches cfg (List.map fst pre ++ [hit])) = true ->
  exists law',
    nth_error (hydrate_from cfg no_match (pre ++ (hit, law) :: post))
              (List.length pre) = Some law' /\
    _highlighted_articles law' =
    Some (fallback_articles (page_matches cfg (List.map fst pre ++ [hit]))
                            (record law)).
Proof.
  intros Hin Hany. unfold page_matches in *.
  rewrite hydrate_from_app. simpl.
  pose proof (hydrate_one_fallback (extend cfg no_match (List.map fst pre))
                hit law Hin) as Hfb.
  rewrite extend_app in Hfb. specialize (Hfb Hany).
  destruct (hydrate_one cfg (extend cfg no_match (List.map fst pre)) hit law)
    as [acc' law'].
  exists law'. split; [|exact Hfb].
  rewrite nth_error_app2 by (rewrite hydrate_from_length; lia).
  rewrite hydrate_from_length, Nat.sub_diag. reflexivity.
Qed.

End HydrationProperties.

(** A run of [fallback_uses_names_of_preceding_hits]: the second hit has
    no highlight of its own, and the article list of its law is built from
    the name matched by the first hit. *)
Lemma fallback_uses_names_of_preceding_hits_witness :
  let pre := [(Sample.hit_with_tag, Highlighted.bare (Sample.row 1))] in
  let law := Highlighted.bare
               (Sample.row_with_article 2 [Py.u "Adaptation"; Py.u "Finance"]) in
  ES.hit_inner_hits Sample.hit_plain = Some [] /\
  Highlighted.any_matched
    (Props.page_matches Sample.cfg
       (List.map fst pre ++ [Sample.hit_plain])) = true /\
  Props.hit_article_tags Sample.cfg Sample.hit_plain = [] /\
  exists law',
    nth_error
      (Highlighted.hydrate_from Sample.cfg Highlighted.no_match
         (pre ++ [(Sample.hit_plain, law)])) 1 = Some law' /\
    Highlighted._highlighted_articles law' =
    Some [{| Highlighted.d_pk := 21;
             Highlighted.d_code := Py.u "a1";
             Highlighted.d_text := None;
             Highlighted.d_classifications := Some [];
             Highlighted.d_tags :=
               Some [Highlighted.mark_safe (Py.u "<em>Adaptation</em>");
                     Highlighted.unmarked (Py.u "Finance")] |}].
Proof.
  intros pre law. split; [reflexivity|]. split; [reflexivity|].
  split; [reflexivity|].
  destruct (fallback_uses_names_of_preceding_hits Sample.cfg pre
              Sample.hit_plain law [] eq_refl eq_refl) as [law' [H1 H2]].
  exists law'. split; [exact H1|]. rewrite H2. reflexivity.
Defined.

Section Fallback.
Import Py ES Store Highlighted Props.

Variable cfg : Settings.

Lemma side_Some (names : list pystr) (n : pystr) :
  In (Some n) (side names) -> In n names.
Proof.
  destruct names as [|x names]; simpl.
  - intros [H|[]]. discriminate.
  - intros [H|H]; [left; congruence|].
    right. apply in_map_iff in H. destruct H as [y [Hy Hin]]. congruence.
Qed.

Lemma Some_side (names : list pystr) (n : pystr) :
  In n names -> In (Some n) (side names).
Proof.
  destruct names as [|x names]; [intros []|].
  intros H. unfold side. now apply in_map.
Qed.

Lemma side_inhabited (names : list pystr) : exists x, In x (side names).
Proof.
  destruct names as [|x names]; simpl; eexists; left; reflexivity.
Qed.

Lemma name_in_true (x : option pystr) (names : list pystr) :
  name_in x names = true -> exists n, x = Some n /\ str_in n names = true.
Proof. destruct x as [n|]; simpl; [now exists n | discriminate]. Qed.

(** The relational query returns the articles of the law with a matched
    tag or classification name, and only them. *)
Lemma articles_filter_In (law : LawRecord) (tags cls : list pystr)
  (a : ArticleRecord) :
  In a (articles_filter law tags cls) <->
  In a (law_articles law) /\
  ((exists t, In t (art_tags a) /\ str_in t tags = true) \/
   (exists c, In c (art_classifications a) /\ str_in c cls = true)).
Proof.
  unfold articles_filter. rewrite in_flat_map. split.
  - intros [a' [Ha' Hin]]. apply in_map_iff in Hin.
    destruct Hin as [[x y] [<- Hrow]]. split; [exact Ha'|].
    apply filter_In in Hrow. destruct Hrow as [Hj Ht].
    unfold joined in Hj. apply in_prod_iff in Hj. destruct Hj as [Hx Hy].
    simpl in Ht. apply orb_true_iff in Ht. destruct Ht as [Ht|Ht];
      apply name_in_true in Ht; destruct Ht as [n [-> Hn]].
    + left. exists n. split; [now apply side_Some | exact Hn].
    + right. exists n. split; [now apply side_Some | exact Hn].
  - intros [Ha [[t [Ht Hm]]|[c [Hc Hm]]]]; exists a; (split; [exact Ha|]).
    + destruct (side_inhabited (art_classifications a)) as [y Hy].
      apply in_map_iff. exists (Some t, y). split; [reflexivity|].
      apply filter_In. split.
      * apply in_prod_iff. split; [now apply Some_side | exact Hy].
      * simpl. now rewrite Hm.
    + destruct (side_inhabited (art_tags a)) as [x Hx].
      apply in_map_iff. exists (x, Some c). split; [reflexivity|].
      apply filter_In. split.
      * apply in_prod_iff. split; [exact Hx | now apply Some_side].
      * simpl. rewrite Hm. apply orb_true_r.
Qed.

Lemma fallback_articles_In (acc : matched) (law : LawRecord)
  (d : article_dict) :
  In d (fallback_articles acc law) <->
  exists a, In a (law_articles law) /\ intersects acc a /\
            d = article_of_record acc a.
Proof.
  unfold fallback_articles. rewrite in_map_iff. split.
  - intros [a [<- Ha]]. apply articles_filter_In in Ha.
    destruct Ha as [Ha Hi]. exists a. repeat split; assumption.
  - intros [a [Ha [Hi ->]]]. exists a. split; [reflexivity|].
    apply articles_filter_In. split; assumption.
Qed.

Lemma emphasise_matched (names : list pystr) (name : pystr) :
  str_in name names = true ->
  emphasise names name = mark_safe (u "<em>" ++ name ++ u "</em>").
Proof. unfold emphasise. now intros ->. Qed.

(** A hit whose own highlight shows an article-level name makes the
    accumulators non-empty. *)
Lemma own_match_is_matched (acc : matched) (hit : Hit) :
  hit_article_tags cfg hit <> [] \/
  hit_article_classifications cfg hit <> [] ->
  any_matched (extend cfg acc [hit]) = true.
Proof.
  unfold any_matched, extend. simpl. rewrite !app_nil_r.
  intros [H|H].
  - destruct (hit_article_tags cfg hit); [congruence|].
    destruct (matched_article_classifications acc ++ _);
      destruct (matched_article_tags acc); reflexivity.
  - destruct (hit_article_classifications cfg hit); [congruence|].
    destruct (matched_article_classifications acc); reflexivity.
Qed.

(** C3, as the code has it. For a hit with an empty list of nested hits
    and matched article-level names, the law gets the list built from the
    relational query: one entry for every joined row of an article of the
    law whose tags or classifications meet the matched names, each
    matched name wrapped in the emphasis marker. The list is non-empty
    exactly when the store holds such an article. *)
Theorem fallback_lists_the_matching_articles
  (acc : matched) (hit : Hit) (law : Law) :
  hit_inner_hits hit = Some [] ->
  any_matched (extend cfg acc [hit]) = true ->
  let acc' := extend cfg acc [hit] in
  let attached := fallback_articles acc' (record law) in
  _highlighted_articles (snd (hydrate_one cfg acc hit law)) = Some attached /\
  (forall d,
      In d attached <->
      exists a, In a (law_articles (record law)) /\ intersects acc' a /\
                d = article_of_record acc' a) /\
  (forall a name,
      In name (art_tags a) ->
      str_in name (matched_article_tags acc') = true ->
      d_tags (article_of_record acc' a) =
        Some (List.map (emphasise (matched_article_tags acc')) (art_tags a)) /\
      emphasise (matched_article_tags acc') name =
        mark_safe (u "<em>" ++ name ++ u "</em>")) /\
  (forall a name,
      In name (art_classifications a) ->
      str_in name (matched_article_classifications acc') = true ->
      d_classifications (article_of_record acc' a) =
        Some (List.map (emphasise (matched_article_classifications acc'))
                       (art_classifications a)) /\
      emphasise (matched_article_classifications acc') name =
        mark_safe (u "<em>" ++ name ++ u "</em>")) /\
  (attached <> [] <->
   exists a, In a (law_articles (record law)) /\ intersects acc' a).
Proof.
  intros Hin Hany acc' attached.
  split; [now apply hydrate_one_fallback|].
  split; [intros d; apply fallback_articles_In|].
  split; [intros a name _ Hm; split;
          [reflexivity | now apply emphasise_matched]|].
  split; [intros a name _ Hm; split;
          [reflexivity | now apply emphasise_matched]|].
  split.
  - intros Hne. destruct attached as [|d rest] eqn:Hatt; [congruence|].
    assert (Hd : In d attached) by (rewrite Hatt; now left).
    apply fallback_articles_In in Hd. destruct Hd as [a [Ha [Hi _]]].
    now exists a.
  - intros [a [Ha Hi]] Hnil.
    assert (Hd : In (article_of_record acc' a) attached).
    { apply fallback_articles_In. exists a. repeat split; assumption. }
    rewrite Hnil in Hd. destruct Hd.
Qed.

End Fallback.

(** A run of [fallback_lists_the_matching_articles]: the store holds an
    article with the matched tag. *)
Lemma fallback_lists_the_matching_articles_witness :
  let law := Highlighted.bare
               (Sample.row_with_article 3 [Py.u "Adaptation"]) in
  ES.hit_inner_hits Sample.hit_gap = Some [] /\
  Highlighted.any_matched
    (Props.extend Sample.cfg Highlighted.no_match [Sample.hit_gap]) = true /\
  Highlighted._highlighted_articles
    (snd (Highlighted.hydrate_one Sample.cfg Highlighted.no_match
            Sample.hit_gap law)) =
  Some [{| Highlighted.d_pk := 31;
           Highlighted.d_code := Py.u "a1";
           Highlighted.d_text := None;
           Highlighted.d_classifications := Some [];
           Highlighted.d_tags :=
             Some [Highlighted.mark_safe (Py.u "<em>Adaptation</em>")] |}].
Proof.
  intros law. split; [reflexivity|]. split; [reflexivity|].
  destruct (fallback_lists_the_matching_articles Sample.cfg
              Highlighted.no_match Sample.hit_gap law eq_refl eq_refl)
    as [H _].
  rewrite H. reflexivity.
Defined.

(** The highlight of the hit shows that the article tag "Adaptation" was
    matched and its list of nested hits is empty, but the only article of
    the law in the store is tagged "Mitigation": the list attached to the
    law is empty. *)
Lemma fallback_list_can_be_empty :
  let rows := [Sample.row_with_article 3 [Py.u "Mitigation"]] in
  Props.hit_article_tags Sample.cfg Sample.hit_gap = [Py.u "Adaptation"] /\
  ES.hit_inner_hits Sample.hit_gap = Some [] /\
  List.map Highlighted._highlighted_articles
    (Highlighted.hydrate Sample.cfg [Sample.hit_gap] rows) = [Some []].
Proof.
  intros rows. repeat split; vm_compute; reflexivity.
Qed.

(** C9 on three hits whose titles are highlighted, the row of the second
    one being gone from the store. The page holds the rows of laws 1 and
    3, but the row of law 3 is paired with the second hit and carries the
    highlighted title of law 2; the third hit is the one left out. *)
Lemma missing_row_shifts_the_highlights :
  let all_laws := {| Highlighted.search := ES.new_search;
                     Highlighted.sort := None |} in
  List.map ES.hit_id
    (ES.execute Sample.idx_titles (ES.set_slice ES.new_search 0 3)) =
    [1; 2; 3] /\
  List.map Store.pk
    (Store.to_queryset Sample.db_without_2
       (ES.execute Sample.idx_titles (ES.set_slice ES.new_search 0 3))) =
    [1; 3] /\
  List.map (fun l => (Store.pk (Highlighted.record l),
                      Highlighted._highlighted_title l))
    (Highlighted.getitem Sample.cfg Sample.idx_titles Sample.db_without_2
       all_laws 0 3) =
    [(1, Some (Highlighted.mark_safe (Py.u "<em>one</em>")));
     (3, Some (Highlighted.mark_safe (Py.u "<em>two</em>")))].
Proof.
  intros all_laws. repeat split; vm_compute; reflexivity.
Qed.

(* ------------------------------------------------------------------ *)
(** ** Sorted searches *)
(* ------------------------------------------------------------------ *)

Section SortFacts.
Import ES.

Variable A : Type.
Variable leb : A -> A -> bool.
Hypothesis leb_total : forall a b, leb a b = true \/ leb b a = true.
Hypothesis leb_trans :
  forall a b c, leb a b = true -> leb b c = true -> leb a c = true.






End SortFacts.

Section Orders.
Import Py ES Props.





End Orders.

Section SortedPath.
Import Py Http ES Store Highlighted Explorer Props.


Lemma first_occurrences_nodup (ids : list Z) :
  forall seen,
    NoDup ids -> (forall k, In k ids -> ~ In k seen) ->
    first_occurrences seen ids = ids.
Proof.
  induction ids as [|k ids IH]; intros seen Hnd Hseen; simpl;
    [reflexivity|].
  inversion Hnd as [|? ? Hk Hnd']; subst.
  destruct (existsb (Z.eqb k) seen) eqn:He.
  - apply existsb_exists in He. destruct He as [x [Hx Hkx]].
    apply Z.eqb_eq in Hkx. subst x. exfalso.
    apply (Hseen k); [now left | exact Hx].
  - f_equal. apply IH; [exact Hnd'|].
    intros k' Hk' [->|Hin]; [contradiction|].
    apply (Hseen k'); [now right | exact Hin].
Qed.

Lemma pks_of_row_lookup (rows : list LawRecord) (k : Z) :
  NoDup (List.map pk rows) ->
  List.map pk (List.filter (fun r => pk r =? k) rows) =
  if existsb (fun r => pk r =? k) rows then [k] else [].
Proof.
  induction rows as [|r rows IH]; intros Hnd; simpl; [reflexivity|].
  inversion Hnd as [|? ? Hr Hnd']; subst.
  specialize (IH Hnd').
  destruct (pk r =? k) eqn:Hk; simpl.
  - apply Z.eqb_eq in Hk. rewrite IH.
    destruct (existsb (fun r0 => pk r0 =? k) rows) eqn:He;
      [|now rewrite Hk].
    apply existsb_exists in He. destruct He as [r' [Hin Hr']].
    apply Z.eqb_eq in Hr'. exfalso. apply Hr.
    rewrite Hk, <- Hr'. now apply in_map.
  - exact IH.
Qed.

(** With distinct hits and distinct keys, the rows come in the order of
    the hits, the hits without a row left out. *)
Lemma to_queryset_pks (st : Store) (hits : list Hit) :
  NoDup (List.map hit_id hits) ->
  NoDup (List.map pk (laws st)) ->
  List.map pk (to_queryset st hits) =
  List.filter (has_row st) (List.map hit_id hits).
Proof.
  intros Hh Hs. unfold to_queryset.
  rewrite first_occurrences_nodup by (auto; intros k _ []).
  clear Hh. induction (List.map hit_id hits) as [|k ids IH]; simpl;
    [reflexivity|].
  rewrite map_app, IH, pks_of_row_lookup by exact Hs.
  unfold has_row. now destruct (existsb (fun r => pk r =? k) (laws st)).
Qed.





End SortedPath.


(* ------------------------------------------------------------------ *)
(** ** The country filter as a whole *)
(* ------------------------------------------------------------------ *)

Section CountryFilter.
Import Py Http Country Props More.

Variable L : Literals.
Variable m : Ranges.

Lemma for_each_unchanged {A S} (body : S -> A -> result S) (s : S)
  (l : list A) :
  (forall x, In x l -> body s x = Ok s) -> for_each body s l = Ok s.
Proof.
  induction l as [|x l IH]; intros H; simpl; [reflexivity|].
  rewrite (H x) by now left. simpl. apply IH. intros y Hy. apply H.
  now right.
Qed.

Lemma for_each_invariant {A S} (body : S -> A -> result S) (Q : S -> Prop)
  (l : list A) :
  (forall s x s', body s x = Ok s' -> Q s -> Q s') ->
  forall s s', for_each body s l = Ok s' -> Q s -> Q s'.
Proof.
  intros Hstep. induction l as [|x l IH]; intros s s' H Hq; simpl in H.
  - now injection H as <-.
  - destruct (body s x) as [s1|e] eqn:Hb; simpl in H; [|discriminate].
    apply (IH s1 s' H). now apply (Hstep s x).
Qed.

(** A loop establishes what the step for [x0] establishes, if the other
    steps keep it. *)
Lemma for_each_establishes {A S} (body : S -> A -> result S)
  (Q : S -> Prop) (x0 : A) (l : list A) :
  (forall s s', body s x0 = Ok s' -> Q s') ->
  (forall s x s', body s x = Ok s' -> Q s -> Q s') ->
  forall s s', for_each body s l = Ok s' -> In x0 l \/ Q s -> Q s'.
Proof.
  intros Hest Hkeep. induction l as [|x l IH]; intros s s' H Hq; simpl in H.
  - injection H as <-. destruct Hq as [[]|Hq]. exact Hq.
  - destruct (body s x) as [s1|e] eqn:Hb; simpl in H; [|discriminate].
    apply (IH s1 s' H). destruct Hq as [[->|Hin]|Hq].
    + right. now apply (Hest s).
    + now left.
    + right. now apply (Hkeep s x).
Qed.


Lemma dict_set_new (d : list (clause L)) (c : clause L) :
  In c (dict_set L d c).
Proof.
  induction d as [|x d IH]; simpl; [now left|].
  destruct (same_key L x c); [now left | now right].
Qed.

Lemma dict_set_old (d : list (clause L)) (c x : clause L) :
  In x d -> same_key L x c = false -> In x (dict_set L d c).
Proof.
  induction d as [|y d IH]; intros Hin Hk; [destruct Hin|]. simpl.
  destruct Hin as [->|Hin].
  - rewrite Hk. now left.
  - destruct (same_key L y c); right; [exact Hin | now apply IH].
Qed.

(** The rows a filter call returns are rows it was given, and each passes
    the test of every keyword. *)
Lemma orm_filter_sound (d : list (clause L)) :
  forall rows out,
    orm_filter L d rows = Ok out ->
    (forall r, In r out -> In r rows) /\
    (forall c, In c d ->
               exists t, clause_test L c = Ok t /\
                         forall r, In r out -> t r = true).
Proof.
  induction d as [|c d IH]; intros rows out H; simpl in H.
  - injection H as <-. split; [auto | intros c []].
  - destruct (clause_test L c) as [t|e] eqn:Ht; simpl in H; [|discriminate].
    destruct (IH _ _ H) as [Hsub Hall]. split.
    + intros r Hr. apply Hsub in Hr. now apply filter_In in Hr.
    + intros c' [<-|Hc'].
      * exists t. split; [exact Ht|]. intros r Hr.
        apply Hsub in Hr. now apply filter_In in Hr.
      * now apply Hall.
Qed.

Lemma boolean_step_shape (s s' : View L) (request : QueryDict) (f : string) :
  filter_boolean_fields L s request f = Ok s' ->
  s' = s \/ exists lit, s' = set_data L s (exact L f lit).
Proof.
  unfold filter_boolean_fields.
  destruct (get_truthy request f) as [v|]; [|intros H; left; congruence].
  destruct (literal_eval L v) as [lit|e]; simpl; [|discriminate].
  intros H. right. exists lit. congruence.
Qed.

Lemma list_step_shape (s : View L) (request : QueryDict) (f : string) :
  filter_list_fields L s request f = s \/
  exists names, filter_list_fields L s request f =
                set_data L s (name__in L f names).
Proof.
  unfold filter_list_fields.
  destruct (getlist request f) as [|n names]; [now left|].
  right. now eexists.
Qed.

Lemma range_step_shape (s s' : View L) (request : QueryDict) (f : string) :
  filter_range_fields L m s request f = Ok s' ->
  s' = s \/
  exists a b, s' = set_data L (set_data L s (gte L f a)) (lte L f b).
Proof.
  unfold filter_range_fields.
  destruct (getlist request f) as [|x xs]; [intros H; left; congruence|].
  destruct (range_table (RANGE_FIELDS m) f) as [t|e]; simpl;
    [|discriminate].
  destruct (int_param request f) as [i|e]; simpl; [|discriminate].
  destruct (index t i) as [b|e]; simpl; [|discriminate].
  intros H. right. do 2 eexists. injection H as <-. reflexivity.
Qed.

(** No step changes [self.countries]. *)
Lemma filter_countries_rows (self s' : View L) (request : QueryDict)
  (rows : list Country) :
  filter_countries L m self request = Ok (s', rows) ->
  countries L s' = countries L self /\
  orm_filter L (data L s') (countries L self) = Ok rows.
Proof.
  unfold filter_countries. intros H.
  destruct (for_each (fun s f => filter_boolean_fields L s request f)
              self BOOLEAN_FIELDS) as [s1|e] eqn:H1; cbn [Py.bind] in H;
    [|discriminate].
  destruct (for_each (fun s f => Ok (filter_list_fields L s request f))
              s1 LIST_FIELDS) as [s2|e] eqn:H2; cbn [Py.bind] in H; [|discriminate].
  destruct (for_each (fun s f => filter_range_fields L m s request f)
              s2 (List.map fst (RANGE_FIELDS m))) as [s3|e] eqn:H3;
    cbn [Py.bind] in H; [|discriminate].
  destruct (orm_filter L (data L s3) (countries L s3)) as [out|e] eqn:H4;
    cbn [Py.bind] in H; [|discriminate].
  injection H as <- <-.
  assert (Hc : countries L s3 = countries L self).
  { apply (for_each_invariant _
             (fun s => countries L s = countries L self) _) with (s := s2)
      in H3.
    - exact H3.
    - intros s x s' Hs Hq. apply range_step_shape in Hs.
      destruct Hs as [->|[a [b ->]]]; exact Hq.
    - apply (for_each_invariant _
               (fun s => countries L s = countries L self) _) with (s := s1)
        in H2.
      + exact H2.
      + intros s x s' Hs Hq. injection Hs as <-.
        destruct (list_step_shape s request x) as [->|[names ->]]; exact Hq.
      + apply (for_each_invariant _
                 (fun s => countries L s = countries L self) _)
          with (s := self) in H1.
        * exact H1.
        * intros s x s' Hs Hq. apply boolean_step_shape in Hs.
          destruct Hs as [->|[lit ->]]; exact Hq.
        * reflexivity. }
  split; [exact Hc|]. now rewrite <- Hc.
Qed.

End CountryFilter.

Section CountryFilterProperties.
Import Py Http Country Props More.

Variable L : Literals.
Variable m : Ranges.

Lemma filter_countries_loops (self s' : View L) (request : QueryDict)
  (rows : list Country) :
  filter_countries L m self request = Ok (s', rows) ->
  exists s1 s2,
    for_each (fun s f => filter_boolean_fields L s request f)
      self BOOLEAN_FIELDS = Ok s1 /\
    for_each (fun s f => Ok (filter_list_fields L s request f))
      s1 LIST_FIELDS = Ok s2 /\
    for_each (fun s f => filter_range_fields L m s request f)
      s2 (List.map fst (RANGE_FIELDS m)) = Ok s' /\
    orm_filter L (data L s') (countries L s') = Ok rows.
Proof.
  unfold filter_countries. intros H.
  destruct (for_each (fun s f => filter_boolean_fields L s request f)
              self BOOLEAN_FIELDS) as [s1|e] eqn:H1; cbn [Py.bind] in H;
    [|discriminate].
  destruct (for_each (fun s f => Ok (filter_list_fields L s request f))
              s1 LIST_FIELDS) as [s2|e] eqn:H2; cbn [Py.bind] in H;
    [|discriminate].
  destruct (for_each (fun s f => filter_range_fields L m s request f)
              s2 (List.map fst (RANGE_FIELDS m))) as [s3|e] eqn:H3;
    cbn [Py.bind] in H; [|discriminate].
  destruct (orm_filter L (data L s3) (countries L s3)) as [out|e] eqn:H4;
    cbn [Py.bind] in H; [|discriminate].
  injection H as <- <-. exists s1, s2. repeat split; assumption.
Qed.

Lemma range_table_In (tbl : list (string * list bucket)) (f : string)
  (t : list bucket) :
  range_table tbl f = Ok t -> In f (List.map fst tbl).
Proof.
  induction tbl as [|[k b] tbl IH]; simpl; [discriminate|].
  destruct (String.eqb k f) eqn:Hk.
  - apply String.eqb_eq in Hk. now left.
  - intros H. right. now apply IH.
Qed.

Lemma range_step_valid (s : View L) (request : QueryDict) (field : string)
  (v : pystr) (t : list bucket) (i : Z) (mn mx : Q) :
  range_table (RANGE_FIELDS m) field = Ok t ->
  get request field = Some v ->
  int_opt v = Some i ->
  0 <= i < Z.of_nat (List.length t) ->
  nth_error t (Z.to_nat i) = Some (mn, mx) ->
  filter_range_fields L m s request field =
  Ok (set_data L (set_data L s (gte L field mn)) (lte L field mx)).
Proof.
  intros Ht Hv Hi Hr Hn. unfold filter_range_fields.
  pose proof (get_some_getlist _ _ _ Hv) as Hne.
  destruct (getlist request field) as [|x xs]; [congruence|].
  rewrite Ht. unfold int_param. rewrite Hv. unfold int. rewrite Hi.
  cbn [Py.bind]. rewrite (index_in_range t i (mn, mx)) by assumption.
  reflexivity.
Qed.


(** X1. A request without metadata parameters leaves [self.data] as it
    is: the countries returned are the ones the keywords already stored
    keep, and all the countries of the view when nothing is stored. *)
Theorem filter_countries_without_parameters
  (self : View L) (request : QueryDict) :
  no_metadata m request ->
  filter_countries L m self request =
    (rows <- orm_filter L (data L self) (countries L self) ;;
     Ok (self, rows)) /\
  (data L self = [] ->
   filter_countries L m self request = Ok (self, countries L self)).
Proof.
  intros [Hb [Hl Hr]].
  assert (H : filter_countries L m self request =
              (rows <- orm_filter L (data L self) (countries L self) ;;
               Ok (self, rows))).
  { unfold filter_countries.
    rewrite for_each_unchanged.
    2:{ intros f Hf. unfold filter_boolean_fields. now rewrite (Hb f Hf). }
    cbn [Py.bind]. rewrite for_each_unchanged.
    2:{ intros f Hf. unfold filter_list_fields. now rewrite (Hl f Hf). }
    cbn [Py.bind]. rewrite for_each_unchanged.
    2:{ intros f Hf. unfold filter_range_fields. now rewrite (Hr f Hf). }
    reflexivity. }
  split; [exact H|]. intros Hd. rewrite H, Hd. reflexivity.
Qed.

(** X2. When [filter_countries] returns, every country it returns lies in
    the bucket selected for a range field: the keywords of the field are
    still in [self.data] after the other fields were read, and the rows
    are rows of the view. *)
Theorem filter_countries_respects_bucket
  (self s' : View L) (request : QueryDict) (field : string) (v : pystr)
  (t : list bucket) (i : Z) (mn mx : Q) (rows : list Country) :
  range_table (RANGE_FIELDS m) field = Ok t ->
  get request field = Some v ->
  int_opt v = Some i ->
  0 <= i < Z.of_nat (List.length t) ->
  nth_error t (Z.to_nat i) = Some (mn, mx) ->
  filter_countries L m self request = Ok (s', rows) ->
  forall r, In r rows ->
            In r (countries L self) /\ in_bucket field mn mx r = true.
Proof.
  intros Ht Hv Hi Hr Hn Hrun r Hin.
  destruct (filter_countries_rows L m _ _ _ _ Hrun) as [_ Hf].
  destruct (orm_filter_sound L _ _ _ Hf) as [Hsub Hall].
  split; [now apply Hsub|].
  destruct (filter_countries_loops _ _ _ _ Hrun) as [s1 [s2 [_ [_ [H3 _]]]]].
  assert (Hp : In (gte L field mn) (data L s') /\
               In (lte L field mx) (data L s')).
  { apply (for_each_establishes _
             (fun s => In (gte L field mn) (data L s) /\
                       In (lte L field mx) (data L s))
             field _) with (s := s2) (s' := s') in H3.
    - exact H3.
    - intros s0 s0' Hs.
      rewrite (range_step_valid s0 request field v t i mn mx) in Hs
        by assumption.
      injection Hs as <-. simpl. split.
      + apply dict_set_old; [apply dict_set_new | reflexivity].
      + apply dict_set_new.
    - intros s0 x s0' Hs [Hg Hl].
      destruct (string_dec x field) as [->|Hx].
      + rewrite (range_step_valid s0 request field v t i mn mx) in Hs
          by assumption.
        injection Hs as <-. simpl. split.
        * apply dict_set_old; [apply dict_set_new | reflexivity].
        * apply dict_set_new.
      + assert (Hk : String.eqb field x = false)
          by (apply String.eqb_neq; congruence).
        apply range_step_shape in Hs. destruct Hs as [->|[a [b ->]]];
          [now split|].
        simpl. split; repeat apply dict_set_old; simpl; auto.
    - left. eapply range_table_In. exact Ht. }
  destruct Hp as [Hg Hl].
  destruct (Hall _ Hg) as [tg [Htg Hpg]].
  destruct (Hall _ Hl) as [tl [Htl Hpl]].
  simpl in Htg, Htl. injection Htg as <-. injection Htl as <-.
  specialize (Hpg r Hin). specialize (Hpl r Hin). unfold in_bucket.
  destruct (number r field); [|discriminate]. now rewrite Hpg, Hpl.
Qed.

(** X3. When [filter_countries] returns, every country it returns has,
    for a list field given in the request, a related name that is one of
    the requested names; a country without a related row is left out. *)
Theorem filter_countries_respects_names
  (self s' : View L) (request : QueryDict) (field : string)
  (rows : list Country) :
  In field LIST_FIELDS ->
  getlist request field <> [] ->
  filter_countries L m self request = Ok (s', rows) ->
  forall r, In r rows ->
            In r (countries L self) /\
            related_in field (getlist request field) r = true.
Proof.
  intros Hf Hne Hrun r Hin.
  destruct (filter_countries_rows L m _ _ _ _ Hrun) as [_ Hfil].
  destruct (orm_filter_sound L _ _ _ Hfil) as [Hsub Hall].
  split; [now apply Hsub|].
  destruct (filter_countries_loops _ _ _ _ Hrun) as [s1 [s2 [_ [H2 [H3 _]]]]].
  set (c := name__in L field (getlist request field)).
  assert (Hstep : forall s0, filter_list_fields L s0 request field =
                             set_data L s0 c).
  { intros s0. unfold filter_list_fields, c.
    destruct (getlist request field); [congruence | reflexivity]. }
  assert (H2' : In c (data L s2)).
  { apply (for_each_establishes _ (fun s => In c (data L s)) field _)
      with (s := s1) (s' := s2) in H2.
    - exact H2.
    - intros s0 s0' Hs. injection Hs as <-. rewrite Hstep.
      apply dict_set_new.
    - intros s0 x s0' Hs Hc. injection Hs as <-.
      destruct (string_dec x field) as [->|Hx].
      + rewrite Hstep. apply dict_set_new.
      + destruct (list_step_shape L s0 request x) as [->|[names ->]];
          [exact Hc|].
        apply dict_set_old; [exact Hc|]. simpl.
        apply String.eqb_neq. congruence.
    - now left. }
  assert (H3' : In c (data L s')).
  { apply (for_each_invariant _ (fun s => In c (data L s)) _)
      with (s := s2) (s' := s') in H3.
    - exact H3.
    - intros s0 x s0' Hs Hc. apply range_step_shape in Hs.
      destruct Hs as [->|[a [b ->]]]; [exact Hc|].
      simpl. repeat apply dict_set_old; auto.
    - exact H2'. }
  destruct (Hall _ H3') as [tn [Htn Hpn]].
  simpl in Htn. injection Htn as <-. exact (Hpn r Hin).
Qed.


End CountryFilterProperties.

(** A run of [filter_countries_without_parameters]: an empty request on a
    fresh view returns all the countries. *)
Lemma filter_countries_without_parameters_witness :
  More.no_metadata Sample.tables [] /\
  Country.filter_countries Sample.lits Sample.tables
    (Country.init Sample.lits Sample.lands) [] =
  Py.Ok (Country.init Sample.lits Sample.lands, Sample.lands).
Proof.
  assert (H : More.no_metadata Sample.tables [])
    by (repeat split; intros; reflexivity).
  split; [exact H|].
  now apply (filter_countries_without_parameters Sample.lits Sample.tables
               (Country.init Sample.lits Sample.lands) [] H).
Defined.

(** A run of [filter_countries_respects_bucket]: bucket 1 of the
    population table keeps one of the three countries. *)
Lemma filter_countries_respects_bucket_witness :
  let request := [("population"%string, [Py.u "1"])] in
  exists s' rows,
    Country.filter_countries Sample.lits Sample.tables
      (Country.init Sample.lits Sample.lands) request = Py.Ok (s', rows) /\
    List.map Country.iso rows = [Py.u "BB"] /\
    forall r, In r rows ->
      In r Sample.lands /\
      Props.in_bucket "population" (1000000 # 1)%Q (10000000 # 1)%Q r = true.
Proof.
  intros request.
  destruct (Country.filter_countries Sample.lits Sample.tables
              (Country.init Sample.lits Sample.lands) request)
    as [[s' rows]|e] eqn:Hrun; [|vm_compute in Hrun; discriminate].
  exists s', rows. split; [reflexivity|]. split.
  - vm_compute in Hrun. injection Hrun as _ <-. reflexivity.
  - apply (filter_countries_respects_bucket Sample.lits Sample.tables
             (Country.init Sample.lits Sample.lands) s' request
             "population" (Py.u "1") (Country.POP_RANGES Sample.tables) 1
             (1000000 # 1)%Q (10000000 # 1)%Q rows);
      [reflexivity | reflexivity | reflexivity | simpl; lia
      | reflexivity | exact Hrun].
Defined.

(** A run of [filter_countries_respects_names]: the region "Europe". *)
Lemma filter_countries_respects_names_witness :
  let request := [("region"%string, [Py.u "Europe"])] in
  exists s' rows,
    Country.filter_countries Sample.lits Sample.tables
      (Country.init Sample.lits More.regions) request = Py.Ok (s', rows) /\
    List.map Country.iso rows = [Py.u "AA"; Py.u "CC"] /\
    forall r, In r rows ->
      In r More.regions /\
      More.related_in "region" [Py.u "Europe"] r = true.
Proof.
  intros request.
  destruct (Country.filter_countries Sample.lits Sample.tables
              (Country.init Sample.lits More.regions) request)
    as [[s' rows]|e] eqn:Hrun; [|vm_compute in Hrun; discriminate].
  exists s', rows. split; [reflexivity|]. split.
  - vm_compute in Hrun. injection Hrun as _ <-. reflexivity.
  - apply (filter_countries_respects_names Sample.lits Sample.tables
             (Country.init Sample.lits More.regions) s' request "region"
             rows); [simpl; auto | discriminate | exact Hrun].
Defined.


(* ------------------------------------------------------------------ *)
(** ** Facet blocks and composition without free text *)
(* ------------------------------------------------------------------ *)

Section FacetComposition.
Import Py Http ES Store Highlighted Explorer Props More.

Variable an : Analyzer.

Lemma ints_nil_iff (l : list pystr) (ids : list Z) :
  ints l = Ok ids -> (ids = [] <-> l = []).
Proof.
  destruct l as [|x l]; simpl.
  - intros H. injection H as <-. tauto.
  - destruct (int x) as [z|e]; simpl; [|discriminate].
    destruct (ints l) as [zs|e]; simpl; [|discriminate].
    intros H. injection H as <-. split; discriminate.
Qed.

Lemma add_facet_shape (names : list pystr) (a b c d : string)
  (f f' : facets) :
  add_facet names a b c d f = Ok f' ->
  exists lq aq,
    f' = {| law_queries := law_queries f ++ [lq];
            article_queries := article_queries f ++ [aq];
            article_highlights :=
              article_highlights f ++ [(c, Some 0%nat)] |}.
Proof.
  unfold add_facet.
  destruct (either_field a b names) as [lq|e]; simpl; [|discriminate].
  destruct (either_field c d names) as [aq|e]; simpl; [|discriminate].
  intros H. injection H as <-. now exists lq, aq.
Qed.

(** X5. When the facet blocks complete, they have produced as many
    queries on the law as queries inside the articles and as highlight
    entries, one for each facet given and at most two, and none exactly
    when neither [classifications[]] nor [tags[]] was given. *)
Theorem facet_queries_come_in_pairs (st : Store) (request : QueryDict)
  (f : facets) (any_ids : bool) :
  facet_queries st request = Ok (f, any_ids) ->
  List.length (law_queries f) = List.length (article_queries f) /\
  List.length (article_queries f) = List.length (article_highlights f) /\
  (List.length (law_queries f) <= 2)%nat /\
  (law_queries f = [] <-> any_ids = false) /\
  (any_ids = false <->
   getlist request "classifications[]" = [] /\
   getlist request "tags[]" = []).
Proof.
  unfold facet_queries.
  destruct (ints (getlist request "classifications[]")) as [cs|e] eqn:Hc;
    cbn [Py.bind]; [|discriminate].
  pose proof (ints_nil_iff _ _ Hc) as Hcn.
  destruct (ints (getlist request "tags[]")) as [ts|e] eqn:Ht.
  2:{ destruct cs; cbn [Py.bind]; [discriminate|].
      destruct (add_facet _ _ _ _ _ no_facets); discriminate. }
  pose proof (ints_nil_iff _ _ Ht) as Htn.
  destruct cs as [|c cs].
  - cbn [Py.bind]. destruct ts as [|t ts].
    + cbn [Py.bind]. intros H. injection H as <- <-. simpl.
      repeat split; auto; tauto.
    + destruct (add_facet (names_of (tag_table st) (t :: ts)) "tags"
                  "article_tags" "articles.tags_text" "articles.parent_tags"
                  no_facets) as [f2|e] eqn:H2; cbn [Py.bind];
        [|discriminate].
      apply add_facet_shape in H2. destruct H2 as [lq [aq ->]].
      intros H. injection H as <- <-. simpl.
      repeat split; auto; try discriminate; intros; try tauto.
      * destruct Htn as [_ Htn]. destruct H as [_ H].
        specialize (Htn H). discriminate.
  - destruct (add_facet (names_of (classification_table st) (c :: cs))
                "classifications" "article_classifications"
                "articles.classifications_text"
                "articles.parent_classifications" no_facets)
      as [f1|e] eqn:H1; cbn [Py.bind]; [|discriminate].
    apply add_facet_shape in H1. destruct H1 as [lq [aq ->]].
    assert (Hno : ~ (getlist request "classifications[]" = [] /\
                     getlist request "tags[]" = [])).
    { intros [H _]. destruct Hcn as [_ Hcn]. specialize (Hcn H).
      discriminate. }
    destruct ts as [|t ts].
    + cbn [Py.bind]. intros H. injection H as <- <-. simpl.
      repeat split; auto; try discriminate; intros; tauto.
    + match goal with
      | |- context [add_facet ?n ?a ?b ?c ?d ?f0] =>
          destruct (add_facet n a b c d f0) as [f2|e] eqn:H2
      end; cbn [Py.bind]; [|discriminate].
      apply add_facet_shape in H2. destruct H2 as [lq2 [aq2 ->]].
      intros H. injection H as <- <-. simpl.
      repeat split; auto; try discriminate; intros; tauto.
Qed.

Lemma should_one (x : query) (d : LawDoc) :
  law_matches an (bool_ [] [x] (Some 1%nat)) d = law_matches an x d.
Proof.
  unfold law_matches. cbn [matches forallb andb List.filter].
  destruct (matches an _ _ x); reflexivity.
Qed.

Lemma should_two (x y : query) (d : LawDoc) :
  law_matches an (bool_ [] [x; y] (Some 1%nat)) d =
  law_matches an x d || law_matches an y d.
Proof.
  unfold law_matches. cbn [matches forallb andb]. apply one_of_two.
Qed.

(** The search composed from facets alone. *)
Lemma compose_facets_matches (f : facets) (s : Search) :
  (law_queries f = [] -> compose f None s = Ok s) /\
  (law_queries f <> [] ->
   exists s',
     compose f None s = Ok s' /\
     forall d,
       search_matches an s' d =
       search_matches an s d &&
       (facets_in_law an f d ||
        (nonempty (article_queries f) &&
         existsb (facets_in_article an f) (articles d)))).
Proof.
  unfold compose, facet_only_query. split.
  - intros ->. cbn [Py.bind].
    destruct (nested_if_ok (article_queries f) (article_highlights f))
      as [n ->]. reflexivity.
  - intros Hne. destruct (law_queries f) as [|lq lqs] eqn:Hl; [congruence|].
    assert (Hr : reduce and_ (lq :: lqs) = Ok (fold_left and_ lqs lq))
      by reflexivity.
    rewrite Hr. cbn [Py.bind].
    assert (Hroot : forall d,
               law_matches an (fold_left and_ lqs lq) d =
               facets_in_law an f d).
    { intros d. unfold law_matches, facets_in_law. rewrite Hl.
      apply (reduce_and_matches an _ _ (lq :: lqs) _ Hr). }
    destruct (article_queries f) as [|aq aqs] eqn:Ha.
    + cbn [nonempty nested_if Py.bind app]. eexists.
      split; [reflexivity|]. intros d.
      rewrite search_matches_add_query. f_equal.
      rewrite andb_false_l, orb_false_r, <- Hroot.
      apply should_one.
    + assert (Hn : reduce and_ (aq :: aqs) = Ok (fold_left and_ aqs aq))
        by reflexivity.
      cbn [nonempty nested_if]. rewrite Hn. cbn [Py.bind app].
      eexists. split; [reflexivity|]. intros d.
      rewrite search_matches_add_query. f_equal.
      rewrite andb_true_l, <- Hroot.
      unfold facets_in_article. rewrite Ha.
      rewrite <- (nested_matches an (aq :: aqs) (article_highlights f)
                    _ d Hn).
      apply should_two.
Qed.

(** X6. Without free text, the composition adds nothing when there is no
    query on the law, even if there are queries for the articles.
    Otherwise a law matches the composed search when it matched before
    and either meets all the queries on the law, or has one article that
    meets all the queries for the articles. *)
Theorem facet_only_search (f : facets) (s : Search) :
  (law_queries f = [] -> compose f None s = Ok s) /\
  (law_queries f <> [] ->
   exists s',
     compose f None s = Ok s' /\
     forall d,
       search_matches an s' d =
       search_matches an s d &&
       (facets_in_law an f d ||
        (nonempty (article_queries f) &&
         existsb (facets_in_article an f) (articles d)))).
Proof. apply compose_facets_matches. Qed.

End FacetComposition.

(** A run of [facet_only_search]: the facets of the tag "Adaptation" on a
    law that carries the tag. *)
Lemma facet_only_search_witness :
  Explorer.law_queries Sample.adaptation_facets <> [] /\
  exists s',
    Explorer.compose Sample.adaptation_facets None ES.new_search =
      Py.Ok s' /\
    ES.search_matches Sample.substrings s' Sample.adaptation_act = true.
Proof.
  assert (Hne : Explorer.law_queries Sample.adaptation_facets <> [])
    by discriminate.
  split; [exact Hne|].
  destruct (proj2 (facet_only_search Sample.substrings
                     Sample.adaptation_facets ES.new_search) Hne)
    as [s' [Hs Hm]].
  exists s'. split; [exact Hs|]. rewrite Hm. vm_compute. reflexivity.
Defined.

(** A run of [facet_queries_come_in_pairs]: a classification and a tag. *)
Lemma facet_queries_come_in_pairs_witness :
  let request := [("classifications[]"%string, [Py.u "1"]);
                  ("tags[]"%string, [Py.u "7"])] in
  exists f,
    Explorer.facet_queries Sample.db request = Py.Ok (f, true) /\
    List.length (Explorer.law_queries f) = 2%nat /\
    List.length (Explorer.article_queries f) = 2%nat.
Proof.
  intros request.
  destruct (Explorer.facet_queries Sample.db request) as [[f b]|e] eqn:Hf;
    [|vm_compute in Hf; discriminate].
  assert (Hb : b = true)
    by (vm_compute in Hf; injection Hf as _ <-; reflexivity).
  subst b. exists f. split; [reflexivity|].
  destruct (facet_queries_come_in_pairs Sample.db request f true Hf)
    as [H1 [_ [H2 [H3 _]]]].
  assert (H0 : Explorer.law_queries f <> [])
    by (intros E; apply H3 in E; discriminate).
  assert (H4 : List.length (Explorer.law_queries f) = 2%nat).
  { vm_compute in Hf. injection Hf as <-. reflexivity. }
  split; [exact H4 | now rewrite <- H1].
Defined.

Section FacetRequests.
Import Py Http ES Store Highlighted Explorer Props More.

Variable an : Analyzer.

Lemma names_in_fields (names : list pystr) (fs : fields) (f g : string)
  (t1 t2 : pystr) :
  text_field fs f = Some t1 -> text_field fs g = Some t2 ->
  existsb (fun n => phrase_on an fs f n || phrase_on an fs g n) names =
  names_in an names t1 t2.
Proof.
  intros Hf Hg. unfold names_in, phrase_on. now rewrite Hf, Hg.
Qed.

(** X7. For a request with classifications and tags and no free text,
    whose identifiers resolve to names, the composition succeeds and a
    law matches when it has a requested classification and a requested
    tag at the level of the law, or when one single article has both; a
    classification on one article and a tag on another do not make a
    nested match. *)
Theorem classification_and_tag_search (st : Store) (request : QueryDict)
  (cids tids : list Z) :
  get_truthy request "q" = None ->
  ints (getlist request "classifications[]") = Ok cids ->
  ints (getlist request "tags[]") = Ok tids ->
  names_of (classification_table st) cids <> [] ->
  names_of (tag_table st) tids <> [] ->
  let cnames := names_of (classification_table st) cids in
  let tnames := names_of (tag_table st) tids in
  exists f s,
    facet_queries st request = Ok (f, true) /\
    compose f (get_truthy request "q") new_search = Ok s /\
    forall d,
      search_matches an s d =
      (names_in an cnames (classifications d) (article_classifications d) &&
       names_in an tnames (tags d) (article_tags d)) ||
      existsb (fun a =>
                 names_in an cnames (a_classifications_text a)
                   (a_parent_classifications a) &&
                 names_in an tnames (a_tags_text a) (a_parent_tags a))
              (articles d).
Proof.
  intros Hq Hc Ht Hcn Htn cnames tnames.
  destruct (either_field_matches an "classifications"
              "article_classifications" _ Hcn) as [lqc [Elqc Hlqc]].
  destruct (either_field_matches an "articles.classifications_text"
              "articles.parent_classifications" _ Hcn) as [aqc [Eaqc Haqc]].
  destruct (either_field_matches an "tags" "article_tags" _ Htn)
    as [lqt [Elqt Hlqt]].
  destruct (either_field_matches an "articles.tags_text"
              "articles.parent_tags" _ Htn) as [aqt [Eaqt Haqt]].
  set (f := {| law_queries := [lqc; lqt];
               article_queries := [aqc; aqt];
               article_highlights :=
                 [("articles.classifications_text"%string, Some 0%nat);
                  ("articles.tags_text"%string, Some 0%nat)] |}).
  assert (Hf : facet_queries st request = Ok (f, true)).
  { unfold facet_queries. rewrite Hc. cbn [Py.bind].
    destruct cids as [|c cids]; [now rewrite names_of_nil in Hcn|].
    unfold add_facet at 1. rewrite Elqc, Eaqc. cbn [Py.bind].
    rewrite Ht. cbn [Py.bind].
    destruct tids as [|t tids]; [now rewrite names_of_nil in Htn|].
    unfold add_facet. rewrite Elqt, Eaqt. reflexivity. }
  destruct (proj2 (compose_facets_matches an f new_search))
    as [s [Hs Hm]]; [discriminate|].
  exists f, s. split; [exact Hf|]. rewrite Hq. split; [exact Hs|].
  intros d. rewrite Hm. cbn [search_matches new_search s_query andb].
  unfold facets_in_law, facets_in_article, law_matches, article_matches.
  cbn [law_queries article_queries f forallb nonempty andb].
  rewrite Hlqc, Hlqt, !andb_true_r. f_equal.
  apply existsb_pointwise. intros a. now rewrite Haqc, Haqt, andb_true_r.
Qed.

(** X8. For a request with free text and no facet, a law matches the
    composed search when the text matches one of its own text fields or
    the text of one of its articles. *)
Theorem text_only_search (st : Store) (request : QueryDict) (q : pystr) :
  getlist request "classifications[]" = [] ->
  getlist request "tags[]" = [] ->
  get_truthy request "q" = Some q ->
  exists s,
    facet_queries st request = Ok (no_facets, false) /\
    compose no_facets (get_truthy request "q") new_search = Ok s /\
    forall d,
      search_matches an s d =
      text_in_law an q d || existsb (text_in_article an q) (articles d).
Proof.
  intros Hc Ht Hq. rewrite Hq. eexists.
  split; [unfold facet_queries; rewrite Hc, Ht; reflexivity|].
  split; [reflexivity|]. intros d.
  rewrite search_matches_add_highlight, search_matches_add_query.
  cbn [search_matches new_search s_query andb].
  change (law_matches an
            (or_ (bool_ (law_q_query q) [] None)
                 (bool_ [nested "articles"
                           (or_ (multi_match q ["articles.text"%string])
                                (constant_score 50
                                   (match_phrase "articles.text" q)))
                           article_q_highlights] [] None)) d =
          text_in_law an q d || existsb (text_in_article an q) (articles d)).
  change (law_matches an (bool_ (law_q_query q) [] None) d ||
          law_matches an
            (bool_ [nested "articles"
                      (or_ (multi_match q ["articles.text"%string])
                           (constant_score 50
                              (match_phrase "articles.text" q)))
                      article_q_highlights] [] None) d =
          text_in_law an q d || existsb (text_in_article an q) (articles d)).
  rewrite !bool_must_matches, text_in_law_forallb. f_equal.
  cbn [forallb]. rewrite andb_true_r.
  rewrite (nested_matches an (article_q_query q) _ _ d eq_refl).
  apply existsb_pointwise. intros a.
  exact (text_in_article_matches an q a).
Qed.

End FacetRequests.

(** A run of [classification_and_tag_search]: the classification 1 and the
    tag 7, on a law with an article that has both. *)
Lemma classification_and_tag_search_witness :
  let request := [("classifications[]"%string, [Py.u "1"]);
                  ("tags[]"%string, [Py.u "7"])] in
  exists f s,
    Explorer.facet_queries Sample.db request = Py.Ok (f, true) /\
    Explorer.compose f None ES.new_search = Py.Ok s /\
    ES.search_matches Sample.substrings s More.energy_act = true /\
    ES.search_matches Sample.substrings s Sample.climate_act = false.
Proof.
  intros request.
  assert (Hc : Store.names_of (Store.classification_table Sample.db) [1]
               <> []) by (vm_compute; discriminate).
  assert (Ht : Store.names_of (Store.tag_table Sample.db) [7] <> [])
    by (vm_compute; discriminate).
  destruct (classification_and_tag_search Sample.substrings Sample.db
              request [1] [7] eq_refl eq_refl eq_refl Hc Ht)
    as [f [s [Hf [Hs Hm]]]].
  exists f, s. split; [exact Hf|]. split; [exact Hs|].
  rewrite !Hm. split; vm_compute; reflexivity.
Defined.

(** A run of [text_only_search]: the text "climate". *)
Lemma text_only_search_witness :
  let request := [("q"%string, [Py.u "climate"])] in
  exists s,
    Explorer.compose Explorer.no_facets (Some (Py.u "climate"))
      ES.new_search = Py.Ok s /\
    ES.search_matches Sample.substrings s Sample.climate_act = true /\
    ES.search_matches Sample.substrings s More.energy_act = false.
Proof.
  intros request.
  destruct (text_only_search Sample.substrings Sample.db request
              (Py.u "climate") eq_refl eq_refl eq_refl)
    as [s [_ [Hs Hm]]].
  exists s. split; [exact Hs|]. rewrite !Hm.
  split; vm_compute; reflexivity.
Defined.

(* ------------------------------------------------------------------ *)
(** ** Requests that return *)
(* ------------------------------------------------------------------ *)

Section ReturningRequests.
Import Py Http ES Store Highlighted Explorer Props More.

(** The result of a request with a sort key. *)
Lemma sorted_request_result (env : Env) (request : QueryDict) (key : pystr)
  (r : facets * bool) :
  get_sort request = Some key ->
  facet_queries (store env) request = Ok r ->
  get_queryset env request =
  deliver (paginator env {| search := new_search; sort := Some key |})
          (page_of request).
Proof.
  intros Hs Hf. unfold get_queryset. now rewrite Hf, Hs.
Qed.

(** A request that returns has a sort key. *)
Lemma returning_request_is_sorted (env : Env) (request : QueryDict)
  (pg : Paginator.Page Law) :
  get_queryset env request = Ok pg ->
  exists key r,
    get_sort request = Some key /\
    facet_queries (store env) request = Ok r.
Proof.
  intros H. unfold get_queryset in H.
  destruct (facet_queries (store env) request) as [r|e] eqn:Hf;
    cbn [Py.bind] in H; [|discriminate].
  destruct (get_sort request) as [key|] eqn:Hs.
  - now exists key, r.
  - rewrite unsorted_search_raises in H. discriminate.
Qed.

(** X11. With an explicit sort, once the classification and tag blocks
    have completed nothing else in the request but the page is looked at:
    two requests with the same sort key and the same page parameter, for
    both of which the two blocks complete without raising, get the same
    result, whatever their text, facets, countries, law types and years.
    (The blocks raise on an identifier that is not an integer literal and
    on identifiers that resolve to no name, also when a sort is given.) *)
Theorem sorted_request_ignores_filters (env : Env)
  (request request' : QueryDict) (key : pystr) :
  get_sort request = Some key ->
  get_sort request' = Some key ->
  page_of request = page_of request' ->
  (exists r, facet_queries (store env) request = Ok r) ->
  (exists r, facet_queries (store env) request' = Ok r) ->
  get_queryset env request = get_queryset env request'.
Proof.
  intros Hs Hs' Hp [r Hr] [r' Hr'].
  rewrite (sorted_request_result env request key r Hs Hr).
  rewrite (sorted_request_result env request' key r' Hs' Hr').
  now rewrite Hp.
Qed.

Lemma first_occurrences_length (ids : list Z) :
  forall seen,
    (List.length (first_occurrences seen ids) <= List.length ids)%nat.
Proof.
  induction ids as [|k ids IH]; intros seen; simpl; [lia|].
  destruct (existsb (Z.eqb k) seen); simpl.
  - specialize (IH seen). lia.
  - specialize (IH (k :: seen)). lia.
Qed.

Lemma row_lookup_length (rows : list LawRecord) (k : Z) :
  NoDup (List.map pk rows) ->
  (List.length (List.filter (fun r => (pk r =? k)%Z) rows) <= 1)%nat.
Proof.
  intros Hnd. rewrite <- (length_map pk), (pks_of_row_lookup _ _ Hnd).
  destruct (existsb (fun r => pk r =? k) rows); simpl; lia.
Qed.

(** With distinct keys in the store, a hit has at most one row. *)
Lemma to_queryset_length (st : Store) (hits : list Hit) :
  NoDup (List.map pk (laws st)) ->
  (List.length (to_queryset st hits) <= List.length hits)%nat.
Proof.
  intros Hnd. unfold to_queryset.
  pose proof (first_occurrences_length (List.map hit_id hits) []) as Hl.
  rewrite length_map in Hl.
  eapply Nat.le_trans; [|exact Hl]. clear Hl.
  induction (first_occurrences [] (List.map hit_id hits)) as [|k ids IH];
    simpl; [lia|].
  rewrite length_app.
  pose proof (row_lookup_length (laws st) k Hnd). lia.
Qed.

Lemma slice_length {A} (l : list A) (bottom top : Z) :
  (List.length (slice l bottom top) <= Z.to_nat (top - bottom))%nat.
Proof. unfold slice. apply firstn_le_length. Qed.

(** X12. A page that is returned never holds more laws than the page
    size, provided the keys of the legislation table are distinct. *)
Theorem page_size_is_bounded (env : Env) (request : QueryDict)
  (pg : Paginator.Page Law) :
  NoDup (List.map pk (laws (store env))) ->
  get_queryset env request = Ok pg ->
  (List.length (Paginator.object_list pg) <=
   Pos.to_nat (LAWS_PER_PAGE (settings env)))%nat.
Proof.
  intros Hnd H.
  destruct (returning_request_is_sorted env request pg H)
    as [key [r [Hs Hf]]].
  rewrite (sorted_request_result env request key r Hs Hf) in H.
  rewrite deliver_cases in H by (simpl; lia).
  injection H as <-.
  unfold page_at. cbn [Paginator.object_list Paginator.object_slice
                       Paginator.per_page Paginator.object_count paginator].
  unfold getitem. cbn [sort search].
  rewrite length_map.
  eapply Nat.le_trans; [apply to_queryset_length; exact Hnd|].
  unfold execute. rewrite length_map. unfold page_docs.
  cbn [s_slice set_sort set_slice].
  eapply Nat.le_trans; [apply slice_length|].
  match goal with
  | |- context [if ?c <=? ?t then ?c else ?t] =>
      destruct (Z.leb_spec c t)
  end; lia.
Qed.

End ReturningRequests.

(** A run of [sorted_request_ignores_filters]: the second request adds a
    text, a country and years to the first. *)
Lemma sorted_request_ignores_filters_witness :
  let request := [("promulgation_sort"%string, [Py.u "1"])] in
  let request' := [("promulgation_sort"%string, [Py.u "1"]);
                   ("q"%string, [Py.u "no such text"]);
                   ("countries[]"%string, [Py.u "ZZ"]);
                   ("from_year"%string, [Py.u "1800"]);
                   ("to_year"%string, [Py.u "1801"])] in
  Explorer.get_queryset Sample.env request' =
    Explorer.get_queryset Sample.env request /\
  Explorer.get_queryset Sample.env request' =
    Py.Ok {| Paginator.object_list :=
               [Highlighted.bare (Sample.row 2);
                Highlighted.bare (Sample.row 4)];
             Paginator.number := 1 |}.
Proof.
  intros request request'.
  assert (H : Explorer.get_queryset Sample.env request' =
              Explorer.get_queryset Sample.env request).
  { apply (sorted_request_ignores_filters Sample.env request' request
             (Py.u "year")); try reflexivity; eexists; reflexivity. }
  split; [exact H|]. rewrite H. vm_compute. reflexivity.
Defined.

(** A run of [page_size_is_bounded]: pages of two laws. *)
Lemma page_size_is_bounded_witness :
  let request := [("country_sort"%string, [Py.u "1"])] in
  NoDup (List.map Store.pk (Store.laws (Explorer.store Sample.env))) /\
  exists pg,
    Explorer.get_queryset Sample.env request = Py.Ok pg /\
    (List.length (Paginator.object_list pg) <= 2)%nat.
Proof.
  intros request.
  assert (Hnd : NoDup (List.map Store.pk
                         (Store.laws (Explorer.store Sample.env))))
    by (vm_compute; repeat constructor; simpl; intuition discriminate).
  split; [exact Hnd|].
  destruct (Explorer.get_queryset Sample.env request) as [pg|e] eqn:H;
    [|vm_compute in H; discriminate].
  exists pg. split; [reflexivity|].
  exact (page_size_is_bounded Sample.env request pg Hnd H).
Defined.

(* ------------------------------------------------------------------ *)
(** ** More on the hydration of a page *)
(* ------------------------------------------------------------------ *)

Section HydrationRows.
Import Py ES Store Highlighted Props More.

Variable cfg : Settings.

Lemma read_inner_hits_record (inner : option (list ArticleHit))
  (acc : matched) (law : Law) :
  record (read_inner_hits cfg inner acc law) = record law.
Proof.
  unfold read_inner_hits. destruct inner as [[|a l]|]; try reflexivity.
  now destruct (any_matched acc).
Qed.

Lemma hydrate_one_record (acc : matched) (hit : Hit) (law : Law) :
  record (snd (hydrate_one cfg acc hit law)) = record law.
Proof.
  unfold hydrate_one.
  pose proof (read_highlight_record cfg (hit_highlight hit) acc law) as H.
  destruct (read_highlight cfg (hit_highlight hit) acc law) as [acc' law'].
  simpl in *. now rewrite read_inner_hits_record.
Qed.

Lemma hydrate_from_records (pairs : list (Hit * Law)) :
  forall acc,
    List.map record (hydrate_from cfg acc pairs) =
    List.map (fun p => record (snd p)) pairs.
Proof.
  induction pairs as [|[hit law] pairs IH]; intros acc; simpl;
    [reflexivity|].
  pose proof (hydrate_one_record acc hit law) as H.
  destruct (hydrate_one cfg acc hit law) as [acc' law']. simpl in *.
  now rewrite H, IH.
Qed.

Lemma combine_bare_records (hits : list Hit) :
  forall rows : list LawRecord,
    List.map (fun p : Hit * Law => record (snd p))
             (combine hits (List.map bare rows)) =
    firstn (List.length hits) rows.
Proof.
  induction hits as [|h hits IH]; intros [|r rows]; simpl; try reflexivity.
  now rewrite IH.
Qed.

Lemma hydrate_records (hits : list Hit) (rows : list LawRecord) :
  List.map record (hydrate cfg hits rows) = firstn (List.length hits) rows.
Proof.
  unfold hydrate. now rewrite hydrate_from_records, combine_bare_records.
Qed.

(** X13. The loop only adds attributes: the rows of the laws it returns
    are the first rows of the queryset, in their order, one for every hit
    as long as rows are left; their number is the smaller of the number
    of hits and the number of rows. *)
Theorem hydration_keeps_the_rows (hits : list Hit) (rows : list LawRecord) :
  List.map record (hydrate cfg hits rows) = firstn (List.length hits) rows /\
  List.length (hydrate cfg hits rows) =
    Nat.min (List.length hits) (List.length rows).
Proof.
  split; [apply hydrate_records|].
  rewrite <- (length_map record), hydrate_records. apply length_firstn.
Qed.

Lemma filter_has_row_all (st : Store) (ids : list Z) :
  (forall k, In k ids -> has_row st k = true) ->
  List.filter (has_row st) ids = ids.
Proof.
  induction ids as [|k ids IH]; intros H; simpl; [reflexivity|].
  rewrite (H k) by now left. f_equal. apply IH. intros j Hj. apply H.
  now right.
Qed.

(** X14. When every hit of the page has a row in the store, hits and keys
    being distinct, every law of the page is paired with its own hit: the
    keys of the laws returned are the identifiers of the hits, in order,
    and no hit is left out. *)
Theorem hydration_pairs_hits_with_their_rows (st : Store) (hits : list Hit) :
  NoDup (List.map hit_id hits) ->
  NoDup (List.map pk (laws st)) ->
  (forall h, In h hits -> has_row st (hit_id h) = true) ->
  List.map (fun l => pk (record l))
    (hydrate cfg hits (to_queryset st hits)) = List.map hit_id hits /\
  List.length (hydrate cfg hits (to_queryset st hits)) = List.length hits.
Proof.
  intros Hh Hs Hall.
  assert (Hpk : List.map pk (to_queryset st hits) = List.map hit_id hits).
  { rewrite to_queryset_pks by assumption. apply filter_has_row_all.
    intros k Hk. apply in_map_iff in Hk. destruct Hk as [h [<- Hin]].
    now apply Hall. }
  assert (Hlen : List.length (to_queryset st hits) = List.length hits).
  { rewrite <- (length_map pk), Hpk. apply length_map. }
  split.
  - rewrite <- (map_map record pk), hydrate_records, <- Hlen.
    now rewrite firstn_all.
  - rewrite <- (length_map record), hydrate_records, <- Hlen.
    now rewrite firstn_all.
Qed.

Lemma articles_of_hits_pks (l : list ArticleHit) :
  List.map d_pk (articles_of_hits cfg l) =
    List.map ah_pk (List.filter has_highlight l) /\
  List.map d_code (articles_of_hits cfg l) =
    List.map ah_code (List.filter has_highlight l).
Proof.
  induction l as [|a l [IH1 IH2]]; simpl; [now split|].
  unfold article_of_hit, has_highlight.
  destruct (ah_highlight a); simpl; [now rewrite IH1, IH2 | now split].
Qed.

(** X15. For a hit with a non-empty list of nested hits, the list attached
    to the law has one entry for every nested hit that carries a
    highlight, in order and with its key and code; nested hits without a
    highlight are skipped. The relational workaround is not used then,
    whatever names were matched: when no nested hit carries a highlight
    the attached list is empty. *)
Theorem nested_hits_are_attached (acc : matched) (hit : Hit) (law : Law)
  (a : ArticleHit) (l : list ArticleHit) :
  hit_inner_hits hit = Some (a :: l) ->
  let attached := articles_of_hits cfg (a :: l) in
  _highlighted_articles (snd (hydrate_one cfg acc hit law)) = Some attached /\
  List.map d_pk attached =
    List.map ah_pk (List.filter has_highlight (a :: l)) /\
  List.map d_code attached =
    List.map ah_code (List.filter has_highlight (a :: l)) /\
  (List.filter has_highlight (a :: l) = [] -> attached = []).
Proof.
  intros Hin attached.
  destruct (articles_of_hits_pks (a :: l)) as [Hp Hc].
  split; [|split; [exact Hp|split; [exact Hc|]]].
  - unfold hydrate_one.
    destruct (read_highlight cfg (hit_highlight hit) acc law) as [acc' law'].
    simpl. now rewrite Hin.
  - intros Hf. fold attached in Hp. rewrite Hf in Hp. simpl in Hp.
    now destruct attached.
Qed.

End HydrationRows.

(** A run of [hydration_pairs_hits_with_their_rows]: the first three laws
    of the index, all present in the store. *)
Lemma hydration_pairs_hits_with_their_rows_witness :
  let hits := ES.execute Sample.idx_titles
                (ES.set_slice ES.new_search 0 3) in
  List.map (fun l => (Store.pk (Highlighted.record l),
                      Highlighted._highlighted_title l))
    (Highlighted.hydrate Sample.cfg hits
       (Store.to_queryset Sample.db hits)) =
  [(1, Some (Highlighted.mark_safe (Py.u "<em>one</em>")));
   (2, Some (Highlighted.mark_safe (Py.u "<em>two</em>")));
   (3, Some (Highlighted.mark_safe (Py.u "<em>three</em>")))] /\
  List.map (fun l => Store.pk (Highlighted.record l))
    (Highlighted.hydrate Sample.cfg hits
       (Store.to_queryset Sample.db hits)) = List.map ES.hit_id hits.
Proof.
  intros hits. split; [vm_compute; reflexivity|].
  apply (hydration_pairs_hits_with_their_rows Sample.cfg Sample.db hits).
  - vm_compute. repeat constructor; simpl; intuition discriminate.
  - vm_compute. repeat constructor; simpl; intuition discriminate.
  - intros h Hh. vm_compute in Hh.
    destruct Hh as [<-|[<-|[<-|[]]]]; reflexivity.
Defined.

(** A run of [nested_hits_are_attached]: the only nested hit carries no
    highlight, and the attached list is empty although an article tag was
    matched. *)
Lemma nested_hits_are_attached_witness :
  let law := Highlighted.bare
               (Sample.row_with_article 4 [Py.u "Adaptation"]) in
  ES.hit_inner_hits More.hit_with_bare_article =
    Some [{| ES.ah_pk := 41; ES.ah_code := Py.u "a1";
             ES.ah_highlight := None |}] /\
  Props.hit_article_tags Sample.cfg More.hit_with_bare_article =
    [Py.u "Adaptation"] /\
  Highlighted._highlighted_articles
    (snd (Highlighted.hydrate_one Sample.cfg Highlighted.no_match
            More.hit_with_bare_article law)) = Some [].
Proof.
  intros law. split; [reflexivity|]. split; [reflexivity|].
  destruct (nested_hits_are_attached Sample.cfg Highlighted.no_match
              More.hit_with_bare_article law _ _ eq_refl) as [H _].
  rewrite H. reflexivity.
Defined.

Section EmphasisedNames.
Import Py ES Store Highlighted Props More.

Variable cfg : Settings.
Hypothesis one_character : CONN_rest cfg = [].

Lemma split_go_piece (c : N) (part : pystr) :
  forall cur rest,
    (forall x, In x part -> x <> c) ->
    split_go [c] 0 cur (part ++ rest) = split_go [c] 0 (rev part ++ cur) rest.
Proof.
  induction part as [|x part IH]; intros cur rest H; [reflexivity|].
  simpl. replace (c =? x)%N with false.
  - simpl. rewrite IH by (intros y Hy; apply H; now right).
    now rewrite <- app_assoc.
  - symmetry. apply N.eqb_neq. intros E. apply (H x); [now left | auto].
Qed.

Lemma split_go_separator (c : N) (cur rest : pystr) :
  split_go [c] 0 cur (c :: rest) = rev cur :: split_go [c] 0 [] rest.
Proof. simpl. now rewrite N.eqb_refl. Qed.

(** Splitting at a one-character separator undoes joining with it. *)
Lemma split_join (c : N) (parts : list pystr) :
  parts <> [] ->
  (forall p, In p parts -> forall x, In x p -> x <> c) ->
  split c [] (join [c] parts) = parts.
Proof.
  unfold split. induction parts as [|p parts IH]; intros Hne H;
    [congruence|].
  destruct parts as [|q parts].
  - simpl. rewrite <- (app_nil_r p) at 1.
    rewrite split_go_piece by (apply H; now left).
    simpl. now rewrite app_nil_r, rev_involutive.
  - change (join [c] (p :: q :: parts))
      with (p ++ c :: join [c] (q :: parts)).
    rewrite split_go_piece by (apply H; now left).
    rewrite split_go_separator, app_nil_r, rev_involutive. f_equal.
    apply IH; [discriminate|]. intros p' Hp'. apply H. now right.
Qed.

Lemma unwrap_emphasis (n : pystr) :
  slice_from_to_end 4 5 (u "<em>" ++ n ++ u "</em>") = n.
Proof.
  unfold slice_from_to_end.
  change (u "<em>") with [60; 101; 109; 62]%N.
  change (u "</em>") with [60; 47; 101; 109; 62]%N.
  rewrite !length_app. simpl List.length. simpl skipn.
  replace (4 + (List.length n + 5) - 5 - 4)%nat with (List.length n) by lia.
  rewrite firstn_app, firstn_all, Nat.sub_diag. simpl. apply app_nil_r.
Qed.

Lemma emphasis_found (n : pystr) :
  contains EM (u "<em>" ++ n ++ u "</em>") = true.
Proof.
  unfold EM. change (u "<em>") with [60; 101; 109; 62]%N. reflexivity.
Qed.

Lemma emphasised_rendered (items : list (pystr * bool)) :
  (forall item, In item items -> snd item = false ->
                contains EM (fst item) = false) ->
  List.map (slice_from_to_end 4 5)
    (List.filter (contains EM) (List.map rendered items)) =
  List.map fst (List.filter snd items).
Proof.
  induction items as [|[n b] items IH]; intros H; [reflexivity|].
  assert (IH' := IH (fun item Hi => H item (or_intror Hi))).
  cbn [List.map]. destruct b.
  - change (rendered (n, true)) with (u "<em>" ++ n ++ u "</em>").
    cbn [List.filter]. rewrite emphasis_found.
    cbn [List.map List.filter snd fst].
    now rewrite unwrap_emphasis, IH'.
  - change (rendered (n, false)) with n.
    cbn [List.filter snd fst].
    assert (Hn : contains EM n = false)
      by (apply (H (n, false)); [now left | reflexivity]).
    rewrite Hn. exact IH'.
Qed.

(** The names cut out of a fragment whose pieces, as rendered, are free
    of the connector. *)
Lemma emphasised_of_rendered (items : list (pystr * bool)) :
  (forall item, In item items ->
                forall x, In x (rendered item) -> x <> CONN_first cfg) ->
  (forall item, In item items -> snd item = false ->
                contains EM (fst item) = false) ->
  emphasised cfg (join (TAXONOMY_CONNECTOR cfg) (List.map rendered items)) =
  List.map fst (List.filter snd items).
Proof.
  intros Hc Hm. unfold emphasised, split_conn, TAXONOMY_CONNECTOR.
  rewrite one_character.
  destruct items as [|item items]; [reflexivity|].
  rewrite split_join.
  - now apply emphasised_rendered.
  - discriminate.
  - intros p Hp. apply in_map_iff in Hp. destruct Hp as [it [<- Hit]].
    now apply Hc.
Qed.

(** X16. With a connector of one character that is not a character of the
    markers [<em>] and [</em>], the names cut out of the highlight of a
    taxonomy field are the matched names: if the fragment is the names
    joined by the connector, the matched ones wrapped whole in the
    markers, no name holding the connector and no unmatched name holding
    [<em>], the list comprehension returns exactly the matched names, in
    order. *)
Theorem emphasised_names_are_the_matched_names
  (items : list (pystr * bool)) :
  ~ In (CONN_first cfg) (u "<em>" ++ u "</em>") ->
  (forall item, In item items -> ~ In (CONN_first cfg) (fst item)) ->
  (forall item, In item items -> snd item = false ->
                contains EM (fst item) = false) ->
  emphasised cfg (join (TAXONOMY_CONNECTOR cfg) (List.map rendered items)) =
  List.map fst (List.filter snd items).
Proof.
  intros Hmark Hname Hm. apply emphasised_of_rendered; [|exact Hm].
  intros [n b] Hin x Hx E. subst x. unfold rendered in Hx.
  cbn [fst snd] in Hx. destruct b.
  - apply in_app_or in Hx. destruct Hx as [Hx|Hx].
    + apply Hmark. apply in_or_app. now left.
    + apply in_app_or in Hx. destruct Hx as [Hx|Hx].
      * exact (Hname (n, true) Hin Hx).
      * apply Hmark. apply in_or_app. now right.
  - exact (Hname (n, false) Hin Hx).
Qed.

End EmphasisedNames.

(** A run of [emphasised_names_are_the_matched_names]: three names, the
    first and the last matched. *)
Lemma emphasised_names_are_the_matched_names_witness :
  Store.CONN_rest Sample.cfg = [] /\
  Py.join (Store.TAXONOMY_CONNECTOR Sample.cfg)
    (List.map More.rendered More.three_names) =
    Py.u "<em>Adaptation</em>;Finance;<em>Water</em>" /\
  Highlighted.emphasised Sample.cfg
    (Py.u "<em>Adaptation</em>;Finance;<em>Water</em>") =
    [Py.u "Adaptation"; Py.u "Water"].
Proof.
  assert (E : Py.join (Store.TAXONOMY_CONNECTOR Sample.cfg)
                (List.map More.rendered More.three_names) =
              Py.u "<em>Adaptation</em>;Finance;<em>Water</em>")
    by reflexivity.
  split; [reflexivity|]. split; [exact E|]. rewrite <- E.
  rewrite (emphasised_names_are_the_matched_names Sample.cfg eq_refl
             More.three_names).
  - reflexivity.
  - intros Hx. vm_compute in Hx.
    repeat (destruct Hx as [Hx|Hx]; [discriminate|]). destruct Hx.
  - intros item Hi Hx. vm_compute in Hi.
    destruct Hi as [<-|[<-|[<-|[]]]]; vm_compute in Hx;
      repeat (destruct Hx as [Hx|Hx]; [discriminate|]); destruct Hx.
  - intros item Hi Hs. vm_compute in Hi.
    destruct Hi as [<-|[<-|[<-|[]]]]; try discriminate Hs; reflexivity.
Defined.

(* ------------------------------------------------------------------ *)
(** ** The context of the explorer and the pages view *)
(* ------------------------------------------------------------------ *)

Section OtherViews.
Import Py Http Views More.

Lemma find_key_removed (d : QueryDict) (key : string) :
  find_key (remove_key d key) key = None.
Proof.
  induction d as [|[k vs] d IH]; simpl; [reflexivity|].
  destruct (String.eqb k key) eqn:E; [exact IH|]. simpl. now rewrite E.
Qed.

Lemma find_key_kept (d : QueryDict) (key key' : string) :
  key' <> key -> find_key (remove_key d key) key' = find_key d key'.
Proof.
  intros Hne. induction d as [|[k vs] d IH]; simpl; [reflexivity|].
  destruct (String.eqb k key) eqn:E.
  - apply String.eqb_eq in E. subst k.
    replace (String.eqb key key') with false; [exact IH|].
    symmetry. apply String.eqb_neq. congruence.
  - simpl. now rewrite IH.
Qed.

Lemma pop_first_cases (d : QueryDict) (key : string) (default : Z)
  (v : year_value) (d' : QueryDict) :
  pop_first d key default = Ok (v, d') ->
  find_key d' key = None /\
  (forall key', key' <> key -> find_key d' key' = find_key d key') /\
  v = match find_key d key with
      | Some (x :: _) => year_str x
      | _ => year_int default
      end.
Proof.
  unfold pop_first. destruct (find_key d key) as [[|x xs]|] eqn:E;
    [discriminate| |]; intros H; injection H as <- <-.
  - split; [apply find_key_removed|]. split; [|reflexivity].
    intros key' Hne. now apply find_key_kept.
  - split; [exact E|]. split; reflexivity.
Qed.

Lemma getlist_find_key (d : QueryDict) (key : string) :
  getlist d key = match find_key d key with
                  | Some vs => vs
                  | None => []
                  end.
Proof.
  induction d as [|[k vs] d IH]; simpl; [reflexivity|].
  now destruct (String.eqb k key).
Qed.

Lemma rev_starts_with_last {A} (l : list A) (d : A) :
  l <> [] -> exists tl, rev l = last l d :: tl.
Proof.
  induction l as [|a l IH]; intros Hne; [congruence|].
  destruct l as [|b l]; [now exists []|].
  destruct IH as [tl Htl]; [discriminate|].
  exists (tl ++ [a]).
  change (rev (a :: b :: l)) with (rev (b :: l) ++ [a]).
  rewrite Htl. reflexivity.
Qed.

(** X17. The context of the explorer shows, for each year bound, the
    first value the request gives for it, or the bound of the settings;
    the filters it hands to the template hold every other parameter of
    the request unchanged and never the two year bounds. When a bound is
    given several times, the year block of the search reads the last
    value while the context shows the first. *)
Theorem year_context_drops_the_bounds (MIN_YEAR MAX_YEAR : Z)
  (GET : QueryDict) (from_year to_year : year_value) (filters : QueryDict) :
  year_context MIN_YEAR MAX_YEAR GET = Ok (from_year, to_year, filters) ->
  find_key filters "from_year" = None /\
  find_key filters "to_year" = None /\
  (forall key, key <> "from_year"%string -> key <> "to_year"%string ->
               find_key filters key = find_key GET key) /\
  from_year = match getlist GET "from_year" with
              | x :: _ => year_str x
              | [] => year_int MIN_YEAR
              end /\
  to_year = match getlist GET "to_year" with
            | x :: _ => year_str x
            | [] => year_int MAX_YEAR
            end /\
  (forall x xs, getlist GET "from_year" = x :: xs ->
                from_year = year_str x /\
                get GET "from_year" = Some (last (x :: xs) x)).
Proof.
  unfold year_context. intros H.
  destruct (pop_first GET "from_year" MIN_YEAR) as [[v1 d1]|e] eqn:H1;
    cbn [Py.bind fst snd] in H; [|discriminate].
  destruct (pop_first d1 "to_year" MAX_YEAR) as [[v2 d2]|e] eqn:H2;
    cbn [Py.bind fst snd] in H; [|discriminate].
  injection H as <- <- <-.
  destruct (pop_first_cases _ _ _ _ _ H1) as [A1 [B1 C1]].
  destruct (pop_first_cases _ _ _ _ _ H2) as [A2 [B2 C2]].
  assert (Hfrom : v1 = match getlist GET "from_year" with
                       | x :: _ => year_str x
                       | [] => year_int MIN_YEAR
                       end).
  { rewrite C1, getlist_find_key.
    unfold pop_first in H1.
    destruct (find_key GET "from_year") as [[|x xs]|];
      [discriminate | reflexivity | reflexivity]. }
  split; [rewrite B2 by discriminate; exact A1|].
  split; [exact A2|].
  split; [intros key Hf Ht; rewrite B2, B1 by assumption; reflexivity|].
  split; [exact Hfrom|].
  split.
  - rewrite C2, getlist_find_key, B1 by discriminate.
    unfold pop_first in H2. rewrite B1 in H2 by discriminate.
    destruct (find_key GET "to_year") as [[|x xs]|];
      [discriminate | reflexivity | reflexivity].
  - intros x xs Hl. rewrite Hfrom, Hl. split; [reflexivity|].
    unfold get. rewrite Hl.
    destruct (rev_starts_with_last (x :: xs) x) as [tl ->];
      [discriminate | reflexivity].
Qed.

Lemma content_get_set (d : list (Z * pystr)) (key n : Z) (value : pystr) :
  content_get (content_set d key value) n =
  if key =? n then Some value else content_get d n.
Proof.
  induction d as [|[k v] d IH]; simpl.
  - reflexivity.
  - destruct (k =? key) eqn:E; simpl.
    + apply Z.eqb_eq in E. subst k. now destruct (key =? n).
    + rewrite IH. destruct (k =? n) eqn:En; [|reflexivity].
      apply Z.eqb_eq in En. subst k. now rewrite Z.eqb_sym, E.
Qed.

Lemma find_snoc {A} (f : A -> bool) (l : list A) (x : A) :
  List.find f (l ++ [x]) =
  match List.find f l with
  | Some y => Some y
  | None => if f x then Some x else None
  end.
Proof.
  induction l as [|y l IH]; simpl; [reflexivity|].
  now destruct (f y).
Qed.

Lemma pages_loop (pages : list PageRow) (n : Z) :
  forall content,
    content_get
      (fold_left (fun c page =>
                    content_set c (page_number page) (page_text page))
                 pages content) n =
    match last_page pages n with
    | Some p => Some (page_text p)
    | None => content_get content n
    end.
Proof.
  unfold last_page. induction pages as [|p pages IH]; intros content;
    [reflexivity|].
  simpl. rewrite IH, find_snoc, content_get_set.
  destruct (List.find (fun q => page_number q =? n) (rev pages));
    [reflexivity|].
  now destruct (page_number p =? n).
Qed.

(** X18. The pages view answers with a 404 when the law is missing, and
    otherwise with a dict that holds, under every page number of the law,
    the text of the last page with that number, and no other key. *)
Theorem pages_view_keeps_the_last_page
  (law_pages : Z -> option (list PageRow)) (legislation_pk : Z) :
  (law_pages legislation_pk = None ->
   pages_view law_pages legislation_pk = None) /\
  (forall pages,
      law_pages legislation_pk = Some pages ->
      exists content,
        pages_view law_pages legislation_pk = Some content /\
        forall n,
          content_get content n =
          option_map page_text (last_page pages n)).
Proof.
  unfold pages_view. split.
  - now intros ->.
  - intros pages ->. eexists. split; [reflexivity|]. intros n.
    unfold pages_content. rewrite pages_loop.
    now destruct (last_page pages n).
Qed.

End OtherViews.

(** A run of [year_context_drops_the_bounds]: the lower bound is given
    twice. *)
Lemma year_context_drops_the_bounds_witness :
  let GET := [("q"%string, [Py.u "climate"]);
              ("from_year"%string, [Py.u "2000"; Py.u "2010"])] in
  Views.year_context 1945 2020 GET =
    Py.Ok (Views.year_str (Py.u "2000"), Views.year_int 2020,
           [("q"%string, [Py.u "climate"])]) /\
  Http.get GET "from_year" = Some (Py.u "2010") /\
  Views.find_key [("q"%string, [Py.u "climate"])] "from_year" = None.
Proof.
  intros GET.
  assert (H : Views.year_context 1945 2020 GET =
              Py.Ok (Views.year_str (Py.u "2000"), Views.year_int 2020,
                     [("q"%string, [Py.u "climate"])])) by reflexivity.
  split; [exact H|]. split; [reflexivity|].
  exact (proj1 (year_context_drops_the_bounds 1945 2020 GET _ _ _ H)).
Defined.

(** A run of [pages_view_keeps_the_last_page]: page 1 is stored twice. *)
Lemma pages_view_keeps_the_last_page_witness :
  let law_pages := fun k : Z => if k =? 1 then Some More.two_pages else None in
  exists content,
    Views.pages_view law_pages 1 = Some content /\
    Views.content_get content 1 = Some (Py.u "first again") /\
    Views.content_get content 2 = Some (Py.u "second") /\
    Views.content_get content 3 = None.
Proof.
  intros law_pages.
  destruct (proj2 (pages_view_keeps_the_last_page law_pages 1)
              More.two_pages eq_refl) as [content [Hc Hg]].
  exists content. split; [exact Hc|]. rewrite !Hg.
  repeat split; reflexivity.
Defined.
